(** * process-api: job lifecycle, active-job registry and REST handlers

    A shallow embedding of the job orchestration code of the process-api
    server and the properties of its specification.

    The repository carries two generations of the job code:
    - [src/api/jobs/active_jobs.go]: the registry of active jobs and the
      cloud-batch job with a guarded [NewStatusUpdate] (module [Api]);
    - [src/jobs/jobs.go] and [src/jobs/handlers.go]: the earlier cloud-batch
      job with its monitor loop [Run], and the REST handlers (module
      [Legacy]).

    Go pointers to jobs are modelled by explicit state passing; every call
    that leaves the process (provider, clock, storage, database) reads an
    oracle of the environment [Env] and is recorded in the [World]. *)

From Stdlib Require Import ZArith String List Lia Sorted.
From stdpp Require Import base tactics option list strings gmap.


#[local] Open Scope Z_scope.

(** ** Values shared by both generations *)

(** Go's [error] is carried by its message; [nil] is [None]. *)
Definition Error : Type := string.

Inductive result (A : Type) : Type :=
| Ok (a : A)
| Err (e : Error).
Arguments Ok {A} a.
Arguments Err {A} e.

(** [time.Time] as the offset from the zero instant, whose offset is 0. *)
Definition Time : Type := Z.
Definition IsZero (t : Time) : bool := (t =? 0)%Z.
Definition zeroTime : Time := 0.

(** OGCStatusCodes, [src/jobs/jobs.go] lines 57-63. *)
Definition ACCEPTED : string := "accepted".
Definition RUNNING : string := "running".
Definition SUCCESSFUL : string := "successful".
Definition FAILED : string := "failed".
Definition DISMISSED : string := "dismissed".

(** The terminal states of the specification. *)
Definition terminal (s : string) : bool :=
  (s =? SUCCESSFUL)%string || (s =? FAILED)%string || (s =? DISMISSED)%string.

(** JSON values as [encoding/json] decodes them into [interface{}]. *)
#[local] Unset Elimination Schemes.
Inductive json : Type :=
| JNull
| JBool (b : bool)
| JNum (n : Z)
| JStr (s : string)
| JArr (l : list json)
| JObj (l : list (string * json)).
#[local] Set Elimination Schemes.

(** ** The environment and the world *)

(** Answers of everything outside the process. Each call consumes one tick,
    so that two calls of the same function may answer differently. *)
Record Env : Type := {
  time_Now : nat -> Time;
  os_Getenv : string -> string;
  uuid_New : nat -> string;
  (* controllers.NewAWSBatchController(key, secret, region) *)
  NewAWSBatchController : nat -> string -> string -> string -> option Error;
  (* AWSBatchController.JobCreate(ctx, jobDef, jobName, jobQueue, cmd, env) *)
  JobCreate : nat -> string -> string -> string -> option (list string) ->
              gmap string string -> result string;
  (* AWSBatchController.JobMonitor(batchID): status and log stream *)
  JobMonitor : nat -> string -> result (string * string);
  (* AWSBatchController.JobKill(batchID) *)
  JobKill : nat -> string -> option Error;
  (* session.NewSession *)
  NewSession : nat -> option Error;
  (* cloudwatchlogs GetLogEvents(group, stream): the messages of the events *)
  GetLogEvents : nat -> string -> string -> result (list string);
  (* utils.KeyExists(key, svc) and utils.GetS3JsonData(key, svc) *)
  KeyExists : nat -> string -> result bool;
  GetS3JsonData : nat -> string -> result json
}.

(** What the process did to the outside, in order. *)
Inductive Event : Type :=
| EvNewController (region : string)
| EvJobCreate (jobDef jobName jobQueue : string) (cmd : option (list string))
| EvJobMonitor (batchID : string)
| EvJobKill (batchID : string)
| EvNewSession
| EvGetLogEvents (group stream : string)
| EvKeyExists (key : string)
| EvGetS3JsonData (key : string)
| EvDBUpdateJobRecord (uuid status : string) (t : Time)
| EvDBUpsertLogs (uuid pid : string) (apiLogs containerLogs : list string)
| EvDone (uuid : string)
| EvSleep (seconds : Z).

Record World : Type := {
  tick : nat;
  events : list Event
}.

Definition emit (e : Event) (w : World) : World :=
  {| tick := tick w; events := events w ++ [e] |}.

Definition advance (w : World) : World :=
  {| tick := S (tick w); events := events w |}.

(** Whether an event is a call to the provider (the cloud batch API). *)
Definition provider_call (e : Event) : bool :=
  match e with
  | EvNewController _ | EvJobCreate _ _ _ _ | EvJobMonitor _ | EvJobKill _ => true
  | _ => false
  end.

(** ** A state monad for methods with a pointer receiver *)

Definition M (S A : Type) : Type := S -> A * S.

Definition ret {S A : Type} (a : A) : M S A := fun s => (a, s).

Definition bind {S A B : Type} (m : M S A) (k : A -> M S B) : M S B :=
  fun s => let (a, s') := m s in k a s'.

Declare Scope go_scope.
Delimit Scope go_scope with go.
Notation "'let*' x ':=' m 'in' k" := (bind m (fun x => k))
  (at level 10, x name, m at level 100, k at level 200) : go_scope.
Notation "m ';;;' k" := (bind m (fun _ => k))
  (at level 100, k at level 200, right associativity) : go_scope.

Ltac run := unfold bind, ret in *; cbn in *.

Section WithEnv.

Context (E : Env).

(** The receiver and the world it acts on. *)
Definition St (J : Type) : Type := (J * World)%type.

Definition getJ {J : Type} : M (St J) J := fun s => (fst s, s).
Definition modifyJ {J : Type} (f : J -> J) : M (St J) unit :=
  fun s => (tt, (f (fst s), snd s)).
Definition emitW {J : Type} (e : Event) : M (St J) unit :=
  fun s => (tt, (fst s, emit e (snd s))).

(** One call to the outside: read the oracle at the current tick. *)
Definition ask {J A : Type} (oracle : nat -> A) (e : Event) : M (St J) A :=
  fun s => (oracle (tick (snd s)), (fst s, advance (emit e (snd s)))).

Definition now {J : Type} : M (St J) Time :=
  fun s => (time_Now E (tick (snd s)), (fst s, advance (snd s))).

Definition newController {J : Type} (regionVar : string) : M (St J) (option Error) :=
  ask (fun n => NewAWSBatchController E n (os_Getenv E "AWS_ACCESS_KEY_ID")
                  (os_Getenv E "AWS_SECRET_ACCESS_KEY") (os_Getenv E regionVar))
      (EvNewController (os_Getenv E regionVar)).

End WithEnv.

(** ** [src/api/jobs/active_jobs.go]: the guarded cloud-batch job *)

Module Api.

(** [AWSBatchJob], lines 61-93. The context and its cancel function are the
    flag [ctxDone], set when the cancel function is called; the wait groups only order goroutines and have no field
    here; [batchContext], [DB], [StorageSvc] and [DoneChan] are handles on
    the outside, whose use is an [Event] of the world. *)
Record AWSBatchJob : Type := {
  ctxDone : bool;
  UUID : string;
  AWSBatchID : string;
  ProcessName : string;
  Image : string;
  Cmd : list string;
  UpdateTime : Time;
  Status : string;
  apiLogs : list string;
  containerLogs : list string;
  JobDef : string;
  JobQueue : string;
  JobName : string;
  EnvVars : gmap string string;
  logStreamName : string;
  ProcessVersion : string
}.

Definition set_ctxDone (b : bool) (j : AWSBatchJob) : AWSBatchJob :=
  {| ctxDone := b; UUID := UUID j; AWSBatchID := AWSBatchID j;
     ProcessName := ProcessName j; Image := Image j; Cmd := Cmd j;
     UpdateTime := UpdateTime j; Status := Status j; apiLogs := apiLogs j;
     containerLogs := containerLogs j; JobDef := JobDef j; JobQueue := JobQueue j;
     JobName := JobName j; EnvVars := EnvVars j; logStreamName := logStreamName j;
     ProcessVersion := ProcessVersion j |}.

Definition set_UpdateTime (t : Time) (j : AWSBatchJob) : AWSBatchJob :=
  {| ctxDone := ctxDone j; UUID := UUID j; AWSBatchID := AWSBatchID j;
     ProcessName := ProcessName j; Image := Image j; Cmd := Cmd j;
     UpdateTime := t; Status := Status j; apiLogs := apiLogs j;
     containerLogs := containerLogs j; JobDef := JobDef j; JobQueue := JobQueue j;
     JobName := JobName j; EnvVars := EnvVars j; logStreamName := logStreamName j;
     ProcessVersion := ProcessVersion j |}.

Definition set_Status (s : string) (j : AWSBatchJob) : AWSBatchJob :=
  {| ctxDone := ctxDone j; UUID := UUID j; AWSBatchID := AWSBatchID j;
     ProcessName := ProcessName j; Image := Image j; Cmd := Cmd j;
     UpdateTime := UpdateTime j; Status := s; apiLogs := apiLogs j;
     containerLogs := containerLogs j; JobDef := JobDef j; JobQueue := JobQueue j;
     JobName := JobName j; EnvVars := EnvVars j; logStreamName := logStreamName j;
     ProcessVersion := ProcessVersion j |}.

Definition set_apiLogs (l : list string) (j : AWSBatchJob) : AWSBatchJob :=
  {| ctxDone := ctxDone j; UUID := UUID j; AWSBatchID := AWSBatchID j;
     ProcessName := ProcessName j; Image := Image j; Cmd := Cmd j;
     UpdateTime := UpdateTime j; Status := Status j; apiLogs := l;
     containerLogs := containerLogs j; JobDef := JobDef j; JobQueue := JobQueue j;
     JobName := JobName j; EnvVars := EnvVars j; logStreamName := logStreamName j;
     ProcessVersion := ProcessVersion j |}.

Definition set_containerLogs (l : list string) (j : AWSBatchJob) : AWSBatchJob :=
  {| ctxDone := ctxDone j; UUID := UUID j; AWSBatchID := AWSBatchID j;
     ProcessName := ProcessName j; Image := Image j; Cmd := Cmd j;
     UpdateTime := UpdateTime j; Status := Status j; apiLogs := apiLogs j;
     containerLogs := l; JobDef := JobDef j; JobQueue := JobQueue j;
     JobName := JobName j; EnvVars := EnvVars j; logStreamName := logStreamName j;
     ProcessVersion := ProcessVersion j |}.

Definition set_logStreamName (s : string) (j : AWSBatchJob) : AWSBatchJob :=
  {| ctxDone := ctxDone j; UUID := UUID j; AWSBatchID := AWSBatchID j;
     ProcessName := ProcessName j; Image := Image j; Cmd := Cmd j;
     UpdateTime := UpdateTime j; Status := Status j; apiLogs := apiLogs j;
     containerLogs := containerLogs j; JobDef := JobDef j; JobQueue := JobQueue j;
     JobName := JobName j; EnvVars := EnvVars j; logStreamName := s;
     ProcessVersion := ProcessVersion j |}.

(** [JobLogs], with the fields that [Logs] fills, lines 129-132. *)
Record JobLogs : Type := {
  logs_JobID : string;
  logs_ProcessID : string;
  logs_ContainerLogs : list string;
  logs_APILogs : list string
}.

Section Methods.

Context (E : Env).
#[local] Open Scope go_scope.

#[local] Abbreviation Mj := (M (St AWSBatchJob)).

(** [JobID], [CurrentStatus], [LastUpdate]: lines 99, 169, 148. *)
Definition JobID (j : AWSBatchJob) : string := UUID j.
Definition CurrentStatus (j : AWSBatchJob) : string := Status j.
Definition LastUpdate (j : AWSBatchJob) : Time := UpdateTime j.

(** [NewMessage], lines 144-146. *)
Definition NewMessage (m : string) : Mj unit :=
  modifyJ (fun j => set_apiLogs (apiLogs j ++ [m]) j).

(** [NewStatusUpdate], lines 152-167. *)
Definition NewStatusUpdate (status : string) (updateTime : Time) : Mj unit :=
  let* j := getJ in
  if ((Status j =? SUCCESSFUL) || (Status j =? DISMISSED) || (Status j =? FAILED))%string
  then ret tt
  else
    modifyJ (set_Status status) ;;;
    let* t := (if IsZero updateTime then now E else ret updateTime) in
    modifyJ (set_UpdateTime t) ;;;
    let* j := getJ in
    emitW (EvDBUpdateJobRecord (UUID j) status (UpdateTime j)).

(** [getLogStreamName], lines 252-264. *)
Definition getLogStreamName : Mj (option Error) :=
  let* cerr := newController E "AWS_DEFAULT_REGION" in
  match cerr with
  | Some e => ret (Some e)
  | None =>
      let* j := getJ in
      let* r := ask (fun n => JobMonitor E n (AWSBatchID j)) (EvJobMonitor (AWSBatchID j)) in
      match r with
      | Err e => ret (Some e)
      | Ok (_, stream) => modifyJ (set_logStreamName stream) ;;; ret None
      end
  end.

(** [fetchCloudWatchLogs], lines 267-314. *)
Definition fetchLogEvents : Mj (option Error) :=
  let* j := getJ in
  if (logStreamName j =? "")%string
  then ret (Some "logStreamName is empty. If you just ran your job, retry in few seconds")
  else
    let* serr := ask (NewSession E) EvNewSession in
    match serr with
    | Some e => ret (Some ("Error creating session: " +:+ e))
    | None =>
        let group := os_Getenv E "BATCH_LOG_STREAM_GROUP" in
        let* r := ask (fun n => GetLogEvents E n group (logStreamName j))
                      (EvGetLogEvents group (logStreamName j)) in
        match r with
        | Err e =>
            if (e =? "ResourceNotFoundException: The specified log stream does not exist.")%string
            then ret None else ret (Some e)
        | Ok logs => modifyJ (set_containerLogs logs) ;;; ret None
        end
    end.

Definition fetchCloudWatchLogs : Mj (option Error) :=
  let* j := getJ in
  if (logStreamName j =? "")%string
  then
    let* err := getLogStreamName in
    match err with
    | Some _ => ret (Some "could not get log stream name")
    | None => fetchLogEvents
    end
  else fetchLogEvents.

(** [Close], lines 402-414. *)
Definition Close : Mj unit :=
  modifyJ (set_ctxDone true) ;;;
  let* err := fetchCloudWatchLogs in
  match err with
  | Some e => NewMessage ("Could not fetch cloud watch logs. Error: " +:+ e)
  | None => ret tt
  end ;;;
  let* j := getJ in
  emitW (EvDBUpsertLogs (UUID j) (ProcessName j) (apiLogs j) (containerLogs j)) ;;;
  emitW (EvDone (UUID j)).

(** [Logs], lines 121-134. *)
Definition Logs : Mj (result JobLogs) :=
  let* err := fetchCloudWatchLogs in
  match err with
  | Some _ => ret (Err "could not get cloud watch logs")
  | None =>
      let* j := getJ in
      ret (Ok {| logs_JobID := UUID j; logs_ProcessID := ProcessName j;
                 logs_ContainerLogs := containerLogs j; logs_APILogs := apiLogs j |})
  end.

(** [Kill], lines 222-249; the deferred [Close] runs when the last branch
    returns. *)
Definition Kill : Mj (option Error) :=
  NewMessage "Received dismiss signal" ;;;
  let* j := getJ in
  if ((CurrentStatus j =? SUCCESSFUL) || (CurrentStatus j =? FAILED)
      || (CurrentStatus j =? DISMISSED))%string
  then ret (Some "can't call delete on an already completed, failed, or dismissed job")
  else
    let* cerr := newController E "AWS_REGION" in
    match cerr with
    | Some e =>
        NewMessage ("Could not send kill signal to AWS Batch API. Error: " +:+ e) ;;;
        ret (Some e)
    | None =>
        let* kerr := ask (fun n => JobKill E n (AWSBatchID j)) (EvJobKill (AWSBatchID j)) in
        match kerr with
        | Some e =>
            NewMessage ("Could not send kill signal to AWS Batch API. Error: " +:+ e) ;;;
            ret (Some e)
        | None =>
            NewStatusUpdate DISMISSED zeroTime ;;;
            Close ;;;
            ret None
        end
    end.

End Methods.

(** *** The registry of active jobs, lines 7-40 *)

(** The part of the [Job] interface the registry calls. A method acts on
    the job it is called on and on the world. *)
Class Job (J : Type) : Type := {
  job_JobID : J -> string;
  job_CurrentStatus : J -> string;
  job_Kill : Env -> M (St J) (option Error)
}.

#[global] Instance AWSBatchJob_Job : Job AWSBatchJob := {
  job_JobID := JobID;
  job_CurrentStatus := CurrentStatus;
  job_Kill := Kill
}.

(** [ActiveJobs]: the mutex serialises the methods and has no field. *)
Record ActiveJobs (J : Type) : Type := { Jobs : gmap string J }.
Arguments Jobs {J} _.

(** What [KillAll] did: its return value, the calls of [Kill] it made with
    what each returned (kept for the statements only), and the state left. *)
Record KillAllRun (J : Type) : Type := {
  ka_err : option Error;
  ka_calls : list (string * option Error);
  ka_jobs : ActiveJobs J;
  ka_world : World
}.
Arguments ka_err {J} _.
Arguments ka_calls {J} _.
Arguments ka_jobs {J} _.
Arguments ka_world {J} _.

Section Registry.

Context (E : Env) {J : Type} `{!Job J}.

(** [Add] and [Remove], lines 13-25. *)
Definition Add (j : J) (ac : ActiveJobs J) : ActiveJobs J :=
  {| Jobs := <[job_JobID j := j]> (Jobs ac) |}.

Definition Remove (j : J) (ac : ActiveJobs J) : ActiveJobs J :=
  {| Jobs := delete (job_JobID j) (Jobs ac) |}.

(** The test of line 33. *)
Definition wants_kill (j : J) : bool :=
  ((job_CurrentStatus j =? ACCEPTED) || (job_CurrentStatus j =? RUNNING))%string.

(** [KillAll], lines 28-40. Go ranges over the map in an order of its own
    choosing: [order] is that order, a list of the keys. The map holds
    pointers, so the job that [Kill] changed is the one the map holds. *)
Fixpoint KillAll (order : list string) (ac : ActiveJobs J) (w : World) : KillAllRun J :=
  match order with
  | [] => {| ka_err := None; ka_calls := []; ka_jobs := ac; ka_world := w |}
  | k :: rest =>
      match Jobs ac !! k with
      | None => KillAll rest ac w
      | Some j =>
          if wants_kill j then
            let '(err, (j', w')) := job_Kill E (j, w) in
            let ac' := {| Jobs := <[k := j']> (Jobs ac) |} in
            match err with
            | Some e =>
                {| ka_err := Some e; ka_calls := [(k, Some e)];
                   ka_jobs := ac'; ka_world := w' |}
            | None =>
                let r := KillAll rest ac' w' in
                {| ka_err := ka_err r; ka_calls := (k, None) :: ka_calls r;
                   ka_jobs := ka_jobs r; ka_world := ka_world r |}
            end
          else KillAll rest ac w
      end
  end.

(** The registered jobs whose status is accepted or running. *)
Definition active (ac : ActiveJobs J) (k : string) : bool :=
  match Jobs ac !! k with
  | Some j => wants_kill j
  | None => false
  end.

End Registry.

(** *** Submission and metadata, lines 186-220 and 317-382 *)

Definition set_AWSBatchID (s : string) (j : AWSBatchJob) : AWSBatchJob :=
  {| ctxDone := ctxDone j; UUID := UUID j; AWSBatchID := s;
     ProcessName := ProcessName j; Image := Image j; Cmd := Cmd j;
     UpdateTime := UpdateTime j; Status := Status j; apiLogs := apiLogs j;
     containerLogs := containerLogs j; JobDef := JobDef j; JobQueue := JobQueue j;
     JobName := JobName j; EnvVars := EnvVars j; logStreamName := logStreamName j;
     ProcessVersion := ProcessVersion j |}.

(** The answer of [DB.addJob(jid, status, updated, mode, host, process)],
    defined outside [src]. *)
Record DBEnv : Type := {
  DB_addJob : nat -> string -> string -> Time -> string -> string -> string -> option Error
}.

(** The [process], [image] and [metaData] of the record that [WriteMetaData]
    writes, lines 352-370; the times are those that [GetJobTimes] answers. *)
Record process : Type := { process_id : string; process_version : string }.
Record image : Type := { image_uri : string; image_digest : string }.
Record metaData : Type := {
  md_Context : string;
  md_JobID : string;
  md_Process : process;
  md_Image : image;
  md_Commands : list string;
  md_GeneratedAtTime : Time;
  md_StartedAtTime : Time;
  md_EndedAtTime : Time
}.

(** The answers that [WriteMetaData] needs: the controller's [GetImageURI]
    and [GetJobTimes], the two digest lookups and [json.Marshal], all defined
    outside [src]. *)
Record MetaEnv : Type := {
  GetImageURI : nat -> string -> result string;
  getECRImageDigest : nat -> string -> result string;
  getDkrHubImageDigest : nat -> string -> string -> result string;
  GetJobTimes : nat -> string -> result (Time * Time * Time);
  json_Marshal : metaData -> result string
}.

(** The arguments of [utils.WriteToS3(svc, data, key, contentType, n)]. *)
Record S3Put : Type := {
  put_data : string;
  put_key : string;
  put_contentType : string;
  put_arg : Z
}.

(** [strings.Contains(s, substr)]. *)
Fixpoint Contains (s substr : string) : bool :=
  String.prefix substr s ||
  match s with
  | EmptyString => false
  | String _ s' => Contains s' substr
  end.

Section Submission.

Context (E : Env) (D : DBEnv) (Q : MetaEnv).
#[local] Open Scope go_scope.

#[local] Abbreviation Mj := (M (St AWSBatchJob)).

(** One call to the outside that leaves no event: the oracle is read at the
    current tick. *)
Definition answer {A : Type} (oracle : nat -> A) : Mj A :=
  fun s => (oracle (tick (snd s)), (fst s, advance (snd s))).

(** [Create], lines 186-220. The context is a new one; [wgRun] has no
    field. *)
Definition Create : Mj (option Error) :=
  modifyJ (set_ctxDone false) ;;;
  let* cerr := newController E "AWS_REGION" in
  match cerr with
  | Some e => modifyJ (set_ctxDone true) ;;; ret (Some e)
  | None =>
      let* j := getJ in
      let* r := ask (fun n => JobCreate E n (JobDef j) (JobName j) (JobQueue j)
                                (Some (Cmd j)) (EnvVars j))
                    (EvJobCreate (JobDef j) (JobName j) (JobQueue j) (Some (Cmd j))) in
      match r with
      | Err e => modifyJ (set_ctxDone true) ;;; ret (Some e)
      | Ok aWSBatchID =>
          modifyJ (set_AWSBatchID aWSBatchID) ;;;
          let* t := now E in
          let* derr := answer (fun n => DB_addJob D n (UUID j) "accepted" t ""
                                          "aws-batch" (ProcessName j)) in
          match derr with
          | Some e => modifyJ (set_ctxDone true) ;;; ret (Some e)
          | None => NewStatusUpdate E ACCEPTED zeroTime ;;; ret None
          end
      end
  end.

(** The branches of [WriteMetaData] that log an error and return. *)
Definition metadata_error (e : Error) : Mj (option S3Put) :=
  NewMessage ("error writing metadata: " +:+ e) ;;; ret None.

(** [WriteMetaData], lines 323-381, between the two messages. The result is
    what the last line hands to [utils.WriteToS3], whose own result the code
    drops. *)
Definition WriteMetaData_steps : Mj (option S3Put) :=
  let* cerr := newController E "AWS_REGION" in
  match cerr with
  | Some e => metadata_error e
  | None =>
      let* j := getJ in
      let* ruri := answer (fun n => GetImageURI Q n (JobDef j)) in
      match ruri with
      | Err e => metadata_error e
      | Ok imgURI =>
          let* rdgst :=
            (if Contains imgURI "amazonaws.com/"
             then answer (fun n => getECRImageDigest Q n imgURI)
             else answer (fun n => getDkrHubImageDigest Q n imgURI "dummy")) in
          match rdgst with
          | Err e => metadata_error e
          | Ok imgDgst =>
              let* rtimes := answer (fun n => GetJobTimes Q n (AWSBatchID j)) in
              match rtimes with
              | Err e => metadata_error e
              | Ok (g, s, e) =>
                  let md :=
                    {| md_Context :=
                         "https://github.com/Dewberry/process-api/blob/main/context.jsonld";
                       md_JobID := UUID j;
                       md_Process := {| process_id := ProcessName j;
                                        process_version := ProcessVersion j |};
                       md_Image := {| image_uri := imgURI; image_digest := imgDgst |};
                       md_Commands := Cmd j;
                       md_GeneratedAtTime := g;
                       md_StartedAtTime := s;
                       md_EndedAtTime := e |} in
                  match json_Marshal Q md with
                  | Err e => metadata_error e
                  | Ok jsonBytes =>
                      ret (Some {| put_data := jsonBytes;
                                   put_key := os_Getenv E "STORAGE_METADATA_DIR" +:+ "/"
                                              +:+ UUID j +:+ ".json";
                                   put_contentType := "application/json";
                                   put_arg := 0 |})
                  end
              end
          end
      end
  end.

(** [WriteMetaData], lines 317-382: the deferred message runs on every
    return. *)
Definition WriteMetaData : Mj (option S3Put) :=
  NewMessage "Starting metadata writing routine." ;;;
  let* put := WriteMetaData_steps in
  NewMessage "Finished metadata writing routine." ;;;
  ret put.

End Submission.

End Api.

(** ** [src/jobs]: the earlier cloud-batch job and the REST handlers *)

Module Legacy.

(** A call returns, panics, or has not returned when the fuel of a loop
    inside it ran out. *)
Inductive outcome (A : Type) : Type :=
| Returned (a : A)
| Panicked (msg : string)
| Blocked.
Arguments Returned {A} a.
Arguments Panicked {A} msg.
Arguments Blocked {A}.

(** [AWSBatchJob], [src/jobs/jobs.go] lines 149-168. [Ctx] and [CtxCancel]
    are the flag [ctxDone], set when the cancel function is called ([Create]
    installs the function before any other method runs); a nil [Cmd] is
    [None]; [BatchContext] is a handle on the outside; the [Link] type is
    declared outside [src] and no method modelled here reads [Links]. *)
Record AWSBatchJob : Type := {
  ctxDone : bool;
  UUID : string;
  AWSBatchID : string;
  ProcessName : string;
  ImgTag : string;
  Cmd : option (list string);
  UpdateTime : Time;
  Status : string;
  APILogs : list string;
  ContainerLogs : list string;
  Links : list string;
  JobDef : string;
  JobQueue : string;
  JobName : string;
  EnvVars : gmap string string
}.

Definition set_ctxDone (b : bool) (j : AWSBatchJob) : AWSBatchJob :=
  {| ctxDone := b; UUID := UUID j; AWSBatchID := AWSBatchID j;
     ProcessName := ProcessName j; ImgTag := ImgTag j; Cmd := Cmd j;
     UpdateTime := UpdateTime j; Status := Status j; APILogs := APILogs j;
     ContainerLogs := ContainerLogs j; Links := Links j; JobDef := JobDef j;
     JobQueue := JobQueue j; JobName := JobName j; EnvVars := EnvVars j |}.

Definition set_UUID (s : string) (j : AWSBatchJob) : AWSBatchJob :=
  {| ctxDone := ctxDone j; UUID := s; AWSBatchID := AWSBatchID j;
     ProcessName := ProcessName j; ImgTag := ImgTag j; Cmd := Cmd j;
     UpdateTime := UpdateTime j; Status := Status j; APILogs := APILogs j;
     ContainerLogs := ContainerLogs j; Links := Links j; JobDef := JobDef j;
     JobQueue := JobQueue j; JobName := JobName j; EnvVars := EnvVars j |}.

Definition set_AWSBatchID (s : string) (j : AWSBatchJob) : AWSBatchJob :=
  {| ctxDone := ctxDone j; UUID := UUID j; AWSBatchID := s;
     ProcessName := ProcessName j; ImgTag := ImgTag j; Cmd := Cmd j;
     UpdateTime := UpdateTime j; Status := Status j; APILogs := APILogs j;
     ContainerLogs := ContainerLogs j; Links := Links j; JobDef := JobDef j;
     JobQueue := JobQueue j; JobName := JobName j; EnvVars := EnvVars j |}.

Definition set_UpdateTime (t : Time) (j : AWSBatchJob) : AWSBatchJob :=
  {| ctxDone := ctxDone j; UUID := UUID j; AWSBatchID := AWSBatchID j;
     ProcessName := ProcessName j; ImgTag := ImgTag j; Cmd := Cmd j;
     UpdateTime := t; Status := Status j; APILogs := APILogs j;
     ContainerLogs := ContainerLogs j; Links := Links j; JobDef := JobDef j;
     JobQueue := JobQueue j; JobName := JobName j; EnvVars := EnvVars j |}.

Definition set_Status (s : string) (j : AWSBatchJob) : AWSBatchJob :=
  {| ctxDone := ctxDone j; UUID := UUID j; AWSBatchID := AWSBatchID j;
     ProcessName := ProcessName j; ImgTag := ImgTag j; Cmd := Cmd j;
     UpdateTime := UpdateTime j; Status := s; APILogs := APILogs j;
     ContainerLogs := ContainerLogs j; Links := Links j; JobDef := JobDef j;
     JobQueue := JobQueue j; JobName := JobName j; EnvVars := EnvVars j |}.

Definition set_APILogs (l : list string) (j : AWSBatchJob) : AWSBatchJob :=
  {| ctxDone := ctxDone j; UUID := UUID j; AWSBatchID := AWSBatchID j;
     ProcessName := ProcessName j; ImgTag := ImgTag j; Cmd := Cmd j;
     UpdateTime := UpdateTime j; Status := Status j; APILogs := l;
     ContainerLogs := ContainerLogs j; Links := Links j; JobDef := JobDef j;
     JobQueue := JobQueue j; JobName := JobName j; EnvVars := EnvVars j |}.

Definition set_ContainerLogs (l : list string) (j : AWSBatchJob) : AWSBatchJob :=
  {| ctxDone := ctxDone j; UUID := UUID j; AWSBatchID := AWSBatchID j;
     ProcessName := ProcessName j; ImgTag := ImgTag j; Cmd := Cmd j;
     UpdateTime := UpdateTime j; Status := Status j; APILogs := APILogs j;
     ContainerLogs := l; Links := Links j; JobDef := JobDef j;
     JobQueue := JobQueue j; JobName := JobName j; EnvVars := EnvVars j |}.

(** What the monitor loop does after one iteration. *)
Inductive LoopCtl : Type :=
| Continue (oldStatus : string)
| Return.

Section Methods.

Context (E : Env).
#[local] Open Scope go_scope.

#[local] Abbreviation Mj := (M (St AWSBatchJob)).

(** Accessors, lines 170-184 and 211-226. *)
Definition JobID (j : AWSBatchJob) : string := UUID j.
Definition ProcessID (j : AWSBatchJob) : string := ProcessName j.
Definition LastUpdate (j : AWSBatchJob) : Time := UpdateTime j.
Definition CurrentStatus (j : AWSBatchJob) : string := Status j.

(** [NewMessage], lines 201-203. *)
Definition NewMessage (m : string) : Mj unit :=
  modifyJ (fun j => set_APILogs (APILogs j ++ [m]) j).

(** [NewStatusUpdate], lines 215-218. *)
Definition NewStatusUpdate (s : string) : Mj unit :=
  modifyJ (set_Status s) ;;;
  let* t := now E in
  modifyJ (set_UpdateTime t).

Definition CtxCancel : Mj unit := modifyJ (set_ctxDone true).

(** [HandleError], lines 205-209. *)
Definition HandleError (m : string) : Mj unit :=
  modifyJ (fun j => set_APILogs (APILogs j ++ [m]) j) ;;;
  NewStatusUpdate FAILED ;;;
  CtxCancel.

(** [Create], lines 238-269. When [Cmd] is nil, line 263 calls [Error] on
    the nil error of the successful [JobCreate]: a nil dereference. *)
Definition Create : Mj (outcome (option Error)) :=
  let* cerr := newController E "AWS_DEFAULT_REGION" in
  match cerr with
  | Some e => HandleError e ;;; ret (Returned (Some e))
  | None =>
      let* j := getJ in
      let* r := ask (fun n => JobCreate E n (JobDef j) (JobName j) (JobQueue j) (Cmd j) (EnvVars j))
                    (EvJobCreate (JobDef j) (JobName j) (JobQueue j) (Cmd j)) in
      match r with
      | Err e => HandleError e ;;; ret (Returned (Some e))
      | Ok aWSBatchID =>
          modifyJ (set_AWSBatchID aWSBatchID) ;;;
          match Cmd j with
          | None => ret (Panicked "invalid memory address or nil pointer dereference")
          | Some _ => NewStatusUpdate ACCEPTED ;;; ret (Returned None)
          end
      end
  end.

(** One iteration of the loop of [Run], lines 286-318. *)
Definition Run_iter (oldStatus : string) : Mj LoopCtl :=
  let* j := getJ in
  let* r := ask (fun n => JobMonitor E n (AWSBatchID j)) (EvJobMonitor (AWSBatchID j)) in
  match r with
  | Err e => HandleError e ;;; ret Return
  | Ok (status, logStream) =>
      modifyJ (set_ContainerLogs [logStream]) ;;;
      let* returned :=
        (if negb (status =? oldStatus)%string then
           if (status =? "ACCEPTED")%string then NewStatusUpdate ACCEPTED ;;; ret false
           else if (status =? "RUNNING")%string then NewStatusUpdate RUNNING ;;; ret false
           else if (status =? "SUCCEEDED")%string then
             NewStatusUpdate SUCCESSFUL ;;; CtxCancel ;;; ret true
           else if (status =? "DISMISSED")%string then
             NewStatusUpdate DISMISSED ;;; CtxCancel ;;; ret true
           else if (status =? "FAILED")%string then
             NewStatusUpdate FAILED ;;; CtxCancel ;;; ret true
           else ret false
         else ret false) in
      if (returned : bool) then ret Return
      else emitW (EvSleep 10) ;;; ret (Continue status)
  end.

(** The loop, for at most [fuel] iterations; the result tells whether [Run]
    returned within them. *)
Fixpoint Run_loop (fuel : nat) (oldStatus : string) : Mj bool :=
  match fuel with
  | O => ret false
  | S n =>
      let* ctl := Run_iter oldStatus in
      match ctl with
      | Return => ret true
      | Continue s => Run_loop n s
      end
  end.

(** [Run], lines 272-319. *)
Definition Run (fuel : nat) : Mj bool :=
  let* cerr := newController E "AWS_DEFAULT_REGION" in
  match cerr with
  | Some e => HandleError e ;;; ret true
  | None =>
      let* j := getJ in
      if (AWSBatchID j =? "")%string then HandleError "AWSBatchID empty" ;;; ret true
      else Run_loop fuel ""
  end.

(** [Kill], lines 321-336. *)
Definition Kill : Mj (option Error) :=
  let* cerr := newController E "AWS_DEFAULT_REGION" in
  match cerr with
  | Some e => HandleError e ;;; ret (Some e)
  | None =>
      let* j := getJ in
      let* kerr := ask (fun n => JobKill E n (AWSBatchID j)) (EvJobKill (AWSBatchID j)) in
      match kerr with
      | Some e => ret (Some e)
      | None => NewStatusUpdate DISMISSED ;;; CtxCancel ;;; ret None
      end
  end.

(** [unsafe.Sizeof] of the field types on a 64-bit platform. *)
Definition sizeof_string : Z := 16.
Definition sizeof_slice : Z := 24.
Definition sizeof_interface : Z := 16.
Definition sizeof_func : Z := 8.
Definition sizeof_map : Z := 8.
Definition sizeof_Time : Z := 24.

Definition len (s : string) : Z := Z.of_nat (String.length s).
Definition sum_len (l : list string) : Z := fold_right (fun s n => len s + n) 0 l.

(** [GetSizeinCache], lines 339-368. *)
Definition GetSizeinCache (j : AWSBatchJob) : Z :=
  let cmdData := sizeof_slice + sum_len (default [] (Cmd j)) in
  let messageData := sizeof_slice + sum_len (APILogs j) in
  let linkData := sizeof_slice in
  cmdData + messageData + linkData +
  sizeof_interface +
  sizeof_func +
  sizeof_string + len (UUID j) +
  sizeof_string + len (AWSBatchID j) +
  sizeof_string + len (ImgTag j) +
  sizeof_Time +
  sizeof_string +
  sizeof_slice + Z.of_nat (length (ContainerLogs j)) +
  sizeof_string + len (JobDef j) +
  sizeof_string + len (JobQueue j) +
  sizeof_string + len (JobName j) +
  sizeof_map + Z.of_nat (size (EnvVars j)).

End Methods.

(** *** The REST handlers, [src/jobs/handlers.go] *)

(** Modelled from the spec: the [DockerJob] struct is declared outside
    [src]. It has the fields of the literal of [Execution] (lines 188-196)
    and the lifecycle fields of a Job of section 3 of the specification. *)
Module Docker.
Record DockerJob : Type := {
  UUID : string;
  ProcessName : string;
  Repository : string;
  EnvVars : list string;
  ImgTag : string;
  Cmd : list string;
  Status : string;
  UpdateTime : Time;
  Logs : list string
}.
End Docker.

(** What the handlers use and [src] does not hold: [encoding/json], the
    methods of [DockerJob] that do work, and the two methods of
    [AWSBatchJob] that the handlers call and [src/jobs/jobs.go] does not
    define. *)
Record Outside : Type := {
  json_Marshal : gmap string json -> result string;
  DockerJob_Create : M (St Docker.DockerJob) (outcome (option Error));
  DockerJob_Run : M (St Docker.DockerJob) unit;
  DockerJob_Kill : M (St Docker.DockerJob) (option Error);
  DockerJob_JobLogs : Docker.DockerJob -> json;
  DockerJob_JobOutputs : Docker.DockerJob -> json;
  DockerJob_GetSizeinCache : Docker.DockerJob -> Z;
  AWSBatchJob_JobLogs : AWSBatchJob -> json;
  AWSBatchJob_JobOutputs : AWSBatchJob -> json
}.

(** The methods of the [Job] interface that the handlers call, lines 20-36
    of [src/jobs/jobs.go] with [JobLogs] and [JobOutputs] of the handlers. *)
Class Job (J : Type) : Type := {
  job_CurrentStatus : J -> string;
  job_JobID : J -> string;
  job_ProcessID : J -> string;
  job_LastUpdate : J -> Time;
  job_JobLogs : J -> json;
  job_JobOutputs : J -> json;
  job_GetSizeinCache : J -> Z;
  job_Create : M (St J) (outcome (option Error));
  job_Run : nat -> M (St J) bool;
  job_Kill : M (St J) (option Error)
}.

(** A value of the interface type [Job]. *)
Inductive AnyJob : Type :=
| JDocker (d : Docker.DockerJob)
| JBatch (b : AWSBatchJob).

(** The process definition as [Execution] reads it: the types are declared
    outside [src] and have here the fields that lines 165-210 read;
    [verifyInputs], a method defined outside [src], is a field. *)
Record provider : Type := {
  Type_ : string;
  JobDefinition : string;
  Provider_JobQueue : string;
  Name : string
}.

Record runtime : Type := {
  EntryPoint : string;
  Runtime_Repository : string;
  Runtime_EnvVars : list string;
  Image : string;
  Tag : string;
  Provider : provider
}.

Record process : Type := {
  Info_JobControlOptions : list string;
  Runtime : runtime;
  Outputs : option json;
  verifyInputs : gmap string json -> option Error
}.

(** [RunRequestBody]: a nil [Inputs] is [None]. *)
Record RunRequestBody : Type := { Inputs : option (gmap string json) }.

(** The request: the path parameter and what [c.Bind] makes of the body. *)
Record Request : Type := {
  param_processID : string;
  bound_body : result RunRequestBody
}.

(** [c.JSON(code, value)]. A map literal is the list of its entries in the
    order written; a time is its offset. *)
Inductive Body : Type :=
| BString (s : string)
| BError (e : Error)
| BObject (entries : list (string * json)).

Record Response : Type := { code : Z; payload : Body }.

Definition StatusOK : Z := 200.
Definition StatusCreated : Z := 201.
Definition StatusBadRequest : Z := 400.
Definition StatusNotFound : Z := 404.
Definition StatusInternalServerError : Z := 500.

(** [JobsCache] with the fields of lines 28-29; [Jobs] holds pointers, which
    are indices in the heap; the threshold 0.80 is kept in hundredths. *)
Record JobsCache : Type := {
  MaxSizeBytes : Z;
  CurrentSizeBytes : Z;
  Jobs : list nat;
  TrimThreshold : Z
}.

(** The handler with the memory it reaches: the jobs allocated so far and
    the goroutines started by [go j.Run()]. *)
Record RESTHandler : Type := {
  rh_JobsCache : JobsCache;
  rh_ProcessList : gmap string process;
  heap : list AnyJob;
  goroutines : list nat
}.

Section Handlers.

Context (E : Env) (X : Outside).
#[local] Open Scope go_scope.

#[export] Instance AWSBatchJob_Job : Job AWSBatchJob := {
  job_CurrentStatus := CurrentStatus;
  job_JobID := JobID;
  job_ProcessID := ProcessID;
  job_LastUpdate := LastUpdate;
  job_JobLogs := AWSBatchJob_JobLogs X;
  job_JobOutputs := AWSBatchJob_JobOutputs X;
  job_GetSizeinCache := GetSizeinCache;
  job_Create := Create E;
  job_Run := Run E;
  job_Kill := Kill E
}.

(** Modelled from the spec: the accessors of [DockerJob] are defined outside
    [src]; they return the fields, as those of [AWSBatchJob] do. Its [Run]
    is the synchronous execution of section 4.B, which returns. *)
#[export] Instance DockerJob_Job : Job Docker.DockerJob := {
  job_CurrentStatus := Docker.Status;
  job_JobID := Docker.UUID;
  job_ProcessID := Docker.ProcessName;
  job_LastUpdate := Docker.UpdateTime;
  job_JobLogs := DockerJob_JobLogs X;
  job_JobOutputs := DockerJob_JobOutputs X;
  job_GetSizeinCache := DockerJob_GetSizeinCache X;
  job_Create := DockerJob_Create X;
  job_Run := fun _ => bind (DockerJob_Run X) (fun _ => ret true);
  job_Kill := DockerJob_Kill X
}.

(** Calls through the interface. *)
Definition pure_call {A : Type} (f : forall J : Type, Job J -> J -> A) (j : AnyJob) : A :=
  match j with
  | JDocker d => f _ _ d
  | JBatch b => f _ _ b
  end.

Definition any_CurrentStatus : AnyJob -> string := pure_call (@job_CurrentStatus).
Definition any_JobID : AnyJob -> string := pure_call (@job_JobID).
Definition any_ProcessID : AnyJob -> string := pure_call (@job_ProcessID).
Definition any_LastUpdate : AnyJob -> Time := pure_call (@job_LastUpdate).
Definition any_JobLogs : AnyJob -> json := pure_call (@job_JobLogs).
Definition any_JobOutputs : AnyJob -> json := pure_call (@job_JobOutputs).
Definition any_GetSizeinCache : AnyJob -> Z := pure_call (@job_GetSizeinCache).

Definition method_call {A : Type} (m : forall J : Type, Job J -> M (St J) A)
    : M (St AnyJob) A :=
  fun s =>
    match fst s with
    | JDocker d => let '(a, (d', w')) := m _ _ (d, snd s) in (a, (JDocker d', w'))
    | JBatch b => let '(a, (b', w')) := m _ _ (b, snd s) in (a, (JBatch b', w'))
    end.

Definition any_Create : M (St AnyJob) (outcome (option Error)) := method_call (@job_Create).
Definition any_Run (fuel : nat) : M (St AnyJob) bool :=
  method_call (fun J H => @job_Run J H fuel).

(** The command vector a job was given: the field [Cmd] of either struct. *)
Definition any_Cmd (j : AnyJob) : option (list string) :=
  match j with
  | JDocker d => Some (Docker.Cmd d)
  | JBatch b => Cmd b
  end.

(** [FetchResults], [src/jobs/jobs.go] lines 95-113. *)
Definition FetchResults {J : Type} (jid : string) : M (St J) (result json) :=
  let key := os_Getenv E "S3_RESULTS_DIR" +:+ "/" +:+ jid +:+ ".json" in
  let* exist := ask (fun n => KeyExists E n key) (EvKeyExists key) in
  match exist with
  | Err e => ret (Err e)
  | Ok false => ret (Err "not found")
  | Ok true => ask (fun n => GetS3JsonData E n key) (EvGetS3JsonData key)
  end.

(** Modelled from the spec: [JobsCache.Add] is defined outside [src].
    Section 4.D: insert, update the size, then run the eviction check; when
    the size exceeds max-size x trim-threshold, the entries in a terminal
    status are removed, oldest last-update first, until the size is at most
    max-size x (trim-threshold - 0.10) or none is left. The definitions from
    here to [cache_Add] are that policy. *)
Definition evictable (h : list AnyJob) (p : nat) : bool :=
  match h !! p with
  | Some j => terminal (any_CurrentStatus j)
  | None => false
  end.

(** Modelled from the spec: the last update of the job at [p]. *)
Definition lastUpdate_at (h : list AnyJob) (p : nat) : Time :=
  match h !! p with
  | Some j => any_LastUpdate j
  | None => 0
  end.

(** Modelled from the spec: the size-in-cache estimate of the job at [p]. *)
Definition size_at (h : list AnyJob) (p : nat) : Z :=
  match h !! p with
  | Some j => any_GetSizeinCache j
  | None => 0
  end.

(** Modelled from the spec: sorting by last update, oldest first. *)
Fixpoint insert_by_time (h : list AnyJob) (p : nat) (l : list nat) : list nat :=
  match l with
  | [] => [p]
  | q :: l' =>
      if lastUpdate_at h p <=? lastUpdate_at h q then p :: l
      else q :: insert_by_time h p l'
  end.

(** Modelled from the spec: the entries sorted by last update. *)
Definition oldest_first (h : list AnyJob) (l : list nat) : list nat :=
  fold_right (insert_by_time h) [] l.

(** Modelled from the spec: [remove(job-id)], used only by eviction. *)
Definition cache_remove (h : list AnyJob) (p : nat) (c : JobsCache) : JobsCache :=
  {| MaxSizeBytes := MaxSizeBytes c;
     CurrentSizeBytes := CurrentSizeBytes c - size_at h p;
     Jobs := List.filter (fun q => negb (q =? p)%nat) (Jobs c);
     TrimThreshold := TrimThreshold c |}.

(** Modelled from the spec: eviction in the given order, until the size is
    at most max-size x (trim-threshold - 0.10). *)
Fixpoint evict (h : list AnyJob) (victims : list nat) (c : JobsCache) : JobsCache :=
  match victims with
  | [] => c
  | v :: vs =>
      if 100 * CurrentSizeBytes c <=? MaxSizeBytes c * (TrimThreshold c - 10) then c
      else evict h vs (cache_remove h v c)
  end.

(** Modelled from the spec: [add(job)], the job being at [p] in the heap. *)
Definition cache_Add (h : list AnyJob) (p : nat) (c : JobsCache) : JobsCache :=
  let c1 := {| MaxSizeBytes := MaxSizeBytes c;
               CurrentSizeBytes := CurrentSizeBytes c + size_at h p;
               Jobs := Jobs c ++ [p];
               TrimThreshold := TrimThreshold c |} in
  if 100 * CurrentSizeBytes c1 >? MaxSizeBytes c1 * TrimThreshold c1
  then evict h (oldest_first h (List.filter (evictable h) (Jobs c1))) c1
  else c1.

(** Modelled from the spec: [ProcessList.Get] is defined outside [src]; the
    process definition is fetched from the process list by its id. *)
Definition ProcessList_Get (l : gmap string process) (processID : string) : result process :=
  match l !! processID with
  | Some p => Ok p
  | None => Err "not found"
  end.

Definition JSON (c : Z) (b : Body) : Response := {| code := c; payload := b |}.

Definition with_cache (c : JobsCache) (rh : RESTHandler) : RESTHandler :=
  {| rh_JobsCache := c; rh_ProcessList := rh_ProcessList rh;
     heap := heap rh; goroutines := goroutines rh |}.

Definition with_heap (h : list AnyJob) (rh : RESTHandler) : RESTHandler :=
  {| rh_JobsCache := rh_JobsCache rh; rh_ProcessList := rh_ProcessList rh;
     heap := h; goroutines := goroutines rh |}.

Definition with_goroutine (p : nat) (rh : RESTHandler) : RESTHandler :=
  {| rh_JobsCache := rh_JobsCache rh; rh_ProcessList := rh_ProcessList rh;
     heap := heap rh; goroutines := goroutines rh ++ [p] |}.

(** Lines 180-185. *)
Definition command (entryPoint jsonParams : string) : list string :=
  if (entryPoint =? "")%string then [jsonParams] else [entryPoint; jsonParams].

(** Lines 187-215: the job of the request, or nothing for a provider that
    is not supported. *)
Definition new_job (p : process) (processID jobID jobType : string) (cmd : list string)
    : option AnyJob :=
  if (jobType =? "sync-execute")%string then
    Some (JDocker {| Docker.UUID := jobID;
                     Docker.ProcessName := processID;
                     Docker.Repository := Runtime_Repository (Runtime p);
                     Docker.EnvVars := Runtime_EnvVars (Runtime p);
                     Docker.ImgTag := Image (Runtime p) +:+ ":" +:+ Tag (Runtime p);
                     Docker.Cmd := cmd;
                     Docker.Status := "";
                     Docker.UpdateTime := zeroTime;
                     Docker.Logs := [] |})
  else if (Type_ (Provider (Runtime p)) =? "aws-batch")%string then
    Some (JBatch {| ctxDone := false;
                    UUID := jobID;
                    AWSBatchID := "";
                    ProcessName := processID;
                    ImgTag := Image (Runtime p) +:+ ":" +:+ Tag (Runtime p);
                    Cmd := Some cmd;
                    UpdateTime := zeroTime;
                    Status := "";
                    APILogs := [];
                    ContainerLogs := [];
                    Links := [];
                    JobDef := JobDefinition (Provider (Runtime p));
                    JobQueue := Provider_JobQueue (Provider (Runtime p));
                    JobName := Name (Provider (Runtime p));
                    EnvVars := ∅ |})
  else None.

(** Lines 227-253: what follows a successful [Create]. The job is at [ptr]
    in the heap. *)
Definition dispatch (fuel : nat) (p : process) (jobID : string) (ptr : nat) (j : AnyJob)
    (rh : RESTHandler) (w : World) : outcome Response * RESTHandler * World :=
  match Info_JobControlOptions p with
  | [] => (Panicked "index out of range [0] with length 0", rh, w)
  | option0 :: _ =>
      if (option0 =? "sync-execute")%string then
        let '(returned, (j1, w1)) := any_Run fuel (j, w) in
        let rh1 := with_heap (<[ptr := j1]> (heap rh)) rh in
        if negb returned then (Blocked, rh1, w1) else
        let '(fetched, (_, w2)) :=
          match Outputs p with
          | Some _ => FetchResults (any_JobID j1) (j1, w1)
          | None => (Ok JNull, (j1, w1))
          end in
        match fetched with
        | Err e => (Returned (JSON StatusInternalServerError (BError e)), rh1, w2)
        | Ok outputs =>
            if (any_CurrentStatus j1 =? "successful")%string then
              (Returned (JSON StatusOK
                 (BObject [("jobID", JStr (any_JobID j1)); ("outputs", outputs)])), rh1, w2)
            else
              (Returned (JSON StatusInternalServerError
                 (BObject [("processID", JStr (any_ProcessID j1)); ("type", JStr "process");
                           ("jobID", JStr jobID); ("status", JNum 0);
                           ("detail", any_JobLogs j1)])), rh1, w2)
        end
      else if (option0 =? "async-execute")%string then
        (Returned (JSON StatusCreated
           (BObject [("processID", JStr (any_ProcessID j)); ("type", JStr "process");
                     ("jobID", JStr jobID); ("status", JStr "accepted")])),
         with_goroutine ptr rh, w)
      else
        (Returned (JSON StatusInternalServerError
           (BObject [("processID", JStr (any_ProcessID j)); ("type", JStr "process");
                     ("jobID", JStr jobID); ("status", JNum 0);
                     ("detail", JStr "incorrect controller option defined in process configuration")])),
         rh, w)
  end.

(** [Execution], lines 141-215: the checks of the request and the job
    built for it, with the process and the fresh job id. *)
Definition Execution_job (req : Request) (rh : RESTHandler) (w : World)
    : (outcome Response + process * string * AnyJob) * World :=
  let processID := param_processID req in
  if (processID =? "")%string then
    (inl (Returned (JSON StatusBadRequest (BString "'processID' parameter is required"))), w)
  else
  match ProcessList_Get (rh_ProcessList rh) processID with
  | Err _ =>
      (inl (Returned (JSON StatusBadRequest
         (BString ("processID '" +:+ processID +:+ "' is not an available process")))), w)
  | Ok p =>
  match bound_body req with
  | Err e => (inl (Returned (JSON StatusBadRequest (BString e))), w)
  | Ok params =>
  match Inputs params with
  | None =>
      (inl (Returned (JSON StatusBadRequest
         (BString "'inputs' is required in the body of the request"))), w)
  | Some inputs =>
  match verifyInputs p inputs with
  | Some e => (inl (Returned (JSON StatusBadRequest (BString e))), w)
  | None =>
  match Info_JobControlOptions p with
  | [] => (inl (Panicked "index out of range [0] with length 0"), w)
  | jobType :: _ =>
  let jobID := uuid_New E (tick w) in
  let w := advance w in
  match json_Marshal X (<["jobID" := JStr jobID]> inputs) with
  | Err e => (inl (Returned (JSON StatusInternalServerError (BString e))), w)
  | Ok jsonParams =>
  let cmd := command (EntryPoint (Runtime p)) jsonParams in
  match new_job p processID jobID jobType cmd with
  | None =>
      (inl (Returned (JSON StatusBadRequest (BString ("unsupported type " +:+ jobType)))), w)
  | Some j => (inr (p, jobID, j), w)
  end end end end end end end.

(** [Execution], lines 217-254: the job enters the cache and is created. *)
Definition Execution_submit (fuel : nat) (p : process) (jobID : string) (j : AnyJob)
    (rh : RESTHandler) (w : World) : outcome Response * RESTHandler * World :=
  let ptr := length (heap rh) in
  let rh := with_heap (heap rh ++ [j]) rh in
  let rh := with_cache (cache_Add (heap rh) ptr (rh_JobsCache rh)) rh in
  let '(created, (j, w)) := any_Create (j, w) in
  let rh := with_heap (<[ptr := j]> (heap rh)) rh in
  match created with
  | Panicked msg => (Panicked msg, rh, w)
  | Blocked => (Blocked, rh, w)
  | Returned (Some err) =>
      (Returned (JSON StatusInternalServerError (BString ("submission errorr " +:+ err))),
       rh, w)
  | Returned None => dispatch fuel p jobID ptr j rh w
  end.

(** [Execution], lines 141-254. *)
Definition Execution (fuel : nat) (req : Request) (rh : RESTHandler) (w : World)
    : outcome Response * RESTHandler * World :=
  match Execution_job req rh w with
  | (inl r, w) => (r, rh, w)
  | (inr (p, jobID, j), w) => Execution_submit fuel p jobID j rh w
  end.

(** The jobs the cache holds, in the order [range] visits them. *)
Definition cached_jobs (rh : RESTHandler) : list AnyJob :=
  omap (fun p => heap rh !! p) (Jobs (rh_JobsCache rh)).

(** The body of the loop of [JobResultsHandler], lines 308-332. *)
Definition results_of (jobID : string) (j : AnyJob) : Response :=
  if (any_CurrentStatus j =? SUCCESSFUL)%string then
    JSON StatusOK
      (BObject [("type", JStr "process"); ("jobID", JStr jobID);
                ("status", JStr (any_CurrentStatus j));
                ("updated", JNum (any_LastUpdate j));
                ("outputs", any_JobOutputs j)])
  else if ((any_CurrentStatus j =? FAILED) || (any_CurrentStatus j =? DISMISSED))%string then
    JSON StatusOK
      (BObject [("type", JStr "process"); ("jobID", JStr jobID);
                ("status", JStr (any_CurrentStatus j));
                ("detail", any_JobLogs j);
                ("updated", JNum (any_LastUpdate j))])
  else
    JSON StatusNotFound
      (BObject [("type", JStr "process"); ("jobID", JStr jobID);
                ("status", JStr (any_CurrentStatus j));
                ("detail", JStr "results not ready");
                ("updated", JNum (any_LastUpdate j))]).

Fixpoint results_range (jobID : string) (js : list AnyJob) : Response :=
  match js with
  | [] =>
      JSON StatusNotFound
        (BObject [("type", JStr "process"); ("jobID", JStr jobID);
                  ("status", JNum 0); ("detail", JStr "jobID not found")])
  | j :: rest =>
      if (any_JobID j =? jobID)%string then results_of jobID j
      else results_range jobID rest
  end.

(** [JobResultsHandler], lines 304-338. *)
Definition JobResultsHandler (jobID : string) (rh : RESTHandler) : Response :=
  results_range jobID (cached_jobs rh).

(** [FetchMeta], [src/jobs/jobs.go] lines 117-135. *)
Definition FetchMeta {J : Type} (jid : string) : M (St J) (result json) :=
  let key := os_Getenv E "S3_META_DIR" +:+ "/" +:+ jid +:+ ".json" in
  let* exist := ask (fun n => KeyExists E n key) (EvKeyExists key) in
  match exist with
  | Err e => ret (Err e)
  | Ok false => ret (Err "not found")
  | Ok true => ask (fun n => GetS3JsonData E n key) (EvGetS3JsonData key)
  end.

Definition StatusGone : Z := 410.

Definition any_Kill : M (St AnyJob) (option Error) := method_call (@job_Kill).

(** The loop of [JobDismissHandler], lines 265-274, over the pointers that
    the cache holds. *)
Fixpoint dismiss_range (jobID : string) (ptrs : list nat) (rh : RESTHandler) (w : World)
    : Response * RESTHandler * World :=
  match ptrs with
  | [] =>
      (JSON StatusGone (BString ("job " +:+ jobID +:+ " not in the active jobs list")), rh, w)
  | p :: rest =>
      match heap rh !! p with
      | None => dismiss_range jobID rest rh w
      | Some job =>
          if (any_JobID job =? jobID)%string then
            let '(err, (job', w')) := any_Kill (job, w) in
            let rh' := with_heap (<[p := job']> (heap rh)) rh in
            match err with
            | Some e => (JSON StatusInternalServerError (BError e), rh', w')
            | None => (JSON StatusOK (BString ("job " +:+ jobID +:+ " dismissed")), rh', w')
            end
          else dismiss_range jobID rest rh w
      end
  end.

(** [JobDismissHandler], lines 263-275. *)
Definition JobDismissHandler (jobID : string) (rh : RESTHandler) (w : World)
    : Response * RESTHandler * World :=
  dismiss_range jobID (Jobs (rh_JobsCache rh)) rh w.

(** The loop of [JobStatusHandler], lines 287-294. *)
Fixpoint status_range (jobID : string) (js : list AnyJob) : Response :=
  match js with
  | [] =>
      JSON StatusNotFound
        (BObject [("type", JStr "process"); ("jobID", JStr jobID);
                  ("status", JNum 0); ("detail", JStr "jobID not found")])
  | j :: rest =>
      if (any_JobID j =? jobID)%string then
        JSON StatusOK
          (BObject [("processID", JStr (any_ProcessID j)); ("type", JStr "process");
                    ("jobID", JStr jobID); ("updated", JNum (any_LastUpdate j));
                    ("status", JStr (any_CurrentStatus j))])
      else status_range jobID rest
  end.

(** [JobStatusHandler], lines 285-295. *)
Definition JobStatusHandler (jobID : string) (rh : RESTHandler) : Response :=
  status_range jobID (cached_jobs rh).

End Handlers.

(** *** The listing of the registry, [src/jobs/jobs.go] lines 38-91 *)

(** [JobStatus], lines 40-48. *)
Record JobStatus : Type := {
  js_JobID : string;
  js_LastUpdate : Time;
  js_Status : string;
  js_ProcessID : string;
  js_Type : string;
  js_host : string;
  js_mode : Z
}.

(** [time.Time.After]. *)
Definition After (t u : Time) : bool := u <? t.

Section Listing.

Context {J : Type} `{!Job J}.

(** [sort.Slice] of the standard library, which is not stable: the order it
    leaves between entries that compare equal is its own. *)
Context (sort_Slice : (JobStatus -> JobStatus -> bool) -> list JobStatus -> list JobStatus).

(** The literal of lines 75-80. *)
Definition status_of (j : J) : JobStatus :=
  {| js_JobID := job_JobID j;
     js_LastUpdate := job_LastUpdate j;
     js_Status := job_CurrentStatus j;
     js_ProcessID := job_ProcessID j;
     js_Type := "";
     js_host := "";
     js_mode := 0 |}.

(** The comparison of lines 86-88. *)
Definition more_recent (a b : JobStatus) : bool :=
  After (js_LastUpdate a) (js_LastUpdate b).

(** The slice that the loop of lines 74-83 fills, [order] being the order in
    which Go ranges over the map. *)
Definition statuses (order : list string) (ac : Api.ActiveJobs J) : list JobStatus :=
  omap (fun k => status_of <$> Api.Jobs ac !! k) order.

(** [ListJobs], lines 67-91. *)
Definition ListJobs (order : list string) (ac : Api.ActiveJobs J) : list JobStatus :=
  sort_Slice more_recent (statuses order ac).

End Listing.

End Legacy.

(** ** [src/handlers/config.go]: the start of the server *)

Module Config.

(** What [NewRESTHander] called, in order. *)
Inductive BootCall : Type :=
| CallParseGlob (pattern : string)
| CallNewSession
| CallLoadCacheFromFile
| CallLoadProcesses (dir : string).

Section Boot.

(** [jobs.Job] and [pr.ProcessList] are declared outside [src]. *)
Context {Job ProcessList : Type}.

(** [jobs.JobsCache] with the fields of lines 63-65; the threshold 0.80 is
    kept in hundredths. *)
Record JobsCache : Type := {
  MaxSizeBytes : Z;
  CurrentSizeBytes : Z;
  TrimThreshold : Z;
  Jobs : gmap string Job
}.

(** [RESTHandler], lines 26-34; the templates and the storage client are
    handles on the outside. *)
Record RESTHandler : Type := {
  Title : string;
  Description : string;
  ConformsTo : list string;
  rh_JobsCache : JobsCache;
  rh_ProcessList : ProcessList
}.

(** The answers of the calls: [template.ParseGlob], the session, the
    snapshot loader, which works on the cache it is called on, and the
    loader of the processes. *)
Record BootEnv : Type := {
  ParseGlob : string -> option Error;
  NewSessionWithOptions : option Error;
  LoadCacheFromFile : JobsCache -> JobsCache * option Error;
  LoadProcesses : string -> result ProcessList
}.

(** How the start ends: with a handler, with the error of the process
    loader, with the exit of [log.Fatalf], or with the panic of
    [template.Must] or [session.Must]. *)
Inductive BootResult : Type :=
| Started (h : RESTHandler)
| Failed (e : Error)
| Fatal (msg : string)
| Panic (e : Error).

Record Boot : Type := {
  boot_result : BootResult;
  boot_calls : list BootCall;
  boot_log : list string
}.

Context (B : BootEnv).

(** Lines 85-91, once the cache [jc] is set up. *)
Definition load_processes (pluginsDir : string) (jc : JobsCache)
    (calls : list BootCall) (log : list string) : Boot :=
  let calls := calls ++ [CallLoadProcesses pluginsDir] in
  match LoadProcesses B pluginsDir with
  | Err e => {| boot_result := Failed e; boot_calls := calls; boot_log := log |}
  | Ok processList =>
      {| boot_result :=
           Started {| Title := "process-api";
                      Description := "ogc process api written in Golang for use with cloud service controllers to manage asynchronous requests";
                      ConformsTo :=
                        ["http://schemas.opengis.net/ogcapi/processes/part1/1.0/openapi/schemas/";
                         "http://www.opengis.net/spec/ogcapi-processes-1/1.0/conf/ogc-process-description";
                         "http://www.opengis.net/spec/ogcapi-processes-1/1.0/conf/core";
                         "http://www.opengis.net/spec/ogcapi-processes-1/1.0/conf/json";
                         "http://www.opengis.net/spec/ogcapi-processes-1/1.0/conf/html"];
                      rh_JobsCache := jc;
                      rh_ProcessList := processList |};
         boot_calls := calls; boot_log := log |}
  end.

(** [NewRESTHander], lines 37-92. *)
Definition NewRESTHander (pluginsDir : string) (cacheSize : Z) (o : bool) : Boot :=
  let calls := [CallParseGlob "public/views/*.html"] in
  match ParseGlob B "public/views/*.html" with
  | Some e => {| boot_result := Panic e; boot_calls := calls; boot_log := [] |}
  | None =>
      let calls := calls ++ [CallNewSession] in
      match NewSessionWithOptions B with
      | Some e => {| boot_result := Panic e; boot_calls := calls; boot_log := [] |}
      | None =>
          let jc := {| MaxSizeBytes := cacheSize; CurrentSizeBytes := 0;
                       TrimThreshold := 80; Jobs := ∅ |} in
          if negb o then
            let calls := calls ++ [CallLoadCacheFromFile] in
            let '(jc, err) := LoadCacheFromFile B jc in
            match err with
            | Some e =>
                if (e =? "not found")%string then
                  load_processes pluginsDir jc calls ["Starting with clean Jobs cache."]
                else
                  {| boot_result :=
                       Fatal ("Error loading snapshot: " +:+ e +:+
                              String (Ascii.ascii_of_nat 10)
                                "Set -o flag to true to overwrite snapshot");
                     boot_calls := calls; boot_log := [] |}
            | None =>
                load_processes pluginsDir jc calls
                  ["Starting from snapshot saved at .data/snapshot.gob"]
            end
          else load_processes pluginsDir jc calls ["Starting with clean Jobs cache."]
      end
  end.

End Boot.

End Config.


(** ** Runs of calls used in the statements *)

(** A run of status updates on one job of [src/api/jobs], as a monitor and
    a dismissal would issue them. *)
Fixpoint Api_updates (E : Env) (l : list (string * Time)) (s : St Api.AWSBatchJob)
    : St Api.AWSBatchJob :=
  match l with
  | [] => s
  | (status, t) :: l' => Api_updates E l' (Api.NewStatusUpdate E status t s).2
  end.

(** A run of status updates on one job of [src/jobs]. *)
Fixpoint Legacy_updates (E : Env) (l : list string) (s : St Legacy.AWSBatchJob)
    : St Legacy.AWSBatchJob :=
  match l with
  | [] => s
  | status :: l' => Legacy_updates E l' (Legacy.NewStatusUpdate E status s).2
  end.

(** ** Example data *)

(** An environment in which every call succeeds: the provider reports a
    running job, the clock reads 1000 plus the tick. *)
Definition env_ok : Env := {|
  time_Now := fun n => 1000 + Z.of_nat n;
  os_Getenv := fun v => v;
  uuid_New := fun _ => "0b7e3c52-5a1e-4c58-9d0f-2f1f0c1a9e11";
  NewAWSBatchController := fun _ _ _ _ => None;
  JobCreate := fun _ _ _ _ _ _ => Ok "batch-1";
  JobMonitor := fun _ _ => Ok ("RUNNING", "stream-1");
  JobKill := fun _ _ => None;
  NewSession := fun _ => None;
  GetLogEvents := fun _ _ _ => Ok ["line 1"];
  KeyExists := fun _ _ => Ok true;
  GetS3JsonData := fun _ _ => Ok JNull
|}.

Definition world0 : World := {| tick := 0; events := [] |}.

(** A job of [src/api/jobs] with the given id and status. *)
Definition api_job (id status : string) : Api.AWSBatchJob := {|
  Api.ctxDone := false;
  Api.UUID := id;
  Api.AWSBatchID := "batch-" +:+ id;
  Api.ProcessName := "echo";
  Api.Image := "echo:latest";
  Api.Cmd := ["{}"];
  Api.UpdateTime := 500;
  Api.Status := status;
  Api.apiLogs := [];
  Api.containerLogs := [];
  Api.JobDef := "def";
  Api.JobQueue := "queue";
  Api.JobName := "name";
  Api.EnvVars := ∅;
  Api.logStreamName := "";
  Api.ProcessVersion := "1"
|}.

(** A registry of three jobs: accepted, successful and running. *)
Definition registry3 : Api.ActiveJobs Api.AWSBatchJob :=
  Api.Add (api_job "a" ACCEPTED)
    (Api.Add (api_job "b" SUCCESSFUL)
       (Api.Add (api_job "c" RUNNING) {| Api.Jobs := ∅ |})).

(** A job of [src/jobs] with the given status, submitted as batch-1. *)
Definition legacy_job (status : string) : Legacy.AWSBatchJob := {|
  Legacy.ctxDone := false;
  Legacy.UUID := "0b7e3c52-5a1e-4c58-9d0f-2f1f0c1a9e11";
  Legacy.AWSBatchID := "batch-1";
  Legacy.ProcessName := "echo";
  Legacy.ImgTag := "echo:latest";
  Legacy.Cmd := Some ["{}"];
  Legacy.UpdateTime := 500;
  Legacy.Status := status;
  Legacy.APILogs := [];
  Legacy.ContainerLogs := [];
  Legacy.Links := [];
  Legacy.JobDef := "def";
  Legacy.JobQueue := "queue";
  Legacy.JobName := "name";
  Legacy.EnvVars := ∅
|}.

(** [env_ok] with another answer of the observe call. *)
Definition env_observing (answer : result (string * string)) : Env := {|
  time_Now := time_Now env_ok;
  os_Getenv := os_Getenv env_ok;
  uuid_New := uuid_New env_ok;
  NewAWSBatchController := NewAWSBatchController env_ok;
  JobCreate := JobCreate env_ok;
  JobMonitor := fun _ _ => answer;
  JobKill := JobKill env_ok;
  NewSession := NewSession env_ok;
  GetLogEvents := GetLogEvents env_ok;
  KeyExists := KeyExists env_ok;
  GetS3JsonData := GetS3JsonData env_ok
|}.

(** ** The specification's reading of the monitor *)


(** ** Scenarios *)

(** The monitor loop of an accepted job, five iterations allowed, with an
    observe call that fails. *)
Definition observe_error_run : bool * St Legacy.AWSBatchJob :=
  Legacy.Run_loop (env_observing (Err "RequestError: send request failed")) 5 ""
    (legacy_job ACCEPTED, world0).

(** The states after a [Kill] and after the iteration that follows it. *)
Record DismissRun : Type := {
  after_kill : option Error * St Legacy.AWSBatchJob;
  after_poll : Legacy.LoopCtl * St Legacy.AWSBatchJob
}.

(** A dismissal between two iterations of the monitor loop: the loop last
    observed ACCEPTED, [Kill] succeeds, and the provider, which has not
    stopped the job yet, reports RUNNING at the next poll. *)
Definition dismissed_then_observed : DismissRun :=
  let killed := Legacy.Kill env_ok (legacy_job ACCEPTED, world0) in
  let polled := Legacy.Run_iter env_ok "ACCEPTED" killed.2 in
  {| after_kill := killed; after_poll := polled |}.

(** What stands for the code outside [src] in the scenarios: an encoder that
    lists the keys of the map, and a container job that runs to success. *)
Definition outside0 : Legacy.Outside := {|
  Legacy.json_Marshal := fun m => Ok ("{" +:+ String.concat "," (map_to_list m).*1 +:+ "}");
  Legacy.DockerJob_Create := ret (Legacy.Returned None);
  Legacy.DockerJob_Run := ret tt;
  Legacy.DockerJob_Kill := ret None;
  Legacy.DockerJob_JobLogs := fun d => JArr (map JStr (Legacy.Docker.Logs d));
  Legacy.DockerJob_JobOutputs := fun _ => JNull;
  Legacy.DockerJob_GetSizeinCache := fun _ => 100;
  Legacy.AWSBatchJob_JobLogs := fun b =>
    JObj [("Container Logs", JArr (map JStr (Legacy.ContainerLogs b)));
          ("API Logs", JArr (map JStr (Legacy.APILogs b)))];
  Legacy.AWSBatchJob_JobOutputs := fun _ => JNull
|}.

(** An asynchronous process on the cloud batch provider. *)
Definition long_task : Legacy.process := {|
  Legacy.Info_JobControlOptions := ["async-execute"];
  Legacy.Runtime := {|
    Legacy.EntryPoint := "run.sh";
    Legacy.Runtime_Repository := "";
    Legacy.Runtime_EnvVars := [];
    Legacy.Image := "long-task";
    Legacy.Tag := "latest";
    Legacy.Provider := {|
      Legacy.Type_ := "aws-batch";
      Legacy.JobDefinition := "def";
      Legacy.Provider_JobQueue := "queue";
      Legacy.Name := "long-task"
    |}
  |};
  Legacy.Outputs := None;
  Legacy.verifyInputs := fun _ => None
|}.

(** A handler with that process and an empty cache of one megabyte. *)
Definition handler0 : Legacy.RESTHandler := {|
  Legacy.rh_JobsCache := {|
    Legacy.MaxSizeBytes := 1000000;
    Legacy.CurrentSizeBytes := 0;
    Legacy.Jobs := [];
    Legacy.TrimThreshold := 80
  |};
  Legacy.rh_ProcessList := {["long-task" := long_task]};
  Legacy.heap := [];
  Legacy.goroutines := []
|}.

Definition request0 : Legacy.Request := {|
  Legacy.param_processID := "long-task";
  Legacy.bound_body := Ok {| Legacy.Inputs := Some {["msg" := JStr "hi"]} |}
|}.

(** [env_ok] with a provider that refuses the credentials. *)
Definition env_no_controller : Env := {|
  time_Now := time_Now env_ok;
  os_Getenv := os_Getenv env_ok;
  uuid_New := uuid_New env_ok;
  NewAWSBatchController := fun _ _ _ _ => Some "NoCredentialProviders: no valid providers in chain";
  JobCreate := JobCreate env_ok;
  JobMonitor := JobMonitor env_ok;
  JobKill := JobKill env_ok;
  NewSession := NewSession env_ok;
  GetLogEvents := GetLogEvents env_ok;
  KeyExists := KeyExists env_ok;
  GetS3JsonData := GetS3JsonData env_ok
|}.

(** The execution request of [request0] when the submission fails. *)
Definition failed_submission
    : Legacy.outcome Legacy.Response * Legacy.RESTHandler * World :=
  Legacy.Execution env_no_controller outside0 0 request0 handler0 world0.

(** A handler whose cache holds one job of each kind of status. *)
Definition handler3 : Legacy.RESTHandler := {|
  Legacy.rh_JobsCache := {|
    Legacy.MaxSizeBytes := 1000000;
    Legacy.CurrentSizeBytes := 900;
    Legacy.Jobs := [0%nat; 1%nat; 2%nat];
    Legacy.TrimThreshold := 80
  |};
  Legacy.rh_ProcessList := {["long-task" := long_task]};
  Legacy.heap :=
    [Legacy.JBatch (Legacy.set_UUID "id-0" (legacy_job SUCCESSFUL));
     Legacy.JBatch (Legacy.set_UUID "id-1" (legacy_job FAILED));
     Legacy.JBatch (Legacy.set_UUID "id-2" (legacy_job RUNNING))];
  Legacy.goroutines := []
|}.

(** The job that [Execution] builds for [request0], and what a [Create]
    that cannot reach the provider leaves of it. *)
Definition built_job0 : Legacy.AnyJob :=
  Legacy.JBatch {|
    Legacy.ctxDone := false;
    Legacy.UUID := "0b7e3c52-5a1e-4c58-9d0f-2f1f0c1a9e11";
    Legacy.AWSBatchID := "";
    Legacy.ProcessName := "long-task";
    Legacy.ImgTag := "long-task:latest";
    Legacy.Cmd := Some ["run.sh"; "{msg,jobID}"];
    Legacy.UpdateTime := zeroTime;
    Legacy.Status := "";
    Legacy.APILogs := [];
    Legacy.ContainerLogs := [];
    Legacy.Links := [];
    Legacy.JobDef := "def";
    Legacy.JobQueue := "queue";
    Legacy.JobName := "long-task";
    Legacy.EnvVars := ∅
  |}.

Definition failed_job0 : Legacy.AnyJob :=
  Legacy.JBatch {|
    Legacy.ctxDone := true;
    Legacy.UUID := "0b7e3c52-5a1e-4c58-9d0f-2f1f0c1a9e11";
    Legacy.AWSBatchID := "";
    Legacy.ProcessName := "long-task";
    Legacy.ImgTag := "long-task:latest";
    Legacy.Cmd := Some ["run.sh"; "{msg,jobID}"];
    Legacy.UpdateTime := 1002;
    Legacy.Status := FAILED;
    Legacy.APILogs := ["NoCredentialProviders: no valid providers in chain"];
    Legacy.ContainerLogs := [];
    Legacy.Links := [];
    Legacy.JobDef := "def";
    Legacy.JobQueue := "queue";
    Legacy.JobName := "long-task";
    Legacy.EnvVars := ∅
  |}.

(** ** Kinds of events *)

(** The calls that fetching the logs of a job can make: the lookup of the
    log stream through the provider, the session and the read of the log. *)
Definition log_fetch_event (e : Event) : bool :=
  match e with
  | EvNewController _ | EvJobMonitor _ | EvNewSession | EvGetLogEvents _ _ => true
  | _ => false
  end.

(** The events of [w'] that [w] does not have yet. *)
Definition events_since (w w' : World) : list Event :=
  drop (length (events w)) (events w').

(** [j'] is [j] but for the container log and the name of the log stream. *)
Definition Api_same_but_logs (j j' : Api.AWSBatchJob) : Prop :=
  j' = Api.set_logStreamName (Api.logStreamName j')
         (Api.set_containerLogs (Api.containerLogs j') j).

(** A database that accepts every job, and the answers of the metadata
    routine for an image of a cloud registry. *)
Definition db_ok : Api.DBEnv := {| Api.DB_addJob := fun _ _ _ _ _ _ _ => None |}.

Definition meta_ok : Api.MetaEnv := {|
  Api.GetImageURI := fun _ _ => Ok "123456789012.dkr.ecr.us-east-1.amazonaws.com/echo:latest";
  Api.getECRImageDigest := fun _ _ => Ok "sha256:ecr";
  Api.getDkrHubImageDigest := fun _ _ _ => Ok "sha256:hub";
  Api.GetJobTimes := fun _ _ => Ok (10, 20, 30);
  Api.json_Marshal := fun md => Ok ("{" +:+ Api.md_JobID md +:+ "}")
|}.

(** The strings on which the monitor loop returns, lines 301-313. *)
Definition ends_monitor (status : string) : bool :=
  ((status =? "SUCCEEDED") || (status =? "DISMISSED") || (status =? "FAILED"))%string.

(** What [fuel] iterations of the monitor loop do to the outside when none
    of them returns: a poll and a sleep of ten seconds each. *)
Definition polls (batchID : string) (fuel : nat) : list Event :=
  concat (repeat [EvJobMonitor batchID; EvSleep 10] fuel).

(** A process on the cloud batch provider whose first job-control option is
    neither of the two that [Execution] knows. *)
Definition typo_task : Legacy.process := {|
  Legacy.Info_JobControlOptions := ["async"];
  Legacy.Runtime := Legacy.Runtime long_task;
  Legacy.Outputs := None;
  Legacy.verifyInputs := fun _ => None
|}.

(** A synchronous process that declares outputs. *)
Definition quick_task : Legacy.process := {|
  Legacy.Info_JobControlOptions := ["sync-execute"];
  Legacy.Runtime := Legacy.Runtime long_task;
  Legacy.Outputs := Some (JStr "result");
  Legacy.verifyInputs := fun _ => None
|}.

(** [handler0] with the three processes. *)
Definition handler_all : Legacy.RESTHandler := {|
  Legacy.rh_JobsCache := Legacy.rh_JobsCache handler0;
  Legacy.rh_ProcessList :=
    <["typo-task" := typo_task]> (<["quick-task" := quick_task]> (Legacy.rh_ProcessList handler0));
  Legacy.heap := [];
  Legacy.goroutines := []
|}.

Definition request_for (processID : string) : Legacy.Request := {|
  Legacy.param_processID := processID;
  Legacy.bound_body := Legacy.bound_body request0
|}.

(** [env_ok] with a store that holds no object. *)
Definition env_no_results : Env := {|
  time_Now := time_Now env_ok;
  os_Getenv := os_Getenv env_ok;
  uuid_New := uuid_New env_ok;
  NewAWSBatchController := NewAWSBatchController env_ok;
  JobCreate := JobCreate env_ok;
  JobMonitor := JobMonitor env_ok;
  JobKill := JobKill env_ok;
  NewSession := NewSession env_ok;
  GetLogEvents := GetLogEvents env_ok;
  KeyExists := fun _ _ => Ok false;
  GetS3JsonData := GetS3JsonData env_ok
|}.

(** A sort by insertion, to run [ListJobs] on an example. *)
Fixpoint insert_sorted {A : Type} (less : A -> A -> bool) (x : A) (l : list A) : list A :=
  match l with
  | [] => [x]
  | y :: l' => if less y x then y :: insert_sorted less x l' else x :: l
  end.

Definition insertion_sort {A : Type} (less : A -> A -> bool) (l : list A) : list A :=
  fold_right (insert_sorted less) [] l.

(** A registry of [src/jobs] with two jobs, updated at 500 and at 700. *)
Definition listing0 : Api.ActiveJobs Legacy.AWSBatchJob := {|
  Api.Jobs :=
    <["a" := Legacy.set_UUID "a" (legacy_job RUNNING)]>
      (<["b" := Legacy.set_UpdateTime 700 (Legacy.set_UUID "b" (legacy_job SUCCESSFUL))]> ∅)
|}.

Section KillInTurn.

Context (E : Env) {J : Type} `{!Api.Job J}.

(** Modelled from the spec: section 4.C, for each job whose current status
    is accepted or running, invoke kill; on the first error, return it, and
    the jobs after it are not attempted. [keys] are the ids of those jobs in
    the order of the iteration; each [Kill] works on the job of the registry
    and in the world that the call before it left. *)
Fixpoint kill_in_turn (keys : list string) (ac : Api.ActiveJobs J) (w : World)
    : Api.KillAllRun J :=
  match keys with
  | [] => {| Api.ka_err := None; Api.ka_calls := []; Api.ka_jobs := ac; Api.ka_world := w |}
  | k :: rest =>
      match Api.Jobs ac !! k with
      | None => kill_in_turn rest ac w
      | Some j =>
          let '(err, (j', w')) := Api.job_Kill E (j, w) in
          let ac' := {| Api.Jobs := <[k := j']> (Api.Jobs ac) |} in
          match err with
          | Some e =>
              {| Api.ka_err := Some e; Api.ka_calls := [(k, Some e)];
                 Api.ka_jobs := ac'; Api.ka_world := w' |}
          | None =>
              let r := kill_in_turn rest ac' w' in
              {| Api.ka_err := Api.ka_err r; Api.ka_calls := (k, None) :: Api.ka_calls r;
                 Api.ka_jobs := Api.ka_jobs r; Api.ka_world := Api.ka_world r |}
          end
      end
  end.

End KillInTurn.




(** The record of lines 352-370 of [WriteMetaData], for a job, the image of
    its job definition with the digest, and the three times of the job. *)
Definition job_metaData (j : Api.AWSBatchJob) (uri dgst : string) (g s e : Time)
    : Api.metaData :=
  {| Api.md_Context := "https://github.com/Dewberry/process-api/blob/main/context.jsonld";
     Api.md_JobID := Api.UUID j;
     Api.md_Process := {| Api.process_id := Api.ProcessName j;
                          Api.process_version := Api.ProcessVersion j |};
     Api.md_Image := {| Api.image_uri := uri; Api.image_digest := dgst |};
     Api.md_Commands := Api.Cmd j;
     Api.md_GeneratedAtTime := g;
     Api.md_StartedAtTime := s;
     Api.md_EndedAtTime := e |}.

(** The digest lookup of lines 337-349: the cloud registry for an image of
    amazonaws.com, the public registry otherwise. *)
Definition image_digest_of (Q : Api.MetaEnv) (n : nat) (uri : string) : result string :=
  if Api.Contains uri "amazonaws.com/"
  then Api.getECRImageDigest Q n uri
  else Api.getDkrHubImageDigest Q n uri "dummy".

(** A job whose command is nil. *)
Definition job_without_command : Legacy.AWSBatchJob := {|
  Legacy.ctxDone := false;
  Legacy.UUID := "0b7e3c52-5a1e-4c58-9d0f-2f1f0c1a9e11";
  Legacy.AWSBatchID := "";
  Legacy.ProcessName := "echo";
  Legacy.ImgTag := "echo:latest";
  Legacy.Cmd := None;
  Legacy.UpdateTime := zeroTime;
  Legacy.Status := "";
  Legacy.APILogs := [];
  Legacy.ContainerLogs := [];
  Legacy.Links := [];
  Legacy.JobDef := "def";
  Legacy.JobQueue := "queue";
  Legacy.JobName := "name";
  Legacy.EnvVars := ∅
|}.

(** * Properties *)

(** ** Status tests *)

Lemma eqb_string_true (s t : string) : (s =? t)%string = true <-> s = t.
Proof. apply String.eqb_eq. Qed.

Lemma eqb_string_false (s t : string) : (s =? t)%string = false <-> s <> t.
Proof. apply String.eqb_neq. Qed.

(** The test of [NewStatusUpdate] lists the three states in another order. *)
Lemma terminal_switch (s : string) :
  ((s =? SUCCESSFUL) || (s =? DISMISSED) || (s =? FAILED))%string = terminal s.
Proof.
  unfold terminal.
  destruct (s =? SUCCESSFUL)%string, (s =? DISMISSED)%string, (s =? FAILED)%string;
    reflexivity.
Qed.

(** ** The guarded job of [src/api/jobs] *)

Section ApiJob.

Context (E : Env).

Implicit Types (j : Api.AWSBatchJob) (w : World).

Lemma Api_NewStatusUpdate_terminal j w status updateTime :
  terminal (Api.Status j) = true ->
  Api.NewStatusUpdate E status updateTime (j, w) = (tt, (j, w)).
Proof.
  intros Ht. unfold Api.NewStatusUpdate, bind, getJ. cbn.
  rewrite terminal_switch, Ht. reflexivity.
Qed.

Lemma Api_updates_terminal l j w :
  terminal (Api.Status j) = true -> Api_updates E l (j, w) = (j, w).
Proof.
  intros Ht. induction l as [|[status t] l IH]; [reflexivity|].
  cbn [Api_updates]. rewrite Api_NewStatusUpdate_terminal by assumption. exact IH.
Qed.

(** C10. On a job whose status is not terminal, [NewStatusUpdate status
    updateTime] sets the status to [status] and the last update to
    [updateTime] when it is not the zero time, and to the reading of the
    clock when it is; nothing else of the job changes, and the record of
    the job in the database is updated with the same values. *)
Theorem Api_NewStatusUpdate_sets j w status updateTime :
  terminal (Api.Status j) = false ->
  let r := Api.NewStatusUpdate E status updateTime (j, w) in
  let t := if IsZero updateTime then time_Now E (tick w) else updateTime in
  Api.Status r.2.1 = status /\
  Api.UpdateTime r.2.1 = t /\
  r.2.1 = Api.set_UpdateTime t (Api.set_Status status j) /\
  events r.2.2 = events w ++ [EvDBUpdateJobRecord (Api.UUID j) status t].
Proof.
  intros Ht. unfold Api.NewStatusUpdate, bind, getJ. cbn.
  rewrite terminal_switch, Ht.
  destruct (IsZero updateTime); cbn; auto.
Qed.

(** C9. [Kill] on a job in a terminal status returns an error; the world is
    left as it was, so no call reached the provider; of the job only the
    api log changes, by the message of the dismiss signal: status and last
    update are kept. *)
Theorem Api_Kill_terminal j w :
  terminal (Api.Status j) = true ->
  let r := Api.Kill E (j, w) in
  r.1 = Some "can't call delete on an already completed, failed, or dismissed job" /\
  r.2.2 = w /\
  Api.Status r.2.1 = Api.Status j /\
  Api.UpdateTime r.2.1 = Api.UpdateTime j /\
  r.2.1 = Api.set_apiLogs (Api.apiLogs j ++ ["Received dismiss signal"]) j.
Proof.
  intros Ht. unfold Api.Kill, Api.NewMessage, bind, getJ, modifyJ. cbn.
  unfold Api.CurrentStatus. cbn.
  change ((Api.Status j =? SUCCESSFUL) || (Api.Status j =? FAILED)
          || (Api.Status j =? DISMISSED))%string with (terminal (Api.Status j)).
  rewrite Ht. cbn. auto.
Qed.

End ApiJob.

Lemma Api_NewStatusUpdate_sets_witness :
  terminal (Api.Status (api_job "a" ACCEPTED)) = false /\
  Api.Status (Api.NewStatusUpdate env_ok RUNNING zeroTime (api_job "a" ACCEPTED, world0)).2.1
  = RUNNING /\
  Api.UpdateTime (Api.NewStatusUpdate env_ok RUNNING 1234 (api_job "a" ACCEPTED, world0)).2.1
  = 1234.
Proof.
  split; [reflexivity|]. split.
  - apply (Api_NewStatusUpdate_sets env_ok (api_job "a" ACCEPTED) world0 RUNNING zeroTime).
    reflexivity.
  - apply (Api_NewStatusUpdate_sets env_ok (api_job "a" ACCEPTED) world0 RUNNING 1234).
    reflexivity.
Defined.

Lemma Api_Kill_terminal_witness :
  terminal (Api.Status (api_job "b" SUCCESSFUL)) = true /\
  (Api.Kill env_ok (api_job "b" SUCCESSFUL, world0)).2.2 = world0 /\
  Api.Status (Api.Kill env_ok (api_job "b" SUCCESSFUL, world0)).2.1 = SUCCESSFUL.
Proof.
  split; [reflexivity|]. split.
  - apply (Api_Kill_terminal env_ok (api_job "b" SUCCESSFUL) world0). reflexivity.
  - apply (Api_Kill_terminal env_ok (api_job "b" SUCCESSFUL) world0). reflexivity.
Defined.

(** ** The registry of active jobs *)

Section RegistryFacts.

Context (E : Env) {J : Type} `{!Api.Job J}.

Implicit Types (ac : Api.ActiveJobs J) (w : World) (order : list string).

(** A [Kill] changes the job it is called on and no other entry. *)
Lemma active_insert_ne ac k k' (j' : J) :
  k <> k' ->
  Api.active {| Api.Jobs := <[k := j']> (Api.Jobs ac) |} k' = Api.active ac k'.
Proof.
  intros Hne. unfold Api.active. cbn. rewrite lookup_insert_ne by assumption. reflexivity.
Qed.

Lemma filter_active_insert ac k (j' : J) order :
  k ∉ order ->
  List.filter (Api.active {| Api.Jobs := <[k := j']> (Api.Jobs ac) |}) order
  = List.filter (Api.active ac) order.
Proof.
  intros Hk. apply List.filter_ext_in. intros k' Hin.
  apply active_insert_ne. intros ->. apply Hk. apply list_elem_of_In. exact Hin.
Qed.

(** What a run of [KillAll] over [order] amounts to, when [order] visits no
    key twice. *)
Lemma KillAll_run order :
  NoDup order ->
  forall ac w,
  let r := Api.KillAll E order ac w in
  let act := List.filter (Api.active ac) order in
  match Api.ka_err r with
  | None =>
      Api.ka_calls r = map (fun k => (k, None)) act
  | Some e =>
      exists pre k post,
        act = pre ++ k :: post /\
        Api.ka_calls r = map (fun k => (k, None)) pre ++ [(k, Some e)]
  end /\
  (forall k, k ∉ (Api.ka_calls r).*1 ->
     Api.Jobs (Api.ka_jobs r) !! k = Api.Jobs ac !! k).
Proof.
  induction 1 as [|k rest Hk Hnd IH]; intros ac w; cbn zeta.
  - cbn. split; [reflexivity | auto].
  - cbn [Api.KillAll List.filter].
    assert (Ha : Api.active ac k =
                 match Api.Jobs ac !! k with
                 | Some j => Api.wants_kill j
                 | None => false
                 end) by reflexivity.
    rewrite Ha. clear Ha.
    destruct (Api.Jobs ac !! k) as [j|] eqn:Hj; [|apply IH].
    destruct (Api.wants_kill j) eqn:Hact; [|apply IH].
    destruct (Api.job_Kill E (j, w)) as [err [j' w']] eqn:HK.
    destruct err as [e|]; cbn.
    + split.
      * exists [], k, (List.filter (Api.active ac) rest). auto.
      * intros k' Hk'. apply not_elem_of_cons in Hk' as [Hne _].
        apply lookup_insert_ne. congruence.
    + specialize (IH {| Api.Jobs := <[k := j']> (Api.Jobs ac) |} w').
      cbn zeta in IH. destruct IH as [IH1 IH2].
      rewrite filter_active_insert in IH1 by assumption.
      split.
      * destruct (Api.ka_err _) as [e|].
        -- destruct IH1 as (pre & k0 & post & Hact' & Hcalls).
           exists (k :: pre), k0, post. rewrite Hact', Hcalls. auto.
        -- rewrite IH1. reflexivity.
      * intros k' Hk'. apply not_elem_of_cons in Hk' as [Hne Hk'].
        rewrite IH2 by exact Hk'.
        cbn. apply lookup_insert_ne. congruence.
Qed.

(** The keys on which [KillAll] called [Kill] are keys of [order]. *)
Lemma KillAll_calls_in_order order ac w k :
  k ∈ (Api.ka_calls (Api.KillAll E order ac w)).*1 -> k ∈ order.
Proof.
  revert ac w. induction order as [|k0 rest IH]; intros ac w; cbn [Api.KillAll].
  - cbn. intros Hc. inversion Hc.
  - destruct (Api.Jobs ac !! k0) as [j|];
      [|intros Hc; apply list_elem_of_further; exact (IH _ _ Hc)].
    destruct (Api.wants_kill j);
      [|intros Hc; apply list_elem_of_further; exact (IH _ _ Hc)].
    destruct (Api.job_Kill E (j, w)) as [[e|] [j' w']]; cbn.
    + intros Hc. apply list_elem_of_singleton in Hc. subst. apply list_elem_of_here.
    + intros Hc. apply elem_of_cons in Hc as [-> | Hc]; [apply list_elem_of_here|].
      apply list_elem_of_further. exact (IH _ _ Hc).
Qed.

(** Every call that [KillAll] recorded is a call of [Kill] on the job that
    the registry held under the key, with the result recorded, and the
    registry holds what that call left of the job. *)
Lemma KillAll_calls_are_kills order :
  NoDup order ->
  forall ac w k res,
  (k, res) ∈ Api.ka_calls (Api.KillAll E order ac w) ->
  exists j wk j' wk',
    Api.Jobs ac !! k = Some j /\
    Api.wants_kill j = true /\
    Api.job_Kill E (j, wk) = (res, (j', wk')) /\
    Api.Jobs (Api.ka_jobs (Api.KillAll E order ac w)) !! k = Some j'.
Proof.
  induction 1 as [|k0 rest Hk0 Hnd IH]; intros ac w k res; cbn [Api.KillAll].
  - cbn. intros Hc. inversion Hc.
  - destruct (Api.Jobs ac !! k0) as [j0|] eqn:Hj0; [|apply IH].
    destruct (Api.wants_kill j0) eqn:Hact; [|apply IH].
    destruct (Api.job_Kill E (j0, w)) as [err [j' w']] eqn:HK.
    destruct err as [e|]; cbn.
    + intros Hc. apply list_elem_of_singleton in Hc. injection Hc as -> ->.
      exists j0, w, j', w'. rewrite lookup_insert_eq. auto.
    + intros Hc. apply elem_of_cons in Hc as [Hc | Hc].
      * injection Hc as -> ->. exists j0, w, j', w'.
        split; [exact Hj0|]. split; [exact Hact|]. split; [exact HK|].
        destruct (KillAll_run rest Hnd {| Api.Jobs := <[k0 := j']> (Api.Jobs ac) |} w')
          as [_ Hkeep].
        rewrite Hkeep.
        -- cbn. apply lookup_insert_eq.
        -- intros Hin. apply Hk0. eapply KillAll_calls_in_order. exact Hin.
      * assert (Hne : k0 <> k).
        { intros ->. apply Hk0. eapply KillAll_calls_in_order.
          apply list_elem_of_fmap. exists (k, res). split; [reflexivity | exact Hc]. }
        destruct (IH _ _ _ _ Hc) as (j & wk & j1 & wk' & Hj & Hw & HKk & Hfin).
        cbn in Hj. rewrite lookup_insert_ne in Hj by exact Hne.
        exists j, wk, j1, wk'. auto.
Qed.

(** [KillAll] is the killing in turn of the jobs that were active when it
    started, in the order of the iteration. *)
Lemma KillAll_in_turn order :
  NoDup order ->
  forall ac w,
  Api.KillAll E order ac w
  = kill_in_turn E (List.filter (Api.active ac) order) ac w.
Proof.
  induction 1 as [|k rest Hk Hnd IH]; intros ac w; [reflexivity|].
  cbn [Api.KillAll List.filter].
  assert (Ha : Api.active ac k =
               match Api.Jobs ac !! k with
               | Some j => Api.wants_kill j
               | None => false
               end) by reflexivity.
  rewrite Ha. clear Ha.
  destruct (Api.Jobs ac !! k) as [j|] eqn:Hj; [|apply IH].
  destruct (Api.wants_kill j) eqn:Hact; [|apply IH].
  cbn [kill_in_turn]. rewrite Hj.
  destruct (Api.job_Kill E (j, w)) as [err [j' w']].
  destruct err as [e|]; [reflexivity|].
  rewrite IH, filter_active_insert by assumption. reflexivity.
Qed.

(** C5. [order] is the order in which Go ranges over the registry, any
    arrangement of its keys. [KillAll] calls [Kill] on the jobs whose status
    is accepted or running, in that order, each once and on no other job;
    when every call returns nil it has called all of them and returns nil;
    otherwise it returns the first error, and the call that returned it is
    the last one made: the active jobs after it are not attempted. The
    calls are calls of [Kill] indeed: the whole result, with the registry
    and the world it leaves, is that of killing those jobs in turn, each
    call working on the job that the registry holds and in the world that
    the call before it left; each recorded result is what [Kill] returned
    for the job, and the registry holds what that call left of it. Jobs on
    which [Kill] was not called are left as they were, and when no job is
    active nothing is called and nothing changes. *)
Theorem KillAll_spec ac w order :
  order ≡ₚ elements (dom (Api.Jobs ac)) ->
  let r := Api.KillAll E order ac w in
  let act := List.filter (Api.active ac) order in
  (forall k, k ∈ act <->
     exists j, Api.Jobs ac !! k = Some j /\
       (Api.job_CurrentStatus j = ACCEPTED \/ Api.job_CurrentStatus j = RUNNING)) /\
  match Api.ka_err r with
  | None =>
      Api.ka_calls r = map (fun k => (k, None)) act
  | Some e =>
      exists pre k post,
        act = pre ++ k :: post /\
        Api.ka_calls r = map (fun k => (k, None)) pre ++ [(k, Some e)]
  end /\
  (forall k, k ∉ (Api.ka_calls r).*1 ->
     Api.Jobs (Api.ka_jobs r) !! k = Api.Jobs ac !! k) /\
  r = kill_in_turn E act ac w /\
  (forall k res, (k, res) ∈ Api.ka_calls r ->
     exists j wk j' wk',
       Api.Jobs ac !! k = Some j /\
       Api.job_Kill E (j, wk) = (res, (j', wk')) /\
       Api.Jobs (Api.ka_jobs r) !! k = Some j') /\
  (forall k j, head act = Some k -> Api.Jobs ac !! k = Some j ->
     head (Api.ka_calls r) = Some (k, (Api.job_Kill E (j, w)).1)) /\
  (act = [] -> r = {| Api.ka_err := None; Api.ka_calls := [];
                      Api.ka_jobs := ac; Api.ka_world := w |}).
Proof.
  intros Hperm. cbn zeta.
  assert (Hnd : NoDup order) by (rewrite Hperm; apply NoDup_elements).
  split.
  - intros k. rewrite list_elem_of_In, List.filter_In, <- list_elem_of_In.
    rewrite Hperm, elem_of_elements, elem_of_dom. unfold Api.active, Api.wants_kill.
    split.
    + intros [[j Hj] Ha]. rewrite Hj in Ha. exists j. split; [assumption|].
      apply orb_true_iff in Ha. rewrite !eqb_string_true in Ha. exact Ha.
    + intros (j & Hj & Hs). rewrite Hj. split; [eauto|].
      apply orb_true_iff. rewrite !eqb_string_true. exact Hs.
  - destruct (KillAll_run order Hnd ac w) as [Hcalls Hkeep].
    split; [exact Hcalls|]. split; [exact Hkeep|].
    split; [apply KillAll_in_turn; exact Hnd|].
    split; [|split].
    + intros k res Hin.
      destruct (KillAll_calls_are_kills order Hnd ac w k res Hin)
        as (j & wk & j' & wk' & Hj & _ & HK & Hfin).
      exists j, wk, j', wk'. auto.
    + intros k j Hact Hj. rewrite (KillAll_in_turn order Hnd).
      destruct (List.filter (Api.active ac) order) as [|k' rest]; [discriminate|].
      injection Hact as ->.
      cbn [kill_in_turn]. rewrite Hj.
      destruct (Api.job_Kill E (j, w)) as [[e|] [j' w']]; reflexivity.
    + intros Hact. rewrite (KillAll_in_turn order Hnd), Hact. reflexivity.
Qed.

End RegistryFacts.

Lemma KillAll_spec_witness :
  ["a"; "b"; "c"] ≡ₚ elements (dom (Api.Jobs registry3)) /\
  Api.ka_err (Api.KillAll env_ok ["a"; "b"; "c"] registry3 world0) = None /\
  Api.ka_calls (Api.KillAll env_ok ["a"; "b"; "c"] registry3 world0)
  = [("a", None); ("c", None)] /\
  List.filter provider_call
    (events (Api.ka_world (Api.KillAll env_ok ["a"; "b"; "c"] registry3 world0)))
  = [EvNewController "AWS_REGION"; EvJobKill "batch-a";
     EvNewController "AWS_DEFAULT_REGION"; EvJobMonitor "batch-a";
     EvNewController "AWS_REGION"; EvJobKill "batch-c";
     EvNewController "AWS_DEFAULT_REGION"; EvJobMonitor "batch-c"] /\
  Api.Status <$> Api.Jobs (Api.ka_jobs (Api.KillAll env_ok ["a"; "b"; "c"] registry3 world0))
  = {["a" := DISMISSED; "b" := SUCCESSFUL; "c" := DISMISSED]}.
Proof.
  assert (Hp : ["a"; "b"; "c"] ≡ₚ elements (dom (Api.Jobs registry3))).
  { replace (elements (dom (Api.Jobs registry3))) with ["c"; "a"; "b"]
      by (vm_compute; reflexivity).
    symmetry. exact (Permutation_cons_append ["a"; "b"] "c"). }
  split; [exact Hp|].
  destruct (KillAll_spec env_ok registry3 world0 ["a"; "b"; "c"] Hp)
    as (_ & _ & _ & Hturn & _).
  rewrite Hturn. vm_compute. auto.
Defined.

(** ** The earlier job of [src/jobs] and its monitor *)

Section LegacyJob.

Context (E : Env).

Implicit Types (j : Legacy.AWSBatchJob) (w : World).

(** The job of [src/jobs] ends a run of status updates in the status of
    the last one, whatever the statuses before it. *)
Lemma Legacy_updates_last l s (st : St Legacy.AWSBatchJob) :
  Legacy.Status (Legacy_updates E (l ++ [s]) st).1 = s.
Proof.
  revert st. induction l as [|s' l IH]; intros st; cbn [app Legacy_updates].
  - destruct st as [j w]. reflexivity.
  - apply IH.
Qed.

(** C1, on the job of [src/jobs]. Its [NewStatusUpdate] has no test of the
    current status: called with running on a dismissed job, it makes the job
    running again and moves the last update to the reading of the clock; and
    after any run of calls on a dismissed job the status is that of the last
    call. The job of [src/api/jobs] keeps status and last update
    ([Api_NewStatusUpdate_terminal], [Api_updates_terminal]). *)
Theorem Legacy_NewStatusUpdate_overwrites j w :
  let j0 := Legacy.set_Status DISMISSED j in
  let r := Legacy.NewStatusUpdate E RUNNING (j0, w) in
  terminal (Legacy.Status j0) = true /\
  Legacy.Status r.2.1 = RUNNING /\
  terminal (Legacy.Status r.2.1) = false /\
  Legacy.UpdateTime r.2.1 = time_Now E (tick w) /\
  forall l s, Legacy.Status (Legacy_updates E (l ++ [s]) (j0, w)).1 = s.
Proof.
  cbn zeta. repeat split.
  intros l s. apply Legacy_updates_last.
Qed.

(** The status after an iteration of the monitor loop that observed
    [status]. *)
Lemma Run_iter_observed j w oldStatus status stream :
  JobMonitor E (tick w) (Legacy.AWSBatchID j) = Ok (status, stream) ->
  Legacy.Status (Legacy.Run_iter E oldStatus (j, w)).2.1 =
    if negb (status =? oldStatus)%string then
      if (status =? "ACCEPTED")%string then ACCEPTED
      else if (status =? "RUNNING")%string then RUNNING
      else if (status =? "SUCCEEDED")%string then SUCCESSFUL
      else if (status =? "DISMISSED")%string then DISMISSED
      else if (status =? "FAILED")%string then FAILED
      else Legacy.Status j
    else Legacy.Status j.
Proof.
  intros Hobs. unfold Legacy.Run_iter, bind, getJ, ask. cbn. rewrite Hobs. cbn.
  destruct (status =? oldStatus)%string; cbn; [reflexivity|].
  repeat (match goal with
          | |- context [(status =? ?c)%string] => destruct (status =? c)%string; cbn
          end; try reflexivity).
Qed.




End LegacyJob.




Section LegacyMonitor.

Context (E : Env).

Implicit Types (j : Legacy.AWSBatchJob) (w : World).

Lemma Run_iter_failed j w oldStatus e :
  JobMonitor E (tick w) (Legacy.AWSBatchID j) = Err e ->
  Legacy.Run_iter E oldStatus (j, w)
  = (Legacy.Return,
     (Legacy.set_ctxDone true
        (Legacy.set_UpdateTime (time_Now E (S (tick w)))
           (Legacy.set_Status FAILED (Legacy.set_APILogs (Legacy.APILogs j ++ [e]) j))),
      advance (advance (emit (EvJobMonitor (Legacy.AWSBatchID j)) w)))).
Proof.
  intros Hobs. unfold Legacy.Run_iter, bind, getJ, ask. cbn. rewrite Hobs. reflexivity.
Qed.

(** Fetching the logs of a job of [src/api/jobs] touches neither its status
    nor its last update, whatever the calls answer. *)
Lemma getLogStreamName_keeps (ja : Api.AWSBatchJob) w :
  Api.Status (Api.getLogStreamName E (ja, w)).2.1 = Api.Status ja /\
  Api.UpdateTime (Api.getLogStreamName E (ja, w)).2.1 = Api.UpdateTime ja /\
  Api.apiLogs (Api.getLogStreamName E (ja, w)).2.1 = Api.apiLogs ja.
Proof.
  unfold Api.getLogStreamName, newController, bind, getJ, ask, modifyJ, ret. cbn.
  destruct (NewAWSBatchController E _ _ _ _); cbn; [auto|].
  destruct (JobMonitor E _ _) as [[status stream]|e]; cbn; auto.
Qed.

Lemma fetchLogEvents_keeps (ja : Api.AWSBatchJob) w :
  Api.Status (Api.fetchLogEvents E (ja, w)).2.1 = Api.Status ja /\
  Api.UpdateTime (Api.fetchLogEvents E (ja, w)).2.1 = Api.UpdateTime ja /\
  Api.apiLogs (Api.fetchLogEvents E (ja, w)).2.1 = Api.apiLogs ja.
Proof.
  unfold Api.fetchLogEvents, bind, getJ, ask, modifyJ, ret. cbn.
  destruct (Api.logStreamName ja =? "")%string; cbn; [auto|].
  destruct (NewSession E _); cbn; [auto|].
  destruct (GetLogEvents E _ _ _) as [logs|e]; cbn; [auto|].
  destruct (e =? _)%string; cbn; auto.
Qed.

Lemma fetchCloudWatchLogs_keeps (ja : Api.AWSBatchJob) w :
  Api.Status (Api.fetchCloudWatchLogs E (ja, w)).2.1 = Api.Status ja /\
  Api.UpdateTime (Api.fetchCloudWatchLogs E (ja, w)).2.1 = Api.UpdateTime ja /\
  Api.apiLogs (Api.fetchCloudWatchLogs E (ja, w)).2.1 = Api.apiLogs ja.
Proof.
  unfold Api.fetchCloudWatchLogs, bind, getJ.
  cbn -[Api.getLogStreamName Api.fetchLogEvents].
  destruct (Api.logStreamName ja =? "")%string; [|apply fetchLogEvents_keeps].
  pose proof (getLogStreamName_keeps ja w) as Hg.
  destruct (Api.getLogStreamName E (ja, w)) as [err [j1 w1]]. cbn in Hg.
  destruct err; cbn; [exact Hg|].
  destruct Hg as (Hs & Ht & Hl). rewrite <- Hs, <- Ht, <- Hl. apply fetchLogEvents_keeps.
Qed.

Lemma Close_keeps (ja : Api.AWSBatchJob) w :
  Api.Status (Api.Close E (ja, w)).2.1 = Api.Status ja /\
  Api.UpdateTime (Api.Close E (ja, w)).2.1 = Api.UpdateTime ja /\
  Api.apiLogs (Api.Close E (ja, w)).2.1 =
    match (Api.fetchCloudWatchLogs E (Api.set_ctxDone true ja, w)).1 with
    | Some e => Api.apiLogs ja ++ ["Could not fetch cloud watch logs. Error: " +:+ e]
    | None => Api.apiLogs ja
    end.
Proof.
  unfold Api.Close, bind, modifyJ. cbn -[Api.fetchCloudWatchLogs].
  pose proof (fetchCloudWatchLogs_keeps (Api.set_ctxDone true ja) w) as Hf.
  destruct (Api.fetchCloudWatchLogs E (Api.set_ctxDone true ja, w)) as [err [j1 w1]].
  cbn in Hf. destruct Hf as (Hs & Ht & Hl).
  destruct err; cbn; rewrite ?Hs, ?Ht, ?Hl; auto.
Qed.

(** C3, as the code has it. When the observe call of an iteration of the
    monitor loop returns an error, the monitor appends the message to the api
    log of the job, sets the status to failed, cancels the context and
    returns: the loop makes no further observe call, whatever iterations
    were left. A failure to fetch the logs of a job of [src/api/jobs], in
    [Logs] or in [Close], changes neither status nor last update; [Close]
    appends it to the api log. *)
Theorem monitor_observe_error j w oldStatus e :
  JobMonitor E (tick w) (Legacy.AWSBatchID j) = Err e ->
  let r := Legacy.Run_iter E oldStatus (j, w) in
  (r.1 = Legacy.Return /\
   Legacy.APILogs r.2.1 = Legacy.APILogs j ++ [e] /\
   Legacy.Status r.2.1 = FAILED /\
   Legacy.ctxDone r.2.1 = true /\
   events r.2.2 = events w ++ [EvJobMonitor (Legacy.AWSBatchID j)] /\
   forall fuel, Legacy.Run_loop E (S fuel) oldStatus (j, w) = (true, r.2)) /\
  (forall (ja : Api.AWSBatchJob) wa,
     Api.Status (Api.Logs E (ja, wa)).2.1 = Api.Status ja /\
     Api.UpdateTime (Api.Logs E (ja, wa)).2.1 = Api.UpdateTime ja /\
     Api.Status (Api.Close E (ja, wa)).2.1 = Api.Status ja /\
     Api.UpdateTime (Api.Close E (ja, wa)).2.1 = Api.UpdateTime ja /\
     forall e', (Api.fetchCloudWatchLogs E (Api.set_ctxDone true ja, wa)).1 = Some e' ->
       Api.apiLogs (Api.Close E (ja, wa)).2.1
       = Api.apiLogs ja ++ ["Could not fetch cloud watch logs. Error: " +:+ e']).
Proof.
  intros Hobs. cbn zeta. split.
  - rewrite (Run_iter_failed _ _ _ _ Hobs). cbn.
    repeat split. intros fuel. unfold bind.
    rewrite (Run_iter_failed _ _ _ _ Hobs). reflexivity.
  - intros ja wa.
    destruct (Close_keeps ja wa) as (Hs & Ht & Hl).
    repeat split; try assumption.
    + unfold Api.Logs, bind, getJ. cbn -[Api.fetchCloudWatchLogs].
      pose proof (fetchCloudWatchLogs_keeps ja wa) as Hf.
      destruct (Api.fetchCloudWatchLogs E (ja, wa)) as [err [j1 w1]].
      destruct err; cbn; apply Hf.
    + unfold Api.Logs, bind, getJ. cbn -[Api.fetchCloudWatchLogs].
      pose proof (fetchCloudWatchLogs_keeps ja wa) as Hf.
      destruct (Api.fetchCloudWatchLogs E (ja, wa)) as [err [j1 w1]].
      destruct err; cbn; apply Hf.
    + intros e' He'. rewrite Hl, He'. reflexivity.
Qed.

End LegacyMonitor.

Lemma monitor_observe_error_witness :
  JobMonitor (env_observing (Err "RequestError: send request failed")) (tick world0)
    (Legacy.AWSBatchID (legacy_job ACCEPTED)) = Err "RequestError: send request failed" /\
  Legacy.Status
    (Legacy.Run_iter (env_observing (Err "RequestError: send request failed")) ""
       (legacy_job ACCEPTED, world0)).2.1 = FAILED.
Proof.
  split; [reflexivity|].
  apply (monitor_observe_error (env_observing (Err "RequestError: send request failed"))
           (legacy_job ACCEPTED) world0 "" "RequestError: send request failed").
  reflexivity.
Defined.

(** C3 as the specification words it fails on the code: after one failed
    observe call the accepted job is failed, a terminal status, and [Run] has
    returned having called the provider once, although four more iterations
    were allowed. *)
Lemma observe_error_counterexample :
  terminal (Legacy.Status (legacy_job ACCEPTED)) = false /\
  Legacy.Status observe_error_run.2.1 = FAILED /\
  terminal (Legacy.Status observe_error_run.2.1) = true /\
  observe_error_run.1 = true /\
  List.filter provider_call (events observe_error_run.2.2) = [EvJobMonitor "batch-1"].
Proof. repeat split; reflexivity. Qed.

Section LegacyDismiss.

Context (E : Env).

Implicit Types (j : Legacy.AWSBatchJob) (w : World).

Lemma Legacy_Kill_ok j w :
  NewAWSBatchController E (tick w) (os_Getenv E "AWS_ACCESS_KEY_ID")
    (os_Getenv E "AWS_SECRET_ACCESS_KEY") (os_Getenv E "AWS_DEFAULT_REGION") = None ->
  JobKill E (S (tick w)) (Legacy.AWSBatchID j) = None ->
  Legacy.Kill E (j, w)
  = (None,
     (Legacy.set_ctxDone true
        (Legacy.set_UpdateTime (time_Now E (S (S (tick w)))) (Legacy.set_Status DISMISSED j)),
      advance (advance (emit (EvJobKill (Legacy.AWSBatchID j))
        (advance (emit (EvNewController (os_Getenv E "AWS_DEFAULT_REGION")) w)))))).
Proof.
  intros Hc Hk. unfold Legacy.Kill, newController, bind, getJ, ask. cbn.
  rewrite Hc. cbn. rewrite Hk. reflexivity.
Qed.

(** C4, on the job of [src/jobs]. After a [Kill] that returned nil the job
    is dismissed; when the next iteration of the monitor loop observes
    RUNNING or SUCCEEDED, and that is not the status the loop observed last,
    the job is running or successful again. *)
Theorem monitor_revives_dismissed j w oldStatus status stream :
  NewAWSBatchController E (tick w) (os_Getenv E "AWS_ACCESS_KEY_ID")
    (os_Getenv E "AWS_SECRET_ACCESS_KEY") (os_Getenv E "AWS_DEFAULT_REGION") = None ->
  JobKill E (S (tick w)) (Legacy.AWSBatchID j) = None ->
  let killed := Legacy.Kill E (j, w) in
  JobMonitor E (tick killed.2.2) (Legacy.AWSBatchID j) = Ok (status, stream) ->
  status <> oldStatus ->
  status = "RUNNING" \/ status = "SUCCEEDED" ->
  let polled := Legacy.Run_iter E oldStatus killed.2 in
  killed.1 = None /\
  Legacy.Status killed.2.1 = DISMISSED /\
  Legacy.Status polled.2.1 = (if (status =? "RUNNING")%string then RUNNING else SUCCESSFUL).
Proof.
  intros Hc Hk killed Hobs Hne Hst polled. subst killed polled.
  rewrite (Legacy_Kill_ok _ _ Hc Hk) in *. cbn [fst snd] in *.
  repeat split.
  rewrite (Run_iter_observed E _ _ oldStatus status stream) by exact Hobs.
  apply eqb_string_false in Hne. rewrite Hne. cbn [negb].
  destruct Hst as [-> | ->]; reflexivity.
Qed.

End LegacyDismiss.

Lemma monitor_revives_dismissed_witness :
  dismissed_then_observed.(after_kill).1 = None /\
  Legacy.Status dismissed_then_observed.(after_kill).2.1 = DISMISSED /\
  Legacy.Status dismissed_then_observed.(after_poll).2.1 = RUNNING.
Proof.
  exact (monitor_revives_dismissed env_ok (legacy_job ACCEPTED) world0
           "ACCEPTED" "RUNNING" "stream-1" eq_refl eq_refl eq_refl
           ltac:(discriminate) (or_introl eq_refl)).
Defined.

(** ** The jobs cache *)

Section CacheFacts.

Context (E : Env) (X : Legacy.Outside).

Implicit Types (h : list Legacy.AnyJob) (c : Legacy.JobsCache) (p q : nat).

Lemma elem_of_insert_by_time h p l q :
  q ∈ Legacy.insert_by_time E X h p l <-> q = p \/ q ∈ l.
Proof.
  induction l as [|x l IH]; cbn.
  - rewrite list_elem_of_singleton. rewrite elem_of_nil. tauto.
  - destruct (_ <=? _).
    + rewrite elem_of_cons. tauto.
    + rewrite !elem_of_cons, IH. tauto.
Qed.

Lemma elem_of_oldest_first h l q :
  q ∈ Legacy.oldest_first E X h l <-> q ∈ l.
Proof.
  unfold Legacy.oldest_first. induction l as [|x l IH]; cbn; [tauto|].
  rewrite elem_of_insert_by_time, IH, elem_of_cons. tauto.
Qed.

Lemma cache_remove_keeps h v c p :
  p <> v -> p ∈ Legacy.Jobs c -> p ∈ Legacy.Jobs (Legacy.cache_remove E X h v c).
Proof.
  intros Hne Hin. cbn. apply list_elem_of_In, List.filter_In.
  split; [apply list_elem_of_In; exact Hin|].
  apply negb_true_iff, Nat.eqb_neq. exact Hne.
Qed.

Lemma evict_keeps h victims : forall c p,
  p ∉ victims -> p ∈ Legacy.Jobs c -> p ∈ Legacy.Jobs (Legacy.evict E X h victims c).
Proof.
  induction victims as [|v vs IH]; intros c p Hnot Hin; cbn; [exact Hin|].
  apply not_elem_of_cons in Hnot as [Hne Hnot].
  destruct (_ <=? _); [exact Hin|].
  apply IH; [exact Hnot|]. apply cache_remove_keeps; assumption.
Qed.

(** The eviction of section 4.D removes entries in a terminal status only:
    a job that is not in one is in the cache after its insertion. *)
Lemma cache_Add_keeps h p c :
  Legacy.evictable E X h p = false ->
  p ∈ Legacy.Jobs (Legacy.cache_Add E X h p c).
Proof.
  intros Hev. unfold Legacy.cache_Add. cbn -[Legacy.oldest_first Legacy.evict Z.mul].
  assert (Hin : p ∈ Legacy.Jobs c ++ [p]) by (apply elem_of_app; right; constructor).
  destruct (_ >? _); [|exact Hin].
  apply evict_keeps; [|exact Hin].
  rewrite elem_of_oldest_first. intros Hp.
  apply list_elem_of_In, List.filter_In in Hp. destruct Hp as [_ Hp]. congruence.
Qed.

End CacheFacts.

(** ** The REST handlers *)

Section HandlerFacts.

Context (E : Env) (X : Legacy.Outside).

Implicit Types (rh : Legacy.RESTHandler) (w : World) (j : Legacy.AnyJob).

Lemma new_job_fresh p processID jobID jobType cmd j :
  Legacy.new_job p processID jobID jobType cmd = Some j ->
  Legacy.any_CurrentStatus E X j = "" /\
  Legacy.any_JobID E X j = jobID /\
  Legacy.any_Cmd j = Some cmd.
Proof.
  unfold Legacy.new_job.
  destruct (jobType =? "sync-execute")%string; [intros [= <-]; cbn; auto|].
  destruct (_ =? "aws-batch")%string; [intros [= <-]; cbn; auto|discriminate].
Qed.

(** What [Execution] has checked and built when it reaches the submission. *)
Lemma Execution_job_inv req rh w p jobID j w' :
  Legacy.Execution_job E X req rh w = (inr (p, jobID, j), w') ->
  exists params inputs jobType rest jsonParams,
    Legacy.ProcessList_Get (Legacy.rh_ProcessList rh) (Legacy.param_processID req) = Ok p /\
    Legacy.bound_body req = Ok params /\
    Legacy.Inputs params = Some inputs /\
    Legacy.Info_JobControlOptions p = jobType :: rest /\
    jobID = uuid_New E (tick w) /\
    Legacy.json_Marshal X (<["jobID" := JStr jobID]> inputs) = Ok jsonParams /\
    Legacy.new_job p (Legacy.param_processID req) jobID jobType
      (Legacy.command (Legacy.EntryPoint (Legacy.Runtime p)) jsonParams) = Some j.
Proof.
  unfold Legacy.Execution_job.
  destruct (Legacy.param_processID req =? "")%string; [discriminate|].
  destruct (Legacy.ProcessList_Get _ _) as [p0|]; [|discriminate].
  destruct (Legacy.bound_body req) as [params|]; [|discriminate].
  destruct (Legacy.Inputs params) as [inputs|] eqn:Hin; [|discriminate].
  destruct (Legacy.verifyInputs p0 inputs); [discriminate|].
  destruct (Legacy.Info_JobControlOptions p0) as [|jobType rest] eqn:Hopt; [discriminate|].
  destruct (Legacy.json_Marshal X _) as [jsonParams|] eqn:Hm; [|discriminate].
  destruct (Legacy.new_job _ _ _ _ _) as [j0|] eqn:Hj; [|discriminate].
  intros [= <- <- <- <-].
  exists params, inputs, jobType, rest, jsonParams. auto 10.
Qed.

(** C8. When [Execution] has accepted a request and built its job, the job
    id is the fresh identifier; the map given to the encoder is the inputs
    of the request with the job id under the key jobID; the command of the
    job is the encoded map alone when the entry point of the process is
    empty, and the entry point followed by the encoded map otherwise; and
    this job is the one [Execution] puts in the cache and creates. *)
Theorem Execution_builds_command req rh w p jobID j w' :
  Legacy.Execution_job E X req rh w = (inr (p, jobID, j), w') ->
  exists params inputs jsonParams,
    Legacy.bound_body req = Ok params /\
    Legacy.Inputs params = Some inputs /\
    jobID = uuid_New E (tick w) /\
    Legacy.any_JobID E X j = jobID /\
    (<["jobID" := JStr jobID]> inputs) !! "jobID" = Some (JStr jobID) /\
    (forall k, k <> "jobID" -> (<["jobID" := JStr jobID]> inputs) !! k = inputs !! k) /\
    Legacy.json_Marshal X (<["jobID" := JStr jobID]> inputs) = Ok jsonParams /\
    (Legacy.EntryPoint (Legacy.Runtime p) = "" ->
       Legacy.any_Cmd j = Some [jsonParams]) /\
    (Legacy.EntryPoint (Legacy.Runtime p) <> "" ->
       Legacy.any_Cmd j = Some [Legacy.EntryPoint (Legacy.Runtime p); jsonParams]) /\
    (forall fuel, Legacy.Execution E X fuel req rh w
                  = Legacy.Execution_submit E X fuel p jobID j rh w').
Proof.
  intros Hjob.
  destruct (Execution_job_inv _ _ _ _ _ _ _ Hjob)
    as (params & inputs & jobType & rest & jsonParams & _ & Hb & Hi & _ & Hid & Hm & Hnew).
  destruct (new_job_fresh _ _ _ _ _ _ Hnew) as (_ & Hjid & Hcmd).
  exists params, inputs, jsonParams.
  repeat split; try assumption.
  - apply lookup_insert_eq.
  - intros k Hk. apply lookup_insert_ne. congruence.
  - intros He. rewrite Hcmd. unfold Legacy.command. rewrite He. reflexivity.
  - intros He. rewrite Hcmd. unfold Legacy.command.
    apply eqb_string_false in He. rewrite He. reflexivity.
  - intros fuel. unfold Legacy.Execution. rewrite Hjob. reflexivity.
Qed.

(** A [Create] of the cloud-batch job that returns an error has gone
    through [HandleError]: the job is failed, with the error in its api log
    and its context cancelled. *)
Lemma Create_error (b : Legacy.AWSBatchJob) w err b1 w1 :
  Legacy.Create E (b, w) = (Legacy.Returned (Some err), (b1, w1)) ->
  Legacy.Status b1 = FAILED /\
  Legacy.APILogs b1 = Legacy.APILogs b ++ [err] /\
  Legacy.ctxDone b1 = true.
Proof.
  unfold Legacy.Create, newController, bind, getJ, ask, modifyJ. cbn.
  destruct (NewAWSBatchController E _ _ _ _); cbn.
  - intros [= <- <- <-]. cbn. auto.
  - destruct (JobCreate E _ _ _ _ _ _); cbn.
    + destruct (Legacy.Cmd b); cbn; discriminate.
    + intros [= <- <- <-]. cbn. auto.
Qed.

(** C6, as the code has it. When the [Create] of the job of an execution
    request returns an error, [Execution] answers 500 with the error; the
    job stays in the jobs cache, where it was put before [Create]: nothing
    removes it; and a cloud-batch job is failed, with the error in its api
    log, not accepted. *)
Theorem Execution_submit_failure fuel req rh w p jobID j w0 err j1 w1 :
  Legacy.Execution_job E X req rh w = (inr (p, jobID, j), w0) ->
  Legacy.any_Create E X (j, w0) = (Legacy.Returned (Some err), (j1, w1)) ->
  let r := Legacy.Execution E X fuel req rh w in
  let ptr := length (Legacy.heap rh) in
  r.1.1 = Legacy.Returned
            (Legacy.JSON 500 (Legacy.BString ("submission errorr " +:+ err))) /\
  ptr ∈ Legacy.Jobs (Legacy.rh_JobsCache r.1.2) /\
  Legacy.heap r.1.2 !! ptr = Some j1 /\
  (forall b, j = Legacy.JBatch b ->
     exists b1, j1 = Legacy.JBatch b1 /\
       Legacy.Status b1 = FAILED /\
       Legacy.Status b1 <> ACCEPTED /\
       Legacy.APILogs b1 = Legacy.APILogs b ++ [err]).
Proof.
  intros Hjob Hcreate. cbn zeta.
  unfold Legacy.Execution. rewrite Hjob.
  unfold Legacy.Execution_submit. rewrite Hcreate. cbn [fst snd].
  destruct (Execution_job_inv _ _ _ _ _ _ _ Hjob)
    as (_ & _ & jobType & _ & jsonParams & _ & _ & _ & _ & _ & _ & Hnew).
  destruct (new_job_fresh _ _ _ _ _ _ Hnew) as (Hst & _ & _).
  repeat split.
  - cbn. apply cache_Add_keeps. unfold Legacy.evictable.
    rewrite lookup_app_r by reflexivity. rewrite Nat.sub_diag. cbn.
    rewrite Hst. reflexivity.
  - cbn. apply list_lookup_insert_eq. rewrite length_app. cbn. lia.
  - intros b ->. unfold Legacy.any_Create, Legacy.method_call in Hcreate.
    cbn -[Legacy.Create] in Hcreate.
    destruct (Legacy.Create E (b, w0)) as [created [b1 w1']] eqn:Hc.
    injection Hcreate as -> <- <-.
    destruct (Create_error _ _ _ _ _ Hc) as (Hs & Hl & _).
    exists b1. rewrite Hs. repeat split; [discriminate | exact Hl].
Qed.

End HandlerFacts.

Lemma Execution_builds_command_witness :
  Legacy.Execution_job env_ok outside0 request0 handler0 world0
  = (inr (long_task, "0b7e3c52-5a1e-4c58-9d0f-2f1f0c1a9e11", built_job0), advance world0) /\
  exists jsonParams, Legacy.any_Cmd built_job0 = Some ["run.sh"; jsonParams].
Proof.
  assert (H : Legacy.Execution_job env_ok outside0 request0 handler0 world0
              = (inr (long_task, "0b7e3c52-5a1e-4c58-9d0f-2f1f0c1a9e11", built_job0),
                 advance world0)) by (vm_compute; reflexivity).
  split; [exact H|].
  destruct (Execution_builds_command env_ok outside0 _ _ _ _ _ _ _ H)
    as (_ & _ & jsonParams & _ & _ & _ & _ & _ & _ & _ & _ & Hcmd & _).
  exists jsonParams. apply Hcmd. discriminate.
Defined.

Lemma Execution_submit_failure_witness :
  Legacy.Execution_job env_no_controller outside0 request0 handler0 world0
  = (inr (long_task, "0b7e3c52-5a1e-4c58-9d0f-2f1f0c1a9e11", built_job0), advance world0) /\
  Legacy.any_Create env_no_controller outside0 (built_job0, advance world0)
  = (Legacy.Returned (Some "NoCredentialProviders: no valid providers in chain"),
     (failed_job0, {| tick := 3; events := [EvNewController "AWS_DEFAULT_REGION"] |})) /\
  0%nat ∈ Legacy.Jobs (Legacy.rh_JobsCache failed_submission.1.2).
Proof.
  assert (H1 : Legacy.Execution_job env_no_controller outside0 request0 handler0 world0
               = (inr (long_task, "0b7e3c52-5a1e-4c58-9d0f-2f1f0c1a9e11", built_job0),
                  advance world0)) by (vm_compute; reflexivity).
  assert (H2 : Legacy.any_Create env_no_controller outside0 (built_job0, advance world0)
               = (Legacy.Returned (Some "NoCredentialProviders: no valid providers in chain"),
                  (failed_job0,
                   {| tick := 3; events := [EvNewController "AWS_DEFAULT_REGION"] |})))
    by (vm_compute; reflexivity).
  split; [exact H1|]. split; [exact H2|].
  exact (proj1 (proj2 (Execution_submit_failure env_no_controller outside0 0
                         _ _ _ _ _ _ _ _ _ _ H1 H2))).
Defined.

(** C6 as the specification words it fails on the code: after the failed
    submission of [request0] the answer is 500 and the cache, which was
    empty, holds the job, which is failed. *)
Lemma rollback_counterexample :
  Legacy.Jobs (Legacy.rh_JobsCache handler0) = [] /\
  Legacy.code <$> match failed_submission.1.1 with
                  | Legacy.Returned r => Some r
                  | _ => None
                  end = Some 500 /\
  Legacy.Jobs (Legacy.rh_JobsCache failed_submission.1.2) = [0%nat] /\
  Legacy.cached_jobs failed_submission.1.2 = [failed_job0].
Proof. repeat split; vm_compute; reflexivity. Qed.

(** ** The results handler *)

Section ResultsFacts.

Context (E : Env) (X : Legacy.Outside).

Implicit Types (rh : Legacy.RESTHandler) (j : Legacy.AnyJob) (js : list Legacy.AnyJob).

Lemma results_range_absent jobID js :
  Forall (fun j => Legacy.any_JobID E X j <> jobID) js ->
  Legacy.results_range E X jobID js =
    Legacy.JSON 404
      (Legacy.BObject [("type", JStr "process"); ("jobID", JStr jobID);
                       ("status", JNum 0); ("detail", JStr "jobID not found")]).
Proof.
  induction 1 as [|j js Hj _ IH]; [reflexivity|].
  cbn [Legacy.results_range]. apply eqb_string_false in Hj. rewrite Hj. exact IH.
Qed.

(** The loop answers for the first job with the id. *)
Lemma results_range_first jobID pre j post :
  Forall (fun j' => Legacy.any_JobID E X j' <> jobID) pre ->
  Legacy.any_JobID E X j = jobID ->
  Legacy.results_range E X jobID (pre ++ j :: post) = Legacy.results_of E X jobID j.
Proof.
  intros Hpre Hj. induction Hpre as [|j' pre Hj' _ IH]; cbn [app Legacy.results_range].
  - apply eqb_string_true in Hj. rewrite Hj. reflexivity.
  - apply eqb_string_false in Hj'. rewrite Hj'. exact IH.
Qed.

Lemma first_with_id jobID js :
  (exists j, j ∈ js /\ Legacy.any_JobID E X j = jobID) ->
  exists pre j post,
    js = pre ++ j :: post /\
    Forall (fun j' => Legacy.any_JobID E X j' <> jobID) pre /\
    Legacy.any_JobID E X j = jobID.
Proof.
  induction js as [|j0 js IH]; intros (j & Hin & Hj).
  - inversion Hin.
  - destruct (decide (Legacy.any_JobID E X j0 = jobID)) as [Heq|Hne].
    + exists [], j0, js. auto.
    + apply elem_of_cons in Hin as [-> | Hin]; [contradiction|].
      destruct IH as (pre & j1 & post & -> & Hpre & Hj1); [eauto|].
      exists (j0 :: pre), j1, post. auto.
Qed.

(** C7. For a job id that no job of the cache has, [JobResultsHandler]
    answers 404. For one that a job of the cache has, the first such job in
    the order of the loop decides: 200 with the outputs of the job when it is
    successful, 200 with its logs as the detail when it is failed or
    dismissed, and 404 with the detail results not ready in any other
    status. *)
Theorem JobResultsHandler_spec jobID rh :
  let resp := Legacy.JobResultsHandler E X jobID rh in
  let jobs := Legacy.cached_jobs rh in
  (Forall (fun j => Legacy.any_JobID E X j <> jobID) jobs ->
     resp = Legacy.JSON 404
              (Legacy.BObject [("type", JStr "process"); ("jobID", JStr jobID);
                               ("status", JNum 0); ("detail", JStr "jobID not found")])) /\
  ((exists j, j ∈ jobs /\ Legacy.any_JobID E X j = jobID) ->
   exists pre j post,
     jobs = pre ++ j :: post /\
     Forall (fun j' => Legacy.any_JobID E X j' <> jobID) pre /\
     Legacy.any_JobID E X j = jobID /\
     (Legacy.any_CurrentStatus E X j = SUCCESSFUL ->
        resp = Legacy.JSON 200
                 (Legacy.BObject [("type", JStr "process"); ("jobID", JStr jobID);
                                  ("status", JStr SUCCESSFUL);
                                  ("updated", JNum (Legacy.any_LastUpdate E X j));
                                  ("outputs", Legacy.any_JobOutputs E X j)])) /\
     (Legacy.any_CurrentStatus E X j = FAILED \/
      Legacy.any_CurrentStatus E X j = DISMISSED ->
        resp = Legacy.JSON 200
                 (Legacy.BObject [("type", JStr "process"); ("jobID", JStr jobID);
                                  ("status", JStr (Legacy.any_CurrentStatus E X j));
                                  ("detail", Legacy.any_JobLogs E X j);
                                  ("updated", JNum (Legacy.any_LastUpdate E X j))])) /\
     (terminal (Legacy.any_CurrentStatus E X j) = false ->
        resp = Legacy.JSON 404
                 (Legacy.BObject [("type", JStr "process"); ("jobID", JStr jobID);
                                  ("status", JStr (Legacy.any_CurrentStatus E X j));
                                  ("detail", JStr "results not ready");
                                  ("updated", JNum (Legacy.any_LastUpdate E X j))]))).
Proof.
  cbn zeta. unfold Legacy.JobResultsHandler. split.
  - apply results_range_absent.
  - intros Hex. destruct (first_with_id _ _ Hex) as (pre & j & post & Hjs & Hpre & Hj).
    exists pre, j, post. rewrite Hjs, (results_range_first _ _ _ _ Hpre Hj).
    unfold Legacy.results_of. repeat split; try assumption.
    + intros ->. reflexivity.
    + intros [Hs | Hs]; rewrite Hs; reflexivity.
    + intros Ht. unfold terminal in Ht. apply orb_false_iff in Ht as [Ht Hd].
      apply orb_false_iff in Ht as [Hs Hf]. rewrite Hs, Hf, Hd. reflexivity.
Qed.

End ResultsFacts.

Lemma JobResultsHandler_spec_witness :
  (exists j, j ∈ Legacy.cached_jobs handler3 /\ Legacy.any_JobID env_ok outside0 j = "id-2") /\
  exists pre j post,
    Legacy.cached_jobs handler3 = pre ++ j :: post /\
    Legacy.any_JobID env_ok outside0 j = "id-2".
Proof.
  assert (H : exists j, j ∈ Legacy.cached_jobs handler3 /\
                        Legacy.any_JobID env_ok outside0 j = "id-2").
  { exists (Legacy.JBatch (Legacy.set_UUID "id-2" (legacy_job RUNNING))).
    split; [|reflexivity].
    change (Legacy.cached_jobs handler3) with (Legacy.heap handler3).
    do 2 apply list_elem_of_further. apply list_elem_of_here. }
  split; [exact H|].
  destruct (proj2 (JobResultsHandler_spec env_ok outside0 "id-2" handler3) H)
    as (pre & j & post & Hjs & _ & Hj & _).
  exists pre, j, post. split; assumption.
Defined.

(** * Further properties of the code *)

(** ** The registry: registration and removal *)

Section RegistryMore.

Context {J : Type} `{!Api.Job J}.

Implicit Types (j : J) (ac : Api.ActiveJobs J).

(** X1. A job that was added is found under its id; removing it leaves the
    other entries as they were, and gives the registry back when the id was
    not registered before; adding a job under an id that is registered
    replaces the job that was there. *)
Theorem Add_Remove_roundtrip j ac :
  Api.Jobs (Api.Add j ac) !! Api.job_JobID j = Some j /\
  Api.Jobs (Api.Remove j (Api.Add j ac)) !! Api.job_JobID j = None /\
  (forall k, k <> Api.job_JobID j ->
     Api.Jobs (Api.Remove j (Api.Add j ac)) !! k = Api.Jobs ac !! k) /\
  (forall j', Api.job_JobID j' = Api.job_JobID j ->
     Api.Add j' (Api.Add j ac) = Api.Add j' ac) /\
  (Api.Jobs ac !! Api.job_JobID j = None -> Api.Remove j (Api.Add j ac) = ac).
Proof.
  unfold Api.Add, Api.Remove. cbn. repeat split.
  - apply lookup_insert_eq.
  - apply lookup_delete_eq.
  - intros k Hk. rewrite lookup_delete_ne by congruence.
    apply lookup_insert_ne. congruence.
  - intros j' Hid. rewrite Hid. f_equal. apply insert_insert_eq.
  - intros Hnone. destruct ac as [m]. cbn in *. f_equal.
    rewrite delete_insert_eq. apply delete_id. exact Hnone.
Qed.

End RegistryMore.

(** ** The guarded job: status updates, dismissal and closing *)

Section ApiMore.

Context (E : Env).

Implicit Types (j : Api.AWSBatchJob) (w : World).

Lemma Api_updates_app l1 l2 (s : St Api.AWSBatchJob) :
  Api_updates E (l1 ++ l2) s = Api_updates E l2 (Api_updates E l1 s).
Proof.
  revert s. induction l1 as [|[status t] l1 IH]; intros s; [reflexivity|].
  cbn [app Api_updates]. apply IH.
Qed.

(** X2. Status updates on a job of [src/api/jobs] are monotonic: once a run
    of updates has brought the job to a terminal status, no further update
    changes the job or reaches the database. *)
Theorem Api_status_monotone l1 l2 j w :
  terminal (Api.Status (Api_updates E l1 (j, w)).1) = true ->
  Api_updates E (l1 ++ l2) (j, w) = Api_updates E l1 (j, w).
Proof.
  intros Ht. rewrite Api_updates_app.
  destruct (Api_updates E l1 (j, w)) as [j1 w1]. cbn in Ht.
  induction l2 as [|[status t] l2 IH]; [reflexivity|].
  cbn [Api_updates].
  replace (Api.NewStatusUpdate E status t (j1, w1)) with (tt, (j1, w1)); [exact IH|].
  unfold Api.NewStatusUpdate, bind, getJ. cbn.
  rewrite terminal_switch, Ht. reflexivity.
Qed.

End ApiMore.

Lemma Api_status_monotone_witness :
  terminal (Api.Status
    (Api_updates env_ok [(RUNNING, zeroTime); (DISMISSED, zeroTime)]
       (api_job "a" ACCEPTED, world0)).1) = true /\
  Api_updates env_ok ([(RUNNING, zeroTime); (DISMISSED, zeroTime)]
                        ++ [(RUNNING, zeroTime); (SUCCESSFUL, 77)])
    (api_job "a" ACCEPTED, world0)
  = Api_updates env_ok [(RUNNING, zeroTime); (DISMISSED, zeroTime)]
      (api_job "a" ACCEPTED, world0).
Proof.
  split; [reflexivity|].
  apply (Api_status_monotone env_ok [(RUNNING, zeroTime); (DISMISSED, zeroTime)]
           [(RUNNING, zeroTime); (SUCCESSFUL, 77)] (api_job "a" ACCEPTED) world0).
  reflexivity.
Defined.

(** ** Fetching the logs *)

Section ApiLogs.

Context (E : Env).

Implicit Types (j : Api.AWSBatchJob) (w : World).

Lemma same_but_logs_refl j : Api_same_but_logs j j.
Proof. unfold Api_same_but_logs. destruct j; reflexivity. Qed.

Lemma same_but_logs_trans j1 j2 j3 :
  Api_same_but_logs j1 j2 -> Api_same_but_logs j2 j3 -> Api_same_but_logs j1 j3.
Proof.
  unfold Api_same_but_logs. intros H12 H23.
  destruct j1, j2, j3. cbn in *.
  injection H12 as -> -> -> -> -> -> -> -> -> -> -> -> -> ->.
  injection H23 as -> -> -> -> -> -> -> -> -> -> -> -> -> ->.
  reflexivity.
Qed.

Lemma same_but_logs_fields j j' :
  Api_same_but_logs j j' ->
  Api.Status j' = Api.Status j /\ Api.UpdateTime j' = Api.UpdateTime j /\
  Api.apiLogs j' = Api.apiLogs j /\ Api.UUID j' = Api.UUID j /\
  Api.ProcessName j' = Api.ProcessName j /\ Api.ctxDone j' = Api.ctxDone j /\
  Api.AWSBatchID j' = Api.AWSBatchID j.
Proof. intros H. rewrite H. cbn. auto 10. Qed.

Ltac events_step :=
  cbn; rewrite <- ?app_assoc; cbn;
  first [ reflexivity | symmetry; apply app_nil_r ].

Lemma getLogStreamName_frame j w :
  let r := Api.getLogStreamName E (j, w) in
  Api_same_but_logs j r.2.1 /\
  Api.containerLogs r.2.1 = Api.containerLogs j /\
  (r.1 = None ->
     exists status, JobMonitor E (S (tick w)) (Api.AWSBatchID j)
                    = Ok (status, Api.logStreamName r.2.1)) /\
  (r.1 <> None -> r.2.1 = j) /\
  exists evs, events r.2.2 = events w ++ evs /\ forallb log_fetch_event evs = true.
Proof.
  unfold Api.getLogStreamName, newController, bind, getJ, ask, modifyJ, ret. cbn.
  destruct (NewAWSBatchController E _ _ _ _); cbn.
  - split; [apply same_but_logs_refl|]. split; [reflexivity|].
    split; [discriminate|]. split; [reflexivity|].
    eexists. split; [events_step | reflexivity].
  - destruct (JobMonitor E _ _) as [[status stream]|e]; cbn.
    + split; [unfold Api_same_but_logs; destruct j; reflexivity|].
      split; [reflexivity|].
      split; [intros _; exists status; reflexivity|].
      split; [congruence|].
      eexists. split; [events_step | reflexivity].
    + split; [apply same_but_logs_refl|]. split; [reflexivity|].
      split; [discriminate|]. split; [reflexivity|].
      eexists. split; [events_step | reflexivity].
Qed.

Ltac frame_unchanged :=
  split; [apply same_but_logs_refl|]; split; [reflexivity|];
  split; [first [discriminate | congruence]|];
  eexists; (split; [events_step | split; reflexivity]).

Lemma fetchLogEvents_frame j w :
  let r := Api.fetchLogEvents E (j, w) in
  Api_same_but_logs j r.2.1 /\
  Api.logStreamName r.2.1 = Api.logStreamName j /\
  (r.1 = None -> Api.logStreamName j <> "") /\
  exists evs, events r.2.2 = events w ++ evs /\
    forallb log_fetch_event evs = true /\
    forallb (fun e => negb (provider_call e)) evs = true.
Proof.
  unfold Api.fetchLogEvents, bind, getJ, ask, modifyJ, ret. cbn.
  destruct (Api.logStreamName j =? "")%string eqn:Hname; cbn.
  - frame_unchanged.
  - apply eqb_string_false in Hname.
    destruct (NewSession E _); cbn; [frame_unchanged|].
    destruct (GetLogEvents E _ _ _) as [logs|e]; cbn.
    + split; [unfold Api_same_but_logs; destruct j; reflexivity|].
      split; [reflexivity|]. split; [congruence|].
      eexists. split; [events_step | split; reflexivity].
    + destruct (e =? _)%string; cbn; frame_unchanged.
Qed.

Lemma fetchCloudWatchLogs_unfold j w :
  Api.fetchCloudWatchLogs E (j, w) =
    if (Api.logStreamName j =? "")%string then
      match Api.getLogStreamName E (j, w) with
      | (Some _, s) => (Some "could not get log stream name", s)
      | (None, s) => Api.fetchLogEvents E s
      end
    else Api.fetchLogEvents E (j, w).
Proof.
  unfold Api.fetchCloudWatchLogs, bind, getJ.
  cbn -[Api.getLogStreamName Api.fetchLogEvents].
  destruct (Api.logStreamName j =? "")%string; [|reflexivity].
  destruct (Api.getLogStreamName E (j, w)) as [[e|] s]; reflexivity.
Qed.

Lemma fetchCloudWatchLogs_frame j w :
  let r := Api.fetchCloudWatchLogs E (j, w) in
  Api_same_but_logs j r.2.1 /\
  (r.1 = None -> Api.logStreamName r.2.1 <> "") /\
  (Api.logStreamName j <> "" -> Api.logStreamName r.2.1 = Api.logStreamName j) /\
  exists evs, events r.2.2 = events w ++ evs /\
    forallb log_fetch_event evs = true /\
    (Api.logStreamName j <> "" -> forallb (fun e => negb (provider_call e)) evs = true).
Proof.
  cbn zeta. rewrite fetchCloudWatchLogs_unfold.
  destruct (Api.logStreamName j =? "")%string eqn:Hname.
  - apply eqb_string_true in Hname.
    pose proof (getLogStreamName_frame j w) as Hg. cbn zeta in Hg.
    destruct (Api.getLogStreamName E (j, w)) as [err [j1 w1]]. cbn [fst snd] in Hg.
    destruct Hg as (Hsame & _ & _ & _ & evs1 & Hev1 & Hk1).
    destruct err as [e|]; cbn [fst snd].
    + split; [exact Hsame|]. split; [discriminate|]. split; [congruence|].
      exists evs1. split; [exact Hev1|]. split; [exact Hk1|congruence].
    + pose proof (fetchLogEvents_frame j1 w1) as Hf. cbn zeta in Hf.
      destruct (Api.fetchLogEvents E (j1, w1)) as [err2 [j2 w2]]. cbn [fst snd] in Hf |- *.
      destruct Hf as (Hsame2 & Hn2 & Hok2 & evs2 & Hev2 & Hk2 & _).
      split; [eapply same_but_logs_trans; eassumption|].
      split; [intros Hnone; rewrite Hn2; auto|].
      split; [congruence|].
      exists (evs1 ++ evs2). split; [rewrite Hev2, Hev1, app_assoc; reflexivity|].
      split; [rewrite forallb_app, Hk1, Hk2; reflexivity|congruence].
  - apply eqb_string_false in Hname.
    pose proof (fetchLogEvents_frame j w) as Hf. cbn zeta in Hf.
    destruct (Api.fetchLogEvents E (j, w)) as [err2 [j2 w2]]. cbn [fst snd] in Hf |- *.
    destruct Hf as (Hsame2 & Hn2 & Hok2 & evs2 & Hev2 & Hk2 & Hp2).
    split; [exact Hsame2|]. split; [intros _; congruence|]. split; [auto|].
    exists evs2. auto.
Qed.

End ApiLogs.

Section ApiClose.

Context (E : Env).

Implicit Types (j : Api.AWSBatchJob) (w : World).

Lemma filter_none {A : Type} (f : A -> bool) (l : list A) :
  forallb (fun x => negb (f x)) l = true -> List.filter f l = [].
Proof.
  induction l as [|x l IH]; cbn; [reflexivity|].
  intros H. apply andb_true_iff in H as [Hx Hl].
  apply negb_true_iff in Hx. rewrite Hx. auto.
Qed.

Lemma events_since_app w w' evs :
  events w' = events w ++ evs -> events_since w w' = evs.
Proof. unfold events_since. intros ->. apply drop_app_length. Qed.

(** X3. Once the name of the log stream is known, fetching the logs makes
    no call to the provider; and a fetch that returned nil has left the name
    in the job, so that the fetches after it make none either. *)
Theorem log_stream_name_is_looked_up_once j w :
  (Api.logStreamName j <> "" \/ (Api.fetchCloudWatchLogs E (j, w)).1 = None) ->
  let s1 := (Api.fetchCloudWatchLogs E (j, w)).2 in
  let s2 := (Api.fetchCloudWatchLogs E s1).2 in
  Api.logStreamName s1.1 <> "" /\
  Api.logStreamName s2.1 = Api.logStreamName s1.1 /\
  List.filter provider_call (events_since s1.2 s2.2) = [].
Proof.
  intros Hor. cbn zeta.
  pose proof (fetchCloudWatchLogs_frame E j w) as H1. cbn zeta in H1.
  destruct (Api.fetchCloudWatchLogs E (j, w)) as [err1 [j1 w1]]. cbn [fst snd] in *.
  destruct H1 as (_ & Hnil & Hkeep & _).
  assert (Hname : Api.logStreamName j1 <> "").
  { destruct Hor as [Hj | Herr]; [rewrite Hkeep by exact Hj; exact Hj | auto]. }
  pose proof (fetchCloudWatchLogs_frame E j1 w1) as H2. cbn zeta in H2.
  destruct (Api.fetchCloudWatchLogs E (j1, w1)) as [err2 [j2 w2]]. cbn [fst snd] in *.
  destruct H2 as (_ & _ & Hkeep2 & evs & Hev & _ & Hquiet).
  split; [exact Hname|]. split; [auto|].
  rewrite (events_since_app _ _ _ Hev). apply filter_none. auto.
Qed.

Lemma Close_unfold j w :
  Api.Close E (j, w) =
    let r := Api.fetchCloudWatchLogs E (Api.set_ctxDone true j, w) in
    let j2 := match r.1 with
              | Some e => Api.set_apiLogs
                            (Api.apiLogs r.2.1
                               ++ ["Could not fetch cloud watch logs. Error: " +:+ e]) r.2.1
              | None => r.2.1
              end in
    (tt, (j2, emit (EvDone (Api.UUID j2))
                (emit (EvDBUpsertLogs (Api.UUID j2) (Api.ProcessName j2)
                         (Api.apiLogs j2) (Api.containerLogs j2)) r.2.2))).
Proof.
  unfold Api.Close, bind, modifyJ. cbn -[Api.fetchCloudWatchLogs].
  destruct (Api.fetchCloudWatchLogs E (Api.set_ctxDone true j, w)) as [[e|] [j1 w1]];
    reflexivity.
Qed.

(** What [Close] leaves, in one statement for the proofs that follow. *)
Lemma Close_frame j w :
  let r := Api.Close E (j, w) in
  Api.ctxDone r.2.1 = true /\
  Api.Status r.2.1 = Api.Status j /\
  Api.UpdateTime r.2.1 = Api.UpdateTime j /\
  Api.UUID r.2.1 = Api.UUID j /\
  (Api.apiLogs r.2.1 = Api.apiLogs j \/
   exists e, Api.apiLogs r.2.1
             = Api.apiLogs j ++ ["Could not fetch cloud watch logs. Error: " +:+ e]) /\
  exists evs,
    events r.2.2 = events w ++ evs ++
      [EvDBUpsertLogs (Api.UUID j) (Api.ProcessName j)
         (Api.apiLogs r.2.1) (Api.containerLogs r.2.1);
       EvDone (Api.UUID j)] /\
    forallb log_fetch_event evs = true.
Proof.
  cbn zeta. rewrite Close_unfold. cbn zeta.
  pose proof (fetchCloudWatchLogs_frame E (Api.set_ctxDone true j) w) as Hf.
  cbn zeta in Hf.
  destruct (Api.fetchCloudWatchLogs E (Api.set_ctxDone true j, w)) as [err [j1 w1]].
  cbn [fst snd] in *.
  destruct Hf as (Hsame & _ & _ & evs & Hev & Hk & _).
  destruct (same_but_logs_fields _ _ Hsame) as (Hs & Ht & Hl & Hu & Hp & Hc & _).
  cbn in Hs, Ht, Hl, Hu, Hp, Hc.
  destruct err as [e|]; cbn; rewrite ?Hs, ?Ht, ?Hl, ?Hu, ?Hp, ?Hc.
  - repeat (split; [reflexivity|]). split; [right; eauto|].
    exists evs. split; [|exact Hk]. rewrite Hev, <- !app_assoc. reflexivity.
  - repeat (split; [reflexivity|]). split; [left; reflexivity|].
    exists evs. split; [|exact Hk]. rewrite Hev, <- !app_assoc. reflexivity.
Qed.

(** X4. Whatever fetching the logs answers, [Close] cancels the context,
    keeps status and last update, and ends by writing the logs to the
    database and then signalling that the job is done, in this order: the
    logs written are those the job has at the end, a failure of the fetch
    included, and the signal is the last thing [Close] does to the outside. *)
Theorem Close_flushes_then_signals j w :
  let r := Api.Close E (j, w) in
  Api.ctxDone r.2.1 = true /\
  Api.Status r.2.1 = Api.Status j /\
  Api.UpdateTime r.2.1 = Api.UpdateTime j /\
  Api.apiLogs j `prefix_of` Api.apiLogs r.2.1 /\
  (forall e, (Api.fetchCloudWatchLogs E (Api.set_ctxDone true j, w)).1 = Some e ->
     last (Api.apiLogs r.2.1) = Some ("Could not fetch cloud watch logs. Error: " +:+ e)) /\
  exists evs,
    events r.2.2 = events w ++ evs ++
      [EvDBUpsertLogs (Api.UUID j) (Api.ProcessName j)
         (Api.apiLogs r.2.1) (Api.containerLogs r.2.1);
       EvDone (Api.UUID j)] /\
    (EvDone (Api.UUID j) ∉ evs) /\
    forallb log_fetch_event evs = true.
Proof.
  cbn zeta.
  destruct (Close_frame j w) as (Hc & Hs & Ht & _ & Hlogs & evs & Hev & Hk).
  split; [exact Hc|]. split; [exact Hs|]. split; [exact Ht|].
  split; [|split].
  - destruct Hlogs as [-> | [e ->]]; [reflexivity | apply prefix_app_r; reflexivity].
  - intros e He. rewrite Close_unfold. cbn zeta. rewrite He. cbn. apply last_snoc.
  - exists evs. split; [exact Hev|]. split; [|exact Hk].
    intros Hin. rewrite forallb_forall in Hk.
    apply list_elem_of_In, Hk in Hin. discriminate.
Qed.

End ApiClose.

Lemma log_stream_name_is_looked_up_once_witness :
  (Api.logStreamName (api_job "a" ACCEPTED) <> "" \/
   (Api.fetchCloudWatchLogs env_ok (api_job "a" ACCEPTED, world0)).1 = None) /\
  List.filter provider_call
    (events_since (Api.fetchCloudWatchLogs env_ok (api_job "a" ACCEPTED, world0)).2.2
       (Api.fetchCloudWatchLogs env_ok
          (Api.fetchCloudWatchLogs env_ok (api_job "a" ACCEPTED, world0)).2).2.2) = [].
Proof.
  assert (H : Api.logStreamName (api_job "a" ACCEPTED) <> "" \/
              (Api.fetchCloudWatchLogs env_ok (api_job "a" ACCEPTED, world0)).1 = None)
    by (right; reflexivity).
  split; [exact H|].
  apply (log_stream_name_is_looked_up_once env_ok (api_job "a" ACCEPTED) world0 H).
Defined.

Section ApiKill.

Context (E : Env).

Implicit Types (j : Api.AWSBatchJob) (w : World).

(** The job after the first line of [Kill]. *)
Lemma Kill_terminal_eq j w :
  terminal (Api.Status j) = true ->
  Api.Kill E (j, w)
  = (Some "can't call delete on an already completed, failed, or dismissed job",
     (Api.set_apiLogs (Api.apiLogs j ++ ["Received dismiss signal"]) j, w)).
Proof.
  intros Ht. unfold Api.Kill, Api.NewMessage, bind, getJ, modifyJ. cbn.
  unfold Api.CurrentStatus. cbn.
  change ((Api.Status j =? SUCCESSFUL) || (Api.Status j =? FAILED)
          || (Api.Status j =? DISMISSED))%string with (terminal (Api.Status j)).
  rewrite Ht. reflexivity.
Qed.

Lemma Kill_no_controller j w e :
  terminal (Api.Status j) = false ->
  NewAWSBatchController E (tick w) (os_Getenv E "AWS_ACCESS_KEY_ID")
    (os_Getenv E "AWS_SECRET_ACCESS_KEY") (os_Getenv E "AWS_REGION") = Some e ->
  Api.Kill E (j, w)
  = (Some e,
     (Api.set_apiLogs
        (Api.apiLogs j ++ ["Received dismiss signal"]
           ++ ["Could not send kill signal to AWS Batch API. Error: " +:+ e]) j,
      advance (emit (EvNewController (os_Getenv E "AWS_REGION")) w))).
Proof.
  intros Ht Hc. unfold Api.Kill, Api.NewMessage, newController, bind, getJ, modifyJ, ask.
  cbn. unfold Api.CurrentStatus. cbn.
  change ((Api.Status j =? SUCCESSFUL) || (Api.Status j =? FAILED)
          || (Api.Status j =? DISMISSED))%string with (terminal (Api.Status j)).
  rewrite Ht. cbn. rewrite Hc. cbn. rewrite <- app_assoc. reflexivity.
Qed.

Lemma Kill_refused j w e :
  terminal (Api.Status j) = false ->
  NewAWSBatchController E (tick w) (os_Getenv E "AWS_ACCESS_KEY_ID")
    (os_Getenv E "AWS_SECRET_ACCESS_KEY") (os_Getenv E "AWS_REGION") = None ->
  JobKill E (S (tick w)) (Api.AWSBatchID j) = Some e ->
  Api.Kill E (j, w)
  = (Some e,
     (Api.set_apiLogs
        (Api.apiLogs j ++ ["Received dismiss signal"]
           ++ ["Could not send kill signal to AWS Batch API. Error: " +:+ e]) j,
      advance (emit (EvJobKill (Api.AWSBatchID j))
        (advance (emit (EvNewController (os_Getenv E "AWS_REGION")) w))))).
Proof.
  intros Ht Hc Hk. unfold Api.Kill, Api.NewMessage, newController, bind, getJ, modifyJ, ask.
  cbn. unfold Api.CurrentStatus. cbn.
  change ((Api.Status j =? SUCCESSFUL) || (Api.Status j =? FAILED)
          || (Api.Status j =? DISMISSED))%string with (terminal (Api.Status j)).
  rewrite Ht. cbn. rewrite Hc. cbn. rewrite Hk. cbn. rewrite <- app_assoc. reflexivity.
Qed.

Lemma Kill_sent j w :
  terminal (Api.Status j) = false ->
  NewAWSBatchController E (tick w) (os_Getenv E "AWS_ACCESS_KEY_ID")
    (os_Getenv E "AWS_SECRET_ACCESS_KEY") (os_Getenv E "AWS_REGION") = None ->
  JobKill E (S (tick w)) (Api.AWSBatchID j) = None ->
  Api.Kill E (j, w)
  = (None,
     (Api.Close E
        (Api.set_UpdateTime (time_Now E (S (S (tick w))))
           (Api.set_Status DISMISSED
              (Api.set_apiLogs (Api.apiLogs j ++ ["Received dismiss signal"]) j)),
         emit (EvDBUpdateJobRecord (Api.UUID j) DISMISSED (time_Now E (S (S (tick w)))))
           (advance (advance (emit (EvJobKill (Api.AWSBatchID j))
              (advance (emit (EvNewController (os_Getenv E "AWS_REGION")) w))))))).2).
Proof.
  intros Ht Hc Hk.
  unfold Api.Kill, Api.NewMessage, Api.NewStatusUpdate, newController, bind, getJ,
    modifyJ, ask, now, emitW.
  cbn -[Api.Close]. unfold Api.CurrentStatus. cbn -[Api.Close].
  change ((Api.Status j =? SUCCESSFUL) || (Api.Status j =? FAILED)
          || (Api.Status j =? DISMISSED))%string with (terminal (Api.Status j)).
  rewrite Ht. cbn -[Api.Close]. rewrite Hc. cbn -[Api.Close]. rewrite Hk.
  cbn -[Api.Close]. rewrite terminal_switch, Ht. cbn -[Api.Close].
  destruct (Api.Close E _) as [[] [j' w']]. reflexivity.
Qed.

End ApiKill.

Section ApiKillFacts.

Context (E : Env).

Implicit Types (j : Api.AWSBatchJob) (w : World).

Lemma Kill_nil_dismissed j w :
  (Api.Kill E (j, w)).1 = None ->
  terminal (Api.Status j) = false /\
  Api.Status (Api.Kill E (j, w)).2.1 = DISMISSED /\
  Api.ctxDone (Api.Kill E (j, w)).2.1 = true.
Proof.
  destruct (terminal (Api.Status j)) eqn:Ht.
  { rewrite (Kill_terminal_eq E j w Ht). discriminate. }
  destruct (NewAWSBatchController E (tick w) (os_Getenv E "AWS_ACCESS_KEY_ID")
              (os_Getenv E "AWS_SECRET_ACCESS_KEY") (os_Getenv E "AWS_REGION"))
    as [e|] eqn:Hc.
  { rewrite (Kill_no_controller E j w e Ht Hc). discriminate. }
  destruct (JobKill E (S (tick w)) (Api.AWSBatchID j)) as [e|] eqn:Hk.
  { rewrite (Kill_refused E j w e Ht Hc Hk). discriminate. }
  rewrite (Kill_sent E j w Ht Hc Hk). intros _. cbn [fst snd].
  match goal with |- context [Api.Close E (?jd, ?wd)] =>
    destruct (Close_frame E jd wd) as (Hd & Hs & _) end.
  split; [reflexivity|]. split; [exact Hs | exact Hd].
Qed.

(** X5. What [Kill] does to a job in every case. The api log keeps what it
    had and gains the message of the dismiss signal. When [Kill] returns nil
    the job was not in a terminal status, it is now dismissed with its
    context cancelled, and the last thing done to the outside is the signal
    that the job is done. When [Kill] returns an error, status, last update
    and context are as before and nothing but calls to the provider was
    issued: no record is written and no signal is sent. *)
Theorem Api_Kill_effects j w :
  let r := Api.Kill E (j, w) in
  (Api.apiLogs j ++ ["Received dismiss signal"]) `prefix_of` Api.apiLogs r.2.1 /\
  (r.1 = None ->
     terminal (Api.Status j) = false /\
     Api.Status r.2.1 = DISMISSED /\
     Api.ctxDone r.2.1 = true /\
     last (events r.2.2) = Some (EvDone (Api.UUID j))) /\
  (r.1 <> None ->
     Api.Status r.2.1 = Api.Status j /\
     Api.UpdateTime r.2.1 = Api.UpdateTime j /\
     Api.ctxDone r.2.1 = Api.ctxDone j /\
     List.filter (fun e => negb (provider_call e)) (events_since w r.2.2) = []).
Proof.
  cbn zeta.
  destruct (terminal (Api.Status j)) eqn:Ht.
  { rewrite (Kill_terminal_eq E j w Ht). cbn [fst snd].
    split; [reflexivity|]. split; [discriminate|]. intros _.
    repeat split. unfold events_since. rewrite drop_all. reflexivity. }
  destruct (NewAWSBatchController E (tick w) (os_Getenv E "AWS_ACCESS_KEY_ID")
              (os_Getenv E "AWS_SECRET_ACCESS_KEY") (os_Getenv E "AWS_REGION"))
    as [e|] eqn:Hc.
  { rewrite (Kill_no_controller E j w e Ht Hc). cbn [fst snd].
    split; [cbn; apply prefix_app, prefix_cons, prefix_nil|].
    split; [discriminate|]. intros _. repeat split.
    unfold events_since. cbn. rewrite drop_app_length. reflexivity. }
  destruct (JobKill E (S (tick w)) (Api.AWSBatchID j)) as [e|] eqn:Hk.
  { rewrite (Kill_refused E j w e Ht Hc Hk). cbn [fst snd].
    split; [cbn; apply prefix_app, prefix_cons, prefix_nil|].
    split; [discriminate|]. intros _. repeat split.
    unfold events_since. cbn. rewrite <- app_assoc, drop_app_length. reflexivity. }
  rewrite (Kill_sent E j w Ht Hc Hk). cbn [fst snd].
  match goal with |- context [Api.Close E (?jd, ?wd)] =>
    destruct (Close_frame E jd wd) as (Hd & Hs & _ & Hu & Hlogs & evs & Hev & _) end.
  cbn -[Api.Close] in Hu, Hlogs, Hev |- *.
  split; [|split; [|congruence]].
  - destruct Hlogs as [-> | [e ->]]; [reflexivity|]. apply prefix_app_r. reflexivity.
  - intros _. split; [reflexivity|]. split; [exact Hs|].
    split; [exact Hd|]. rewrite Hev, !last_app. reflexivity.
Qed.

(** X6. The order of a dismissal that reaches the provider. When the job is
    not in a terminal status and both the controller and the kill call
    succeed, [Kill] returns nil with the job dismissed at the reading of the
    clock, and what it did to the outside is, in order: the controller, the
    kill call, the record of the dismissed status in the database, the
    fetch of the logs, the write of the logs, and the signal. *)
Theorem Api_Kill_sent_order j w :
  terminal (Api.Status j) = false ->
  NewAWSBatchController E (tick w) (os_Getenv E "AWS_ACCESS_KEY_ID")
    (os_Getenv E "AWS_SECRET_ACCESS_KEY") (os_Getenv E "AWS_REGION") = None ->
  JobKill E (S (tick w)) (Api.AWSBatchID j) = None ->
  let r := Api.Kill E (j, w) in
  let t := time_Now E (S (S (tick w))) in
  r.1 = None /\
  Api.Status r.2.1 = DISMISSED /\
  Api.UpdateTime r.2.1 = t /\
  exists evs,
    events r.2.2 = events w ++
      [EvNewController (os_Getenv E "AWS_REGION"); EvJobKill (Api.AWSBatchID j);
       EvDBUpdateJobRecord (Api.UUID j) DISMISSED t] ++ evs ++
      [EvDBUpsertLogs (Api.UUID j) (Api.ProcessName j)
         (Api.apiLogs r.2.1) (Api.containerLogs r.2.1);
       EvDone (Api.UUID j)] /\
    forallb log_fetch_event evs = true.
Proof.
  intros Ht Hc Hk. cbn zeta. rewrite (Kill_sent E j w Ht Hc Hk). cbn [fst snd].
  match goal with |- context [Api.Close E (?jd, ?wd)] =>
    destruct (Close_frame E jd wd) as (_ & Hs & Hu & _ & _ & evs & Hev & Hfetch) end.
  cbn -[Api.Close] in Hs, Hu, Hev.
  split; [reflexivity|]. split; [exact Hs|]. split; [exact Hu|].
  exists evs. split; [|exact Hfetch].
  rewrite Hev, <- !app_assoc. reflexivity.
Qed.

End ApiKillFacts.

Lemma Api_Kill_sent_order_witness :
  terminal (Api.Status (api_job "a" ACCEPTED)) = false /\
  Api.Status (Api.Kill env_ok (api_job "a" ACCEPTED, world0)).2.1 = DISMISSED /\
  Api.UpdateTime (Api.Kill env_ok (api_job "a" ACCEPTED, world0)).2.1 = 1002.
Proof.
  split; [reflexivity|].
  destruct (Api_Kill_sent_order env_ok (api_job "a" ACCEPTED) world0
              eq_refl eq_refl eq_refl) as (_ & Hs & Hu & _).
  split; [exact Hs | exact Hu].
Defined.

(** ** A broadcast dismissal of cloud-batch jobs *)

Section KillAllBatch.

Context (E : Env).

Implicit Types (ac : Api.ActiveJobs Api.AWSBatchJob) (w : World) (order : list string).

Lemma insert_keeps_ids (m : gmap string Api.AWSBatchJob) k0 j j' k :
  m !! k0 = Some j -> (is_Some (<[k0 := j']> m !! k) <-> is_Some (m !! k)).
Proof.
  intros Hj. destruct (decide (k0 = k)) as [->|Hne].
  - rewrite lookup_insert_eq, Hj. split; eauto.
  - rewrite lookup_insert_ne by exact Hne. reflexivity.
Qed.

Lemma KillAll_keeps_ids order : forall ac w k,
  is_Some (Api.Jobs (Api.ka_jobs (Api.KillAll E order ac w)) !! k)
  <-> is_Some (Api.Jobs ac !! k).
Proof.
  induction order as [|k0 rest IH]; intros ac w k; [reflexivity|].
  cbn [Api.KillAll].
  destruct (Api.Jobs ac !! k0) as [j|] eqn:Hj; [|apply IH].
  destruct (Api.wants_kill j); [|apply IH].
  destruct (Api.job_Kill E (j, w)) as [[e|] [j' w']]; cbn [Api.ka_jobs].
  - cbn [Api.Jobs]. eapply insert_keeps_ids. exact Hj.
  - rewrite IH. cbn [Api.Jobs]. eapply insert_keeps_ids. exact Hj.
Qed.

Lemma KillAll_untouched order : forall ac w k,
  k ∉ order ->
  Api.Jobs (Api.ka_jobs (Api.KillAll E order ac w)) !! k = Api.Jobs ac !! k.
Proof.
  induction order as [|k0 rest IH]; intros ac w k Hk; [reflexivity|].
  apply not_elem_of_cons in Hk as [Hne Hk]. cbn [Api.KillAll].
  destruct (Api.Jobs ac !! k0) as [j|]; [|apply IH; exact Hk].
  destruct (Api.wants_kill j); [|apply IH; exact Hk].
  destruct (Api.job_Kill E (j, w)) as [[e|] [j' w']]; cbn [Api.ka_jobs].
  - cbn [Api.Jobs]. apply lookup_insert_ne. congruence.
  - rewrite IH by exact Hk. cbn [Api.Jobs]. apply lookup_insert_ne. congruence.
Qed.

Lemma KillAll_nil_inactive order :
  NoDup order ->
  forall ac w,
  Api.ka_err (Api.KillAll E order ac w) = None ->
  forall k, k ∈ order -> Api.active (Api.ka_jobs (Api.KillAll E order ac w)) k = false.
Proof.
  induction 1 as [|k0 rest Hk0 Hnd IH]; intros ac w Herr k Hin; [inversion Hin|].
  cbn [Api.KillAll] in Herr |- *.
  destruct (Api.Jobs ac !! k0) as [j|] eqn:Hj.
  - destruct (Api.wants_kill j) eqn:Hwant.
    + pose proof (Kill_nil_dismissed E j w) as Hkill.
      change (Api.job_Kill E (j, w)) with (Api.Kill E (j, w)) in Herr |- *.
      destruct (Api.Kill E (j, w)) as [[e|] [j' w']]; [discriminate|].
      cbn [fst snd Api.ka_err Api.ka_jobs] in Hkill, Herr |- *.
      destruct (Hkill eq_refl) as (_ & Hdis & _).
      apply elem_of_cons in Hin as [-> | Hin]; [|apply IH; assumption].
      unfold Api.active. rewrite KillAll_untouched by exact Hk0.
      cbn [Api.Jobs]. rewrite lookup_insert_eq. unfold Api.wants_kill.
      cbn [Api.job_CurrentStatus Api.AWSBatchJob_Job]. unfold Api.CurrentStatus.
      rewrite Hdis. reflexivity.
    + apply elem_of_cons in Hin as [-> | Hin]; [|apply IH; assumption].
      unfold Api.active. rewrite KillAll_untouched by exact Hk0.
      rewrite Hj. exact Hwant.
  - apply elem_of_cons in Hin as [-> | Hin]; [|apply IH; assumption].
    unfold Api.active. rewrite KillAll_untouched by exact Hk0.
    rewrite Hj. reflexivity.
Qed.

Lemma KillAll_inactive_noop order : forall ac w,
  (forall k, Api.active ac k = false) ->
  Api.KillAll E order ac w
  = {| Api.ka_err := None; Api.ka_calls := []; Api.ka_jobs := ac; Api.ka_world := w |}.
Proof.
  induction order as [|k0 rest IH]; intros ac w Hnone; [reflexivity|].
  cbn [Api.KillAll]. specialize (Hnone k0) as Hk0. unfold Api.active in Hk0.
  destruct (Api.Jobs ac !! k0) as [j|]; [|apply IH; exact Hnone].
  rewrite Hk0. apply IH. exact Hnone.
Qed.

(** X7. When [KillAll] on a registry of cloud-batch jobs returns nil, no
    registered job is accepted or running any more, and the registry holds
    the same ids; a second [KillAll], in whatever order, calls [Kill] on no
    job, returns nil and changes nothing. *)
Theorem KillAll_leaves_no_active_job ac w order :
  order ≡ₚ elements (dom (Api.Jobs ac)) ->
  Api.ka_err (Api.KillAll E order ac w) = None ->
  let r := Api.KillAll E order ac w in
  (forall k, Api.active (Api.ka_jobs r) k = false) /\
  (forall k, is_Some (Api.Jobs (Api.ka_jobs r) !! k) <-> is_Some (Api.Jobs ac !! k)) /\
  (forall order',
     Api.KillAll E order' (Api.ka_jobs r) (Api.ka_world r)
     = {| Api.ka_err := None; Api.ka_calls := [];
          Api.ka_jobs := Api.ka_jobs r; Api.ka_world := Api.ka_world r |}).
Proof.
  intros Hperm Herr. cbn zeta.
  assert (Hnd : NoDup order) by (rewrite Hperm; apply NoDup_elements).
  assert (Hinactive : forall k, Api.active (Api.ka_jobs (Api.KillAll E order ac w)) k = false).
  { intros k. destruct (decide (k ∈ order)) as [Hin|Hout].
    - apply KillAll_nil_inactive; assumption.
    - unfold Api.active. rewrite KillAll_untouched by exact Hout.
      destruct (Api.Jobs ac !! k) eqn:Hk; [|reflexivity].
      exfalso. apply Hout. rewrite Hperm, elem_of_elements, elem_of_dom. eauto. }
  split; [exact Hinactive|]. split.
  - intros k. apply KillAll_keeps_ids.
  - intros order'. apply KillAll_inactive_noop. exact Hinactive.
Qed.

End KillAllBatch.

Lemma KillAll_leaves_no_active_job_witness :
  ["a"; "b"; "c"] ≡ₚ elements (dom (Api.Jobs registry3)) /\
  Api.ka_err (Api.KillAll env_ok ["a"; "b"; "c"] registry3 world0) = None /\
  (forall k, Api.active
               (Api.ka_jobs (Api.KillAll env_ok ["a"; "b"; "c"] registry3 world0)) k
             = false).
Proof.
  assert (Hp : ["a"; "b"; "c"] ≡ₚ elements (dom (Api.Jobs registry3))).
  { replace (elements (dom (Api.Jobs registry3))) with ["c"; "a"; "b"]
      by (vm_compute; reflexivity).
    symmetry. exact (Permutation_cons_append ["a"; "b"] "c"). }
  assert (He : Api.ka_err (Api.KillAll env_ok ["a"; "b"; "c"] registry3 world0) = None)
    by (vm_compute; reflexivity).
  split; [exact Hp|]. split; [exact He|].
  exact (proj1 (KillAll_leaves_no_active_job env_ok registry3 world0 _ Hp He)).
Defined.

(** ** Submission and metadata of the guarded job *)

Section ApiSubmission.

Context (E : Env) (D : Api.DBEnv) (Q : Api.MetaEnv).

Implicit Types (j : Api.AWSBatchJob) (w : World).

(** X8. [Create] of [src/api/jobs] in every case. When it returns an error
    the context is cancelled and status and last update are as before,
    also when the provider had already taken the job and only the database
    refused it. When it returns nil the context is live, the provider id is
    the one [JobCreate] answered, and the job is accepted at the reading of
    the clock, unless it was in a terminal status, which it keeps. *)
Theorem Api_Create_outcomes j w :
  let r := Api.Create E D (j, w) in
  (forall e, r.1 = Some e ->
     Api.ctxDone r.2.1 = true /\
     Api.Status r.2.1 = Api.Status j /\
     Api.UpdateTime r.2.1 = Api.UpdateTime j) /\
  (r.1 = None ->
     Api.ctxDone r.2.1 = false /\
     JobCreate E (S (tick w)) (Api.JobDef j) (Api.JobName j) (Api.JobQueue j)
       (Some (Api.Cmd j)) (Api.EnvVars j) = Ok (Api.AWSBatchID r.2.1) /\
     (terminal (Api.Status j) = false ->
        Api.Status r.2.1 = ACCEPTED /\
        Api.UpdateTime r.2.1 = time_Now E (4 + tick w)) /\
     (terminal (Api.Status j) = true ->
        Api.Status r.2.1 = Api.Status j /\
        Api.UpdateTime r.2.1 = Api.UpdateTime j)).
Proof.
  cbn zeta.
  unfold Api.Create, Api.NewStatusUpdate, Api.answer, newController, bind, getJ, modifyJ,
    ask, now, emitW, ret.
  cbn. destruct (NewAWSBatchController E _ _ _ _) as [e|]; cbn.
  { split; [intros e' _; auto | discriminate]. }
  destruct (JobCreate E _ _ _ _ _ _) as [id|e] eqn:Hcreate; cbn.
  2:{ split; [intros e' _; auto | discriminate]. }
  destruct (Api.DB_addJob D _ _ _ _ _ _ _) as [e|]; cbn.
  { split; [intros e' _; auto | discriminate]. }
  rewrite terminal_switch.
  destruct (terminal (Api.Status j)) eqn:Ht; cbn.
  - split; [discriminate|]. intros _. repeat split; try discriminate; auto.
  - split; [discriminate|]. intros _. repeat split; try discriminate; auto.
Qed.

(** X9. [WriteMetaData] touches the api log only: the job it leaves is the
    job it was given with another api log, and the one thing it does to the
    outside that is recorded is to ask for a controller. The api log gains
    the message of the start, then the error if a step failed, then the
    message of the end, on every path. An object is handed to the storage
    exactly when no step failed: when one is handed over, the controller was
    had and the image, its digest, the times of the job and the encoding of
    the record were all obtained, and the object is that encoding, its key
    the metadata directory, the job id and the extension json, its content
    type application/json; when none is, the error logged is that of the
    first step that failed, the steps before it having succeeded. *)
Theorem WriteMetaData_effects j w :
  let r := Api.WriteMetaData E Q (j, w) in
  let controller :=
    NewAWSBatchController E (tick w) (os_Getenv E "AWS_ACCESS_KEY_ID")
      (os_Getenv E "AWS_SECRET_ACCESS_KEY") (os_Getenv E "AWS_REGION") in
  let image := Api.GetImageURI Q (S (tick w)) (Api.JobDef j) in
  let digest := image_digest_of Q (2 + tick w) in
  let times := Api.GetJobTimes Q (3 + tick w) (Api.AWSBatchID j) in
  r.2.1 = Api.set_apiLogs (Api.apiLogs r.2.1) j /\
  Api.Status r.2.1 = Api.Status j /\
  Api.UpdateTime r.2.1 = Api.UpdateTime j /\
  Api.containerLogs r.2.1 = Api.containerLogs j /\
  Api.ctxDone r.2.1 = Api.ctxDone j /\
  events r.2.2 = events w ++ [EvNewController (os_Getenv E "AWS_REGION")] /\
  match r.1 with
  | Some put =>
      Api.apiLogs r.2.1 = Api.apiLogs j ++
        ["Starting metadata writing routine."; "Finished metadata writing routine."] /\
      Api.put_key put = os_Getenv E "STORAGE_METADATA_DIR" +:+ "/" +:+ Api.UUID j +:+ ".json" /\
      Api.put_contentType put = "application/json" /\
      Api.put_arg put = 0 /\
      controller = None /\
      exists uri dgst g s e,
        image = Ok uri /\ digest uri = Ok dgst /\ times = Ok (g, s, e) /\
        Api.json_Marshal Q (job_metaData j uri dgst g s e) = Ok (Api.put_data put)
  | None =>
      exists err,
        Api.apiLogs r.2.1 = Api.apiLogs j ++
          ["Starting metadata writing routine."; "error writing metadata: " +:+ err;
           "Finished metadata writing routine."] /\
        (controller = Some err \/
         controller = None /\
         (image = Err err \/
          exists uri, image = Ok uri /\
            (digest uri = Err err \/
             exists dgst, digest uri = Ok dgst /\
               (times = Err err \/
                exists g s e, times = Ok (g, s, e) /\
                  Api.json_Marshal Q (job_metaData j uri dgst g s e) = Err err))))
  end.
Proof.
  cbn zeta.
  unfold Api.WriteMetaData, Api.WriteMetaData_steps, Api.metadata_error, Api.NewMessage,
    Api.answer, newController, bind, getJ, modifyJ, ask, ret, image_digest_of.
  cbn. destruct (NewAWSBatchController E _ _ _ _) as [e|]; cbn.
  { repeat (split; [reflexivity|]). exists e. rewrite <- !app_assoc. auto. }
  destruct (Api.GetImageURI Q _ _) as [imgURI|e]; cbn.
  2:{ repeat (split; [reflexivity|]). exists e. rewrite <- !app_assoc. auto. }
  destruct (Api.Contains imgURI "amazonaws.com/") eqn:Hc; cbn.
  - destruct (Api.getECRImageDigest Q _ _) as [dgst|e] eqn:Hd; cbn.
    2:{ repeat (split; [reflexivity|]). exists e. rewrite <- !app_assoc.
        split; [reflexivity|]. right. split; [reflexivity|]. right.
        exists imgURI. rewrite Hc. auto. }
    destruct (Api.GetJobTimes Q _ _) as [[[g s] e']|e] eqn:Ht; cbn.
    2:{ repeat (split; [reflexivity|]). exists e. rewrite <- !app_assoc.
        split; [reflexivity|]. right. split; [reflexivity|]. right.
        exists imgURI. rewrite Hc. split; [reflexivity|]. right.
        exists dgst. auto. }
    destruct (Api.json_Marshal Q _) as [bytes|e] eqn:Hm; cbn.
    + repeat (split; [reflexivity|]). rewrite <- !app_assoc.
      split; [reflexivity|]. do 4 (split; [reflexivity|]).
      exists imgURI, dgst, g, s, e'. rewrite Hc. auto.
    + repeat (split; [reflexivity|]). exists e. rewrite <- !app_assoc.
      split; [reflexivity|]. right. split; [reflexivity|]. right.
      exists imgURI. rewrite Hc. split; [reflexivity|]. right.
      exists dgst. split; [exact Hd|]. right. exists g, s, e'. auto.
  - destruct (Api.getDkrHubImageDigest Q _ _ _) as [dgst|e] eqn:Hd; cbn.
    2:{ repeat (split; [reflexivity|]). exists e. rewrite <- !app_assoc.
        split; [reflexivity|]. right. split; [reflexivity|]. right.
        exists imgURI. rewrite Hc. auto. }
    destruct (Api.GetJobTimes Q _ _) as [[[g s] e']|e] eqn:Ht; cbn.
    2:{ repeat (split; [reflexivity|]). exists e. rewrite <- !app_assoc.
        split; [reflexivity|]. right. split; [reflexivity|]. right.
        exists imgURI. rewrite Hc. split; [reflexivity|]. right.
        exists dgst. auto. }
    destruct (Api.json_Marshal Q _) as [bytes|e] eqn:Hm; cbn.
    + repeat (split; [reflexivity|]). rewrite <- !app_assoc.
      split; [reflexivity|]. do 4 (split; [reflexivity|]).
      exists imgURI, dgst, g, s, e'. rewrite Hc. auto.
    + repeat (split; [reflexivity|]). exists e. rewrite <- !app_assoc.
      split; [reflexivity|]. right. split; [reflexivity|]. right.
      exists imgURI. rewrite Hc. split; [reflexivity|]. right.
      exists dgst. split; [exact Hd|]. right. exists g, s, e'. auto.
Qed.

End ApiSubmission.

Section ApiMetadata.

Context (E : Env) (Q : Api.MetaEnv).

Implicit Types (j : Api.AWSBatchJob) (w : World).

(** X10. What [WriteMetaData] hands to the storage is the encoding of the
    record of the job: its id, its process and version, its command, the
    image that the job definition names with the digest asked of the cloud
    registry when the image is one of amazonaws.com and of the public
    registry otherwise, and the three times that the provider gives. *)
Theorem WriteMetaData_record j w put :
  (Api.WriteMetaData E Q (j, w)).1 = Some put ->
  exists uri dgst g s e,
    Api.GetImageURI Q (S (tick w)) (Api.JobDef j) = Ok uri /\
    (if Api.Contains uri "amazonaws.com/"
     then Api.getECRImageDigest Q (2 + tick w) uri
     else Api.getDkrHubImageDigest Q (2 + tick w) uri "dummy") = Ok dgst /\
    Api.GetJobTimes Q (3 + tick w) (Api.AWSBatchID j) = Ok (g, s, e) /\
    Api.json_Marshal Q
      {| Api.md_Context := "https://github.com/Dewberry/process-api/blob/main/context.jsonld";
         Api.md_JobID := Api.UUID j;
         Api.md_Process := {| Api.process_id := Api.ProcessName j;
                              Api.process_version := Api.ProcessVersion j |};
         Api.md_Image := {| Api.image_uri := uri; Api.image_digest := dgst |};
         Api.md_Commands := Api.Cmd j;
         Api.md_GeneratedAtTime := g;
         Api.md_StartedAtTime := s;
         Api.md_EndedAtTime := e |} = Ok (Api.put_data put).
Proof.
  unfold Api.WriteMetaData, Api.WriteMetaData_steps, Api.metadata_error, Api.NewMessage,
    Api.answer, newController, bind, getJ, modifyJ, ask, ret.
  cbn. destruct (NewAWSBatchController E _ _ _ _) as [e|]; cbn; [discriminate|].
  destruct (Api.GetImageURI Q _ _) as [imgURI|e]; cbn; [|discriminate].
  destruct (Api.Contains imgURI "amazonaws.com/") eqn:Hc; cbn.
  - destruct (Api.getECRImageDigest Q _ _) as [dgst|e] eqn:Hd; cbn; [|discriminate].
    destruct (Api.GetJobTimes Q _ _) as [[[g s] e']|e] eqn:Ht; cbn; [|discriminate].
    destruct (Api.json_Marshal Q _) as [bytes|e] eqn:Hm; cbn; [|discriminate].
    intros [= <-]. exists imgURI, dgst, g, s, e'. rewrite Hc. cbn. auto.
  - destruct (Api.getDkrHubImageDigest Q _ _ _) as [dgst|e] eqn:Hd; cbn; [|discriminate].
    destruct (Api.GetJobTimes Q _ _) as [[[g s] e']|e] eqn:Ht; cbn; [|discriminate].
    destruct (Api.json_Marshal Q _) as [bytes|e] eqn:Hm; cbn; [|discriminate].
    intros [= <-]. exists imgURI, dgst, g, s, e'. rewrite Hc. cbn. auto.
Qed.

End ApiMetadata.

Lemma WriteMetaData_record_witness :
  (Api.WriteMetaData env_ok meta_ok (api_job "a" SUCCESSFUL, world0)).1
  = Some {| Api.put_data := "{a}"; Api.put_key := "STORAGE_METADATA_DIR/a.json";
            Api.put_contentType := "application/json"; Api.put_arg := 0 |} /\
  exists uri dgst,
    Api.Contains uri "amazonaws.com/" = true /\
    Api.getECRImageDigest meta_ok 2 uri = Ok dgst.
Proof.
  assert (H : (Api.WriteMetaData env_ok meta_ok (api_job "a" SUCCESSFUL, world0)).1
              = Some {| Api.put_data := "{a}"; Api.put_key := "STORAGE_METADATA_DIR/a.json";
                        Api.put_contentType := "application/json"; Api.put_arg := 0 |})
    by reflexivity.
  split; [exact H|].
  destruct (WriteMetaData_record env_ok meta_ok _ _ _ H)
    as (uri & dgst & g & s & e & Huri & Hd & _).
  injection Huri as <-.
  exists "123456789012.dkr.ecr.us-east-1.amazonaws.com/echo:latest", dgst.
  split; [reflexivity | exact Hd].
Defined.

(** ** The monitor of the earlier job *)

Section LegacyRun.

Context (E : Env).

Implicit Types (j : Legacy.AWSBatchJob) (w : World).

Lemma Run_iter_Return j w oldStatus :
  (Legacy.Run_iter E oldStatus (j, w)).1 = Legacy.Return ->
  terminal (Legacy.Status (Legacy.Run_iter E oldStatus (j, w)).2.1) = true /\
  Legacy.ctxDone (Legacy.Run_iter E oldStatus (j, w)).2.1 = true.
Proof.
  unfold Legacy.Run_iter, bind, getJ, ask. cbn.
  destruct (JobMonitor E _ _) as [[status stream]|e]; cbn; [|auto].
  destruct (status =? oldStatus)%string; cbn; [discriminate|].
  destruct (status =? "ACCEPTED")%string; cbn; [discriminate|].
  destruct (status =? "RUNNING")%string; cbn; [discriminate|].
  destruct (status =? "SUCCEEDED")%string; cbn; [auto|].
  destruct (status =? "DISMISSED")%string; cbn; [auto|].
  destruct (status =? "FAILED")%string; cbn; [auto|discriminate].
Qed.

Lemma Run_loop_returns fuel : forall oldStatus j w,
  (Legacy.Run_loop E fuel oldStatus (j, w)).1 = true ->
  terminal (Legacy.Status (Legacy.Run_loop E fuel oldStatus (j, w)).2.1) = true /\
  Legacy.ctxDone (Legacy.Run_loop E fuel oldStatus (j, w)).2.1 = true.
Proof.
  induction fuel as [|fuel IH]; intros oldStatus j w; [discriminate|].
  cbn [Legacy.Run_loop]. unfold bind.
  pose proof (Run_iter_Return j w oldStatus) as Hret.
  destruct (Legacy.Run_iter E oldStatus (j, w)) as [[s|] [j1 w1]]; cbn [fst snd] in *.
  - apply IH.
  - intros _. apply Hret. reflexivity.
Qed.

(** X11. Whenever [Run] returns, the job is in a terminal status and its
    context is cancelled: the monitor leaves a job only as successful,
    dismissed or failed. *)
Theorem Run_returns_terminal fuel j w :
  (Legacy.Run E fuel (j, w)).1 = true ->
  terminal (Legacy.Status (Legacy.Run E fuel (j, w)).2.1) = true /\
  Legacy.ctxDone (Legacy.Run E fuel (j, w)).2.1 = true.
Proof.
  unfold Legacy.Run, newController, bind, getJ, ask.
  cbn -[Legacy.Run_loop].
  destruct (NewAWSBatchController E _ _ _ _); cbn -[Legacy.Run_loop]; [auto|].
  destruct (Legacy.AWSBatchID j =? "")%string; cbn -[Legacy.Run_loop]; [auto|].
  apply Run_loop_returns.
Qed.

Lemma Run_iter_continues j w oldStatus status stream :
  JobMonitor E (tick w) (Legacy.AWSBatchID j) = Ok (status, stream) ->
  ends_monitor status = false ->
  exists j' w',
    Legacy.Run_iter E oldStatus (j, w) = (Legacy.Continue status, (j', w')) /\
    Legacy.AWSBatchID j' = Legacy.AWSBatchID j /\
    Legacy.ctxDone j' = Legacy.ctxDone j /\
    Legacy.APILogs j' = Legacy.APILogs j /\
    (Legacy.Status j' = Legacy.Status j \/ Legacy.Status j' = ACCEPTED
     \/ Legacy.Status j' = RUNNING) /\
    events w' = events w ++ [EvJobMonitor (Legacy.AWSBatchID j); EvSleep 10].
Proof.
  intros Hobs Hends. unfold ends_monitor in Hends.
  apply orb_false_iff in Hends as [Hends Hf]. apply orb_false_iff in Hends as [Hs Hd].
  unfold Legacy.Run_iter, bind, getJ, ask. cbn. rewrite Hobs. cbn.
  destruct (status =? oldStatus)%string; cbn.
  { eexists _, _. split; [reflexivity|]. cbn. rewrite <- app_assoc. auto 10. }
  destruct (status =? "ACCEPTED")%string; cbn.
  { eexists _, _. split; [reflexivity|]. cbn. rewrite <- app_assoc. auto 10. }
  destruct (status =? "RUNNING")%string; cbn.
  { eexists _, _. split; [reflexivity|]. cbn. rewrite <- app_assoc. auto 10. }
  rewrite Hs, Hd, Hf. cbn.
  eexists _, _. split; [reflexivity|]. cbn. rewrite <- app_assoc. auto 10.
Qed.

Lemma Run_loop_polls fuel : forall oldStatus j w,
  (forall n, exists status stream,
     JobMonitor E n (Legacy.AWSBatchID j) = Ok (status, stream) /\
     ends_monitor status = false) ->
  let r := Legacy.Run_loop E fuel oldStatus (j, w) in
  r.1 = false /\
  Legacy.ctxDone r.2.1 = Legacy.ctxDone j /\
  Legacy.APILogs r.2.1 = Legacy.APILogs j /\
  (terminal (Legacy.Status j) = false -> terminal (Legacy.Status r.2.1) = false) /\
  events r.2.2 = events w ++ polls (Legacy.AWSBatchID j) fuel.
Proof.
  induction fuel as [|fuel IH]; intros oldStatus j w Hobs; cbn zeta.
  - cbn. rewrite app_nil_r. auto.
  - cbn [Legacy.Run_loop]. unfold bind.
    destruct (Hobs (tick w)) as (status & stream & Hm & Hends).
    destruct (Run_iter_continues j w oldStatus status stream Hm Hends)
      as (j1 & w1 & Hiter & Hid & Hctx & Hlogs & Hst & Hev).
    rewrite Hiter.
    assert (Hobs1 : forall n, exists status stream,
              JobMonitor E n (Legacy.AWSBatchID j1) = Ok (status, stream) /\
              ends_monitor status = false) by (rewrite Hid; exact Hobs).
    specialize (IH status j1 w1 Hobs1). cbn zeta in IH.
    destruct IH as (Hr & Hc & Hl & Ht & He).
    split; [exact Hr|]. split; [congruence|]. split; [congruence|]. split.
    + intros Hnt. apply Ht.
      destruct Hst as [-> | [-> | ->]]; [exact Hnt | reflexivity | reflexivity].
    + rewrite He, Hev, Hid, <- app_assoc. reflexivity.
Qed.

(** X12. The monitor has no limit of its own. When the controller is
    available, the job has a provider id, and every answer of the provider
    is a status other than SUCCEEDED, DISMISSED and FAILED, no number of
    iterations makes [Run] return: each iteration polls once and sleeps ten
    seconds, the context stays as it was, the api log gains nothing, and a
    job that was not in a terminal status is not in one afterwards. *)
Theorem Run_polls_while_provider_waits fuel j w :
  NewAWSBatchController E (tick w) (os_Getenv E "AWS_ACCESS_KEY_ID")
    (os_Getenv E "AWS_SECRET_ACCESS_KEY") (os_Getenv E "AWS_DEFAULT_REGION") = None ->
  Legacy.AWSBatchID j <> "" ->
  (forall n, exists status stream,
     JobMonitor E n (Legacy.AWSBatchID j) = Ok (status, stream) /\
     ends_monitor status = false) ->
  let r := Legacy.Run E fuel (j, w) in
  r.1 = false /\
  Legacy.ctxDone r.2.1 = Legacy.ctxDone j /\
  Legacy.APILogs r.2.1 = Legacy.APILogs j /\
  (terminal (Legacy.Status j) = false -> terminal (Legacy.Status r.2.1) = false) /\
  events r.2.2 = events w ++ EvNewController (os_Getenv E "AWS_DEFAULT_REGION")
                               :: polls (Legacy.AWSBatchID j) fuel.
Proof.
  intros Hc Hid Hobs. cbn zeta.
  unfold Legacy.Run, newController, bind, getJ, ask. cbn -[Legacy.Run_loop].
  rewrite Hc. cbn -[Legacy.Run_loop].
  apply eqb_string_false in Hid. rewrite Hid.
  match goal with |- context [Legacy.Run_loop E fuel ?o (j, ?w0)] =>
    destruct (Run_loop_polls fuel o j w0 Hobs) as (Hr & Hx & Hl & Ht & He) end.
  split; [exact Hr|]. split; [exact Hx|]. split; [exact Hl|]. split; [exact Ht|].
  rewrite He. cbn. rewrite <- app_assoc. reflexivity.
Qed.

(** X13. [Run] polls only a job that was submitted. When the controller
    cannot be had, or the job has no provider id, [Run] returns at once,
    also when no iteration is allowed: the job is failed with the reason as
    the last line of its api log, its context is cancelled, and no observe
    call was made. *)
Theorem Run_refuses_unsubmitted fuel j w :
  (exists e, NewAWSBatchController E (tick w) (os_Getenv E "AWS_ACCESS_KEY_ID")
               (os_Getenv E "AWS_SECRET_ACCESS_KEY") (os_Getenv E "AWS_DEFAULT_REGION")
             = Some e) \/
  Legacy.AWSBatchID j = "" ->
  let r := Legacy.Run E fuel (j, w) in
  r.1 = true /\
  Legacy.Status r.2.1 = FAILED /\
  Legacy.ctxDone r.2.1 = true /\
  (exists reason, Legacy.APILogs r.2.1 = Legacy.APILogs j ++ [reason] /\
     (Legacy.AWSBatchID j = "" ->
      NewAWSBatchController E (tick w) (os_Getenv E "AWS_ACCESS_KEY_ID")
        (os_Getenv E "AWS_SECRET_ACCESS_KEY") (os_Getenv E "AWS_DEFAULT_REGION") = None ->
      reason = "AWSBatchID empty")) /\
  events r.2.2 = events w ++ [EvNewController (os_Getenv E "AWS_DEFAULT_REGION")].
Proof.
  intros Hor. cbn zeta.
  unfold Legacy.Run, newController, bind, getJ, ask. cbn -[Legacy.Run_loop].
  destruct (NewAWSBatchController E _ _ _ _) as [e|] eqn:Hc; cbn -[Legacy.Run_loop].
  - repeat split. exists e. split; [reflexivity|]. discriminate.
  - destruct Hor as [[e He] | Hid]; [discriminate|].
    rewrite Hid. cbn. repeat split. exists "AWSBatchID empty". auto.
Qed.

End LegacyRun.

Lemma Run_polls_while_provider_waits_witness :
  Legacy.AWSBatchID (legacy_job ACCEPTED) <> "" /\
  (Legacy.Run env_ok 7 (legacy_job ACCEPTED, world0)).1 = false /\
  events (Legacy.Run env_ok 7 (legacy_job ACCEPTED, world0)).2.2
  = events world0 ++ EvNewController "AWS_DEFAULT_REGION" :: polls "batch-1" 7.
Proof.
  assert (Hid : Legacy.AWSBatchID (legacy_job ACCEPTED) <> "") by discriminate.
  assert (Hobs : forall n : nat, exists status stream,
            JobMonitor env_ok n (Legacy.AWSBatchID (legacy_job ACCEPTED))
            = Ok (status, stream) /\ ends_monitor status = false).
  { intros n. exists "RUNNING", "stream-1". split; reflexivity. }
  destruct (Run_polls_while_provider_waits env_ok 7 (legacy_job ACCEPTED) world0
              eq_refl Hid Hobs) as (Hr & _ & _ & _ & He).
  split; [exact Hid|]. split; [exact Hr | exact He].
Defined.

Lemma Run_refuses_unsubmitted_witness :
  (Legacy.Run env_ok 0 (Legacy.set_AWSBatchID "" (legacy_job ACCEPTED), world0)).1 = true /\
  Legacy.Status
    (Legacy.Run env_ok 0 (Legacy.set_AWSBatchID "" (legacy_job ACCEPTED), world0)).2.1
  = FAILED.
Proof.
  destruct (Run_refuses_unsubmitted env_ok 0
              (Legacy.set_AWSBatchID "" (legacy_job ACCEPTED)) world0
              (or_intror eq_refl)) as (Hr & Hs & _).
  split; [exact Hr | exact Hs].
Defined.

Lemma Run_returns_terminal_witness :
  (Legacy.Run (env_observing (Ok ("SUCCEEDED", "stream-1"))) 3
     (legacy_job ACCEPTED, world0)).1 = true /\
  terminal (Legacy.Status
    (Legacy.Run (env_observing (Ok ("SUCCEEDED", "stream-1"))) 3
       (legacy_job ACCEPTED, world0)).2.1) = true.
Proof.
  assert (H : (Legacy.Run (env_observing (Ok ("SUCCEEDED", "stream-1"))) 3
                 (legacy_job ACCEPTED, world0)).1 = true) by reflexivity.
  split; [exact H|].
  apply (Run_returns_terminal (env_observing (Ok ("SUCCEEDED", "stream-1"))) 3
           (legacy_job ACCEPTED) world0 H).
Defined.

(** ** Submission, dismissal and size of the earlier job *)

Section LegacyLifecycle.

Context (E : Env).

Implicit Types (j : Legacy.AWSBatchJob) (w : World).

(** X14. [Create] of [src/jobs] in every case. When it returns nil the job
    had a command, it is accepted at the reading of the clock, and its
    provider id is the one [JobCreate] answered. When it returns an error
    the job is failed with the error as the last line of its api log and
    its context is cancelled. When the command is nil, the call panics, and
    it does so after the provider has taken the job: the provider id is set
    and the status is as before. It never waits. Which case it is follows
    from the answers of the provider and from the command: the error of the
    controller, else the error of [JobCreate], else the panic when the
    command is nil, and nil when there is a command. *)
Theorem Legacy_Create_outcomes j w :
  let r := Legacy.Create E (j, w) in
  let controller :=
    NewAWSBatchController E (tick w) (os_Getenv E "AWS_ACCESS_KEY_ID")
      (os_Getenv E "AWS_SECRET_ACCESS_KEY") (os_Getenv E "AWS_DEFAULT_REGION") in
  let submitted :=
    JobCreate E (S (tick w)) (Legacy.JobDef j) (Legacy.JobName j) (Legacy.JobQueue j)
      (Legacy.Cmd j) (Legacy.EnvVars j) in
  (r.1 = Legacy.Returned None ->
     Legacy.Cmd j <> None /\
     Legacy.Status r.2.1 = ACCEPTED /\
     Legacy.UpdateTime r.2.1 = time_Now E (2 + tick w) /\
     Legacy.ctxDone r.2.1 = Legacy.ctxDone j /\
     JobCreate E (S (tick w)) (Legacy.JobDef j) (Legacy.JobName j) (Legacy.JobQueue j)
       (Legacy.Cmd j) (Legacy.EnvVars j) = Ok (Legacy.AWSBatchID r.2.1)) /\
  (forall e, r.1 = Legacy.Returned (Some e) ->
     Legacy.Status r.2.1 = FAILED /\
     Legacy.APILogs r.2.1 = Legacy.APILogs j ++ [e] /\
     Legacy.ctxDone r.2.1 = true /\
     Legacy.AWSBatchID r.2.1 = Legacy.AWSBatchID j) /\
  (forall msg, r.1 = Legacy.Panicked msg ->
     Legacy.Cmd j = None /\
     Legacy.Status r.2.1 = Legacy.Status j /\
     JobCreate E (S (tick w)) (Legacy.JobDef j) (Legacy.JobName j) (Legacy.JobQueue j)
       None (Legacy.EnvVars j) = Ok (Legacy.AWSBatchID r.2.1) /\
     last (events r.2.2)
     = Some (EvJobCreate (Legacy.JobDef j) (Legacy.JobName j) (Legacy.JobQueue j) None)) /\
  r.1 <> Legacy.Blocked /\
  (forall e, controller = Some e ->
     r.1 = Legacy.Returned (Some e) /\
     events r.2.2 = events w ++ [EvNewController (os_Getenv E "AWS_DEFAULT_REGION")]) /\
  (forall e, controller = None -> submitted = Err e -> r.1 = Legacy.Returned (Some e)) /\
  (forall id, controller = None -> submitted = Ok id -> Legacy.Cmd j = None ->
     r.1 = Legacy.Panicked "invalid memory address or nil pointer dereference" /\
     Legacy.AWSBatchID r.2.1 = id /\
     Legacy.APILogs r.2.1 = Legacy.APILogs j /\
     Legacy.ctxDone r.2.1 = Legacy.ctxDone j) /\
  (forall id, controller = None -> submitted = Ok id -> Legacy.Cmd j <> None ->
     r.1 = Legacy.Returned None /\ Legacy.AWSBatchID r.2.1 = id).
Proof.
  cbn zeta.
  unfold Legacy.Create, newController, bind, getJ, ask, modifyJ. cbn.
  destruct (NewAWSBatchController E _ _ _ _) as [e|]; cbn.
  { split; [discriminate|]. split; [intros e' [= <-]; auto|]. split; [discriminate|].
    split; [discriminate|]. split; [intros e' [= <-]; auto|].
    split; [discriminate|]. split; discriminate. }
  destruct (Legacy.Cmd j) as [cmd|] eqn:Hcmd; rewrite ?Hcmd; cbn;
    (destruct (JobCreate E _ _ _ _ _ _) as [id|e] eqn:Hcreate; cbn;
     [|split; [discriminate|]; split; [intros e' [= <-]; auto|]; split; [discriminate|];
       split; [discriminate|]; split; [discriminate|];
       split; [intros e' _ [= <-]; reflexivity|]; split; discriminate]).
  - split; [intros _; split; [congruence|]; auto|].
    split; [discriminate|]. split; [discriminate|]. split; [discriminate|].
    split; [discriminate|]. split; [discriminate|].
    split; [discriminate|]. intros id' _ [= <-] _. auto.
  - split; [discriminate|]. split; [discriminate|].
    split.
    { intros msg _.
      split; [reflexivity|]. split; [reflexivity|]. split; [reflexivity|].
      apply last_snoc. }
    split; [discriminate|]. split; [discriminate|]. split; [discriminate|].
    split; [intros id' _ [= <-] _; auto | intros id' _ _ Hne; contradiction].
Qed.

(** X15. [Kill] of [src/jobs] in every case. It has no test of the current
    status: when it returns nil the job is dismissed with its context
    cancelled, whatever its status was, and its api log is as before. When
    it returns an error, either the controller could not be had, and the
    job is failed with the error in its api log, or the kill call itself
    failed, and the job is exactly as it was, with nothing logged. *)
Theorem Legacy_Kill_outcomes j w :
  let r := Legacy.Kill E (j, w) in
  (r.1 = None ->
     Legacy.Status r.2.1 = DISMISSED /\
     Legacy.ctxDone r.2.1 = true /\
     Legacy.APILogs r.2.1 = Legacy.APILogs j /\
     Legacy.UpdateTime r.2.1 = time_Now E (2 + tick w)) /\
  (forall e, r.1 = Some e ->
     (NewAWSBatchController E (tick w) (os_Getenv E "AWS_ACCESS_KEY_ID")
        (os_Getenv E "AWS_SECRET_ACCESS_KEY") (os_Getenv E "AWS_DEFAULT_REGION") = Some e /\
      Legacy.Status r.2.1 = FAILED /\
      Legacy.APILogs r.2.1 = Legacy.APILogs j ++ [e] /\
      Legacy.ctxDone r.2.1 = true) \/
     (JobKill E (S (tick w)) (Legacy.AWSBatchID j) = Some e /\ r.2.1 = j)).
Proof.
  cbn zeta. unfold Legacy.Kill, newController, bind, getJ, ask. cbn.
  destruct (NewAWSBatchController E _ _ _ _) as [e|]; cbn.
  { split; [discriminate|]. intros e' [= <-]. left. auto. }
  destruct (JobKill E _ _) as [e|] eqn:Hk; cbn.
  - split; [discriminate|]. intros e' [= <-]. right. auto.
  - split; [auto|discriminate].
Qed.

Lemma sum_len_app l1 l2 :
  Legacy.sum_len (l1 ++ l2) = Legacy.sum_len l1 + Legacy.sum_len l2.
Proof.
  unfold Legacy.sum_len. induction l1 as [|s l1 IH]; cbn [fold_right app]; [reflexivity|].
  rewrite IH. lia.
Qed.

Lemma sum_len_nonneg l : 0 <= Legacy.sum_len l.
Proof.
  unfold Legacy.sum_len. induction l as [|s l IH]; cbn [fold_right]; [lia|].
  pose proof (Nat2Z.is_nonneg (String.length s)). unfold Legacy.len at 1. lia.
Qed.

(** X16. The size that a job reports to the cache is at least the 264 bytes
    of its headers; a message added to the api log raises it by the length
    of the message, as does the error that [HandleError] logs; a status
    update does not change it; and what an observe call puts in the
    container log counts as one entry, whatever its length. *)
Theorem GetSizeinCache_accounting j w m s stream :
  264 <= Legacy.GetSizeinCache j /\
  Legacy.GetSizeinCache (Legacy.NewMessage m (j, w)).2.1
  = Legacy.GetSizeinCache j + Legacy.len m /\
  Legacy.GetSizeinCache (Legacy.HandleError E m (j, w)).2.1
  = Legacy.GetSizeinCache j + Legacy.len m /\
  Legacy.GetSizeinCache (Legacy.NewStatusUpdate E s (j, w)).2.1 = Legacy.GetSizeinCache j /\
  Legacy.GetSizeinCache (Legacy.set_ContainerLogs [stream] j)
  = Legacy.GetSizeinCache (Legacy.set_ContainerLogs [] j) + 1.
Proof.
  unfold Legacy.GetSizeinCache, Legacy.NewMessage, Legacy.HandleError,
    Legacy.NewStatusUpdate, Legacy.CtxCancel, bind, modifyJ, now.
  cbn -[Z.add Z.of_nat].
  rewrite sum_len_app. cbn -[Z.add Z.of_nat].
  pose proof (sum_len_nonneg (default [] (Legacy.Cmd j))).
  pose proof (sum_len_nonneg (Legacy.APILogs j)).
  unfold Legacy.sizeof_slice, Legacy.sizeof_interface, Legacy.sizeof_func,
    Legacy.sizeof_string, Legacy.sizeof_Time, Legacy.sizeof_map, Legacy.sum_len,
    Legacy.len in *.
  cbn [fold_right] in *.
  repeat split; lia.
Qed.

End LegacyLifecycle.

Lemma Legacy_Create_outcomes_witness :
  Legacy.Cmd job_without_command = None /\
  (Legacy.Create env_ok (job_without_command, world0)).1
  = Legacy.Panicked "invalid memory address or nil pointer dereference" /\
  Legacy.AWSBatchID (Legacy.Create env_ok (job_without_command, world0)).2.1 = "batch-1" /\
  last (events (Legacy.Create env_ok (job_without_command, world0)).2.2)
  = Some (EvJobCreate "def" "name" "queue" None).
Proof.
  destruct (Legacy_Create_outcomes env_ok job_without_command world0)
    as (_ & _ & Hpanicked & _ & _ & _ & Hpanics & _).
  destruct (Hpanics "batch-1" eq_refl eq_refl eq_refl) as (Hp & Hid & _).
  split; [reflexivity|]. split; [exact Hp|]. split; [exact Hid|].
  exact (proj2 (proj2 (proj2 (Hpanicked _ Hp)))).
Defined.

(** ** The execution handler: answers and what they leave *)

Section ExecutionFacts.

Context (E : Env) (X : Legacy.Outside).

Implicit Types (rh : Legacy.RESTHandler) (w : World) (j : Legacy.AnyJob).

Lemma Execution_job_world req rh w :
  events (Legacy.Execution_job E X req rh w).2 = events w.
Proof.
  unfold Legacy.Execution_job.
  destruct (Legacy.param_processID req =? "")%string; [reflexivity|].
  destruct (Legacy.ProcessList_Get _ _) as [p|]; [|reflexivity].
  destruct (Legacy.bound_body req) as [params|]; [|reflexivity].
  destruct (Legacy.Inputs params) as [inputs|]; [|reflexivity].
  destruct (Legacy.verifyInputs p inputs); [reflexivity|].
  destruct (Legacy.Info_JobControlOptions p) as [|jobType rest]; [reflexivity|].
  destruct (Legacy.json_Marshal X _); [|reflexivity].
  destruct (Legacy.new_job _ _ _ _ _); reflexivity.
Qed.

Lemma Execution_job_early req rh w r w' :
  Legacy.Execution_job E X req rh w = (inl (Legacy.Returned r), w') ->
  Legacy.code r = 400 \/ Legacy.code r = 500.
Proof.
  unfold Legacy.Execution_job.
  destruct (Legacy.param_processID req =? "")%string; [intros [= <- _]; auto|].
  destruct (Legacy.ProcessList_Get _ _) as [p|]; [|intros [= <- _]; auto].
  destruct (Legacy.bound_body req) as [params|]; [|intros [= <- _]; auto].
  destruct (Legacy.Inputs params) as [inputs|]; [|intros [= <- _]; auto].
  destruct (Legacy.verifyInputs p inputs); [intros [= <- _]; auto|].
  destruct (Legacy.Info_JobControlOptions p) as [|jobType rest]; [discriminate|].
  destruct (Legacy.json_Marshal X _); [|intros [= <- _]; auto].
  destruct (Legacy.new_job _ _ _ _ _); [discriminate | intros [= <- _]; auto].
Qed.

(** What [dispatch] answers: 200 for a synchronous process, 201 for an
    asynchronous one, whose monitor it starts, and 500 otherwise. *)
Lemma dispatch_inv fuel p jobID ptr j rh w r rh' w' :
  Legacy.dispatch E X fuel p jobID ptr j rh w = (Legacy.Returned r, rh', w') ->
  (Legacy.code r = 200 /\ head (Legacy.Info_JobControlOptions p) = Some "sync-execute" /\
   Legacy.goroutines rh' = Legacy.goroutines rh) \/
  (Legacy.code r = 201 /\ head (Legacy.Info_JobControlOptions p) = Some "async-execute" /\
   rh' = Legacy.with_goroutine ptr rh /\ w' = w) \/
  (Legacy.code r = 500 /\ Legacy.goroutines rh' = Legacy.goroutines rh).
Proof.
  unfold Legacy.dispatch.
  destruct (Legacy.Info_JobControlOptions p) as [|option0 rest]; [discriminate|].
  destruct (option0 =? "sync-execute")%string eqn:Hsync.
  - apply eqb_string_true in Hsync. subst option0.
    destruct (Legacy.any_Run E X fuel (j, w)) as [returned [j1 w1]].
    destruct returned; cbn [negb]; [|discriminate].
    destruct (Legacy.Outputs p).
    + destruct (Legacy.FetchResults E (Legacy.any_JobID E X j1) (j1, w1))
        as [[outputs|e] [j2 w2]].
      * destruct (Legacy.any_CurrentStatus E X j1 =? "successful")%string;
          intros [= <- <- <-]; auto.
      * intros [= <- <- <-]. auto.
    + destruct (Legacy.any_CurrentStatus E X j1 =? "successful")%string;
        intros [= <- <- <-]; auto.
  - destruct (option0 =? "async-execute")%string eqn:Hasync.
    + apply eqb_string_true in Hasync. subst option0.
      intros [= <- <- <-]. right. left. auto.
    + intros [= <- <- <-]. auto.
Qed.

Lemma Execution_submit_inv fuel p jobID j rh w r rh' w' :
  Legacy.Execution_submit E X fuel p jobID j rh w = (Legacy.Returned r, rh', w') ->
  (Legacy.code r = 200 /\ head (Legacy.Info_JobControlOptions p) = Some "sync-execute" /\
   Legacy.goroutines rh' = Legacy.goroutines rh) \/
  (Legacy.code r = 201 /\ head (Legacy.Info_JobControlOptions p) = Some "async-execute" /\
   Legacy.goroutines rh' = Legacy.goroutines rh ++ [length (Legacy.heap rh)]) \/
  (Legacy.code r = 500 /\ Legacy.goroutines rh' = Legacy.goroutines rh).
Proof.
  unfold Legacy.Execution_submit.
  destruct (Legacy.any_Create E X (j, w)) as [created [j1 w1]].
  destruct created as [[err|]| |]; try discriminate.
  - intros [= <- <- <-]. auto.
  - intros Hd. apply dispatch_inv in Hd.
    destruct Hd as [Hd | [(Hc & Ho & -> & ->) | Hd]]; auto.
Qed.

(** X17. [Execution] answers 200, 201, 400 or 500 and nothing else: 200
    only for a process whose first option is sync-execute, 201 only for one
    whose first option is async-execute, and then exactly one monitor was
    started, for the job of the request; with any other answer no monitor
    was started. *)
Theorem Execution_answers fuel req rh w r rh' w' :
  Legacy.Execution E X fuel req rh w = (Legacy.Returned r, rh', w') ->
  Legacy.code r ∈ [200; 201; 400; 500] /\
  (Legacy.code r = 200 ->
     exists p, Legacy.rh_ProcessList rh !! Legacy.param_processID req = Some p /\
       head (Legacy.Info_JobControlOptions p) = Some "sync-execute") /\
  (Legacy.code r = 201 ->
     (exists p, Legacy.rh_ProcessList rh !! Legacy.param_processID req = Some p /\
        head (Legacy.Info_JobControlOptions p) = Some "async-execute") /\
     Legacy.goroutines rh' = Legacy.goroutines rh ++ [length (Legacy.heap rh)]) /\
  (Legacy.code r <> 201 -> Legacy.goroutines rh' = Legacy.goroutines rh).
Proof.
  unfold Legacy.Execution.
  destruct (Legacy.Execution_job E X req rh w) as [[early | [[p jobID] j]] w0] eqn:Hjob.
  - intros [= -> <- <-]. apply Execution_job_early in Hjob.
    split; [destruct Hjob as [-> | ->]; set_solver|].
    split; [intros H200; destruct Hjob; congruence|].
    split; [intros H201; destruct Hjob; congruence | reflexivity].
  - intros Hsub.
    destruct (Execution_job_inv E X _ _ _ _ _ _ _ Hjob)
      as (_ & _ & _ & _ & _ & Hget & _).
    assert (Hp : Legacy.rh_ProcessList rh !! Legacy.param_processID req = Some p).
    { unfold Legacy.ProcessList_Get in Hget.
      destruct (Legacy.rh_ProcessList rh !! Legacy.param_processID req);
        [congruence | discriminate]. }
    apply Execution_submit_inv in Hsub.
    destruct Hsub as [(Hc & Ho & Hg) | [(Hc & Ho & Hg) | (Hc & Hg)]]; rewrite Hc.
    + split; [set_solver|]. split; [eauto|]. split; [discriminate | auto].
    + split; [set_solver|]. split; [discriminate|]. split; [eauto | congruence].
    + split; [set_solver|]. split; [discriminate|]. split; [discriminate | auto].
Qed.

End ExecutionFacts.


(** ** The execution handler: a job that the provider has taken *)

Section ExecutionSubmitted.

Context (E : Env) (X : Legacy.Outside).

Implicit Types (rh : Legacy.RESTHandler) (w : World) (b : Legacy.AWSBatchJob).

(** A successful [Create]: what it leaves of the job and what it called. *)
Lemma Legacy_Create_ok_inv b w b1 w1 :
  Legacy.Create E (b, w) = (Legacy.Returned None, (b1, w1)) ->
  exists id,
    b1 = Legacy.set_UpdateTime (time_Now E (2 + tick w))
           (Legacy.set_Status ACCEPTED (Legacy.set_AWSBatchID id b)) /\
    events w1 = events w ++
      [EvNewController (os_Getenv E "AWS_DEFAULT_REGION");
       EvJobCreate (Legacy.JobDef b) (Legacy.JobName b) (Legacy.JobQueue b) (Legacy.Cmd b)].
Proof.
  unfold Legacy.Create, newController, bind, getJ, ask, modifyJ. cbn.
  destruct (NewAWSBatchController E _ _ _ _) as [e|]; cbn; [discriminate|].
  destruct (JobCreate E _ _ _ _ _ _) as [id|e]; cbn; [|discriminate].
  destruct (Legacy.Cmd b) as [cmd|] eqn:Hcmd; cbn; [|discriminate].
  intros [= <- <-]. exists id. split; [reflexivity|].
  cbn. rewrite <- !app_assoc. reflexivity.
Qed.

(** The job that [new_job] builds for the cloud batch provider. *)
Lemma new_job_batch p processID jobID jobType cmd b :
  Legacy.new_job p processID jobID jobType cmd = Some (Legacy.JBatch b) ->
  (jobType =? "sync-execute")%string = false /\
  Legacy.UUID b = jobID /\ Legacy.ProcessName b = processID /\
  Legacy.Cmd b = Some cmd /\
  Legacy.JobDef b = Legacy.JobDefinition (Legacy.Provider (Legacy.Runtime p)) /\
  Legacy.JobName b = Legacy.Name (Legacy.Provider (Legacy.Runtime p)) /\
  Legacy.JobQueue b = Legacy.Provider_JobQueue (Legacy.Provider (Legacy.Runtime p)).
Proof.
  unfold Legacy.new_job.
  destruct (jobType =? "sync-execute")%string; [discriminate|].
  destruct (_ =? "aws-batch")%string; [|discriminate].
  intros [= <-]. cbn. auto 10.
Qed.

Lemma insert_last {A : Type} (l : list A) (x y : A) :
  <[length l := y]> (l ++ [x]) = l ++ [y].
Proof.
  rewrite insert_app_r_alt by lia. rewrite Nat.sub_diag. reflexivity.
Qed.

(** After a successful [Create], [Execution] goes on with the created job in
    the place of the one it had built. *)
Lemma Execution_submit_created fuel p jobID b rh w0 b1 w1 :
  Legacy.Create E (b, w0) = (Legacy.Returned None, (b1, w1)) ->
  Legacy.Execution_submit E X fuel p jobID (Legacy.JBatch b) rh w0
  = Legacy.dispatch E X fuel p jobID (length (Legacy.heap rh)) (Legacy.JBatch b1)
      (Legacy.with_heap (Legacy.heap rh ++ [Legacy.JBatch b1])
         (Legacy.with_cache
            (Legacy.cache_Add E X (Legacy.heap rh ++ [Legacy.JBatch b])
               (length (Legacy.heap rh)) (Legacy.rh_JobsCache rh)) rh)) w1.
Proof.
  intros Hc. unfold Legacy.Execution_submit, Legacy.any_Create, Legacy.method_call.
  cbn [fst snd]. cbn [Legacy.job_Create Legacy.AWSBatchJob_Job].
  rewrite Hc. cbn [Legacy.heap Legacy.with_heap Legacy.with_cache].
  rewrite insert_last. reflexivity.
Qed.

(** X18. When the job of an execution request goes to the cloud batch
    provider, [Create] returns nil and the first option of the process is
    async-execute, [Execution] answers 201 with the process id of the
    request, the fresh job id and the status accepted. The job it leaves in
    memory is the created one, accepted, under the same job id; the one
    monitor it starts is that of this job; and the provider was called
    twice, for the controller and for the submission of the command built
    from the request. *)
Theorem Execution_async_accepted fuel req rh w p jobID b w0 b1 w1 :
  Legacy.Execution_job E X req rh w = (inr (p, jobID, Legacy.JBatch b), w0) ->
  Legacy.Create E (b, w0) = (Legacy.Returned None, (b1, w1)) ->
  head (Legacy.Info_JobControlOptions p) = Some "async-execute" ->
  exists rh',
    Legacy.Execution E X fuel req rh w
    = (Legacy.Returned (Legacy.JSON 201
         (Legacy.BObject [("processID", JStr (Legacy.param_processID req));
                          ("type", JStr "process"); ("jobID", JStr jobID);
                          ("status", JStr "accepted")])), rh', w1) /\
    Legacy.heap rh' = Legacy.heap rh ++ [Legacy.JBatch b1] /\
    Legacy.goroutines rh' = Legacy.goroutines rh ++ [length (Legacy.heap rh)] /\
    Legacy.Status b1 = ACCEPTED /\ Legacy.UUID b1 = jobID /\
    events w1 = events w ++
      [EvNewController (os_Getenv E "AWS_DEFAULT_REGION");
       EvJobCreate (Legacy.JobDefinition (Legacy.Provider (Legacy.Runtime p)))
         (Legacy.Name (Legacy.Provider (Legacy.Runtime p)))
         (Legacy.Provider_JobQueue (Legacy.Provider (Legacy.Runtime p)))
         (Legacy.any_Cmd (Legacy.JBatch b))].
Proof.
  intros Hjob Hc Hopt.
  destruct (Execution_job_inv E X _ _ _ _ _ _ _ Hjob)
    as (params & inputs & jobType & rest & jsonParams & _ & _ & _ & Hopts & _ & _ & Hnew).
  destruct (new_job_batch _ _ _ _ _ _ Hnew) as (Hsync & Hid & Hpn & Hcmd & Hdef & Hname & Hq).
  destruct (Legacy_Create_ok_inv _ _ _ _ Hc) as (id & Hb1 & Hev).
  rewrite Hopts in Hopt. injection Hopt as ->.
  unfold Legacy.Execution. rewrite Hjob.
  rewrite (Execution_submit_created _ _ _ _ _ _ _ _ Hc).
  unfold Legacy.dispatch. rewrite Hopts. cbn [String.eqb Ascii.eqb Bool.eqb].
  eexists. split.
  - replace (Legacy.any_ProcessID E X (Legacy.JBatch b1)) with (Legacy.param_processID req)
      by (rewrite Hb1, <- Hpn; reflexivity).
    reflexivity.
  - cbn [Legacy.heap Legacy.goroutines Legacy.with_goroutine Legacy.with_heap Legacy.with_cache].
    split; [reflexivity|]. split; [reflexivity|].
    split; [rewrite Hb1; reflexivity|]. split; [rewrite Hb1; exact Hid|].
    pose proof (Execution_job_world E X req rh w) as Hw.
    rewrite Hjob in Hw. cbn [snd] in Hw.
    rewrite Hev, Hdef, Hname, Hq, Hw. reflexivity.
Qed.

(** X19. When the job of an execution request goes to the cloud batch
    provider, [Create] returns nil and the first option of the process is
    not async-execute, [Execution] answers 500, incorrect controller option,
    and starts no monitor: the provider has taken the job, which stays in
    memory with the status accepted, and this handler leaves nothing that
    would ever update it. *)
Theorem Execution_option_unknown fuel req rh w p jobID b w0 b1 w1 :
  Legacy.Execution_job E X req rh w = (inr (p, jobID, Legacy.JBatch b), w0) ->
  Legacy.Create E (b, w0) = (Legacy.Returned None, (b1, w1)) ->
  head (Legacy.Info_JobControlOptions p) <> Some "async-execute" ->
  exists rh',
    Legacy.Execution E X fuel req rh w
    = (Legacy.Returned (Legacy.JSON 500
         (Legacy.BObject [("processID", JStr (Legacy.param_processID req));
                          ("type", JStr "process"); ("jobID", JStr jobID);
                          ("status", JNum 0);
                          ("detail",
                           JStr "incorrect controller option defined in process configuration")])),
       rh', w1) /\
    Legacy.heap rh' = Legacy.heap rh ++ [Legacy.JBatch b1] /\
    Legacy.goroutines rh' = Legacy.goroutines rh /\
    Legacy.Status b1 = ACCEPTED /\ Legacy.ctxDone b1 = false /\
    last (events w1)
    = Some (EvJobCreate (Legacy.JobDef b) (Legacy.JobName b) (Legacy.JobQueue b)
              (Legacy.Cmd b)).
Proof.
  intros Hjob Hc Hopt.
  destruct (Execution_job_inv E X _ _ _ _ _ _ _ Hjob)
    as (params & inputs & jobType & rest & jsonParams & _ & _ & _ & Hopts & _ & _ & Hnew).
  pose proof Hnew as Hnew'. unfold Legacy.new_job in Hnew'.
  destruct (new_job_batch _ _ _ _ _ _ Hnew) as (Hsync & Hid & Hpn & Hcmd & _).
  destruct (Legacy_Create_ok_inv _ _ _ _ Hc) as (id & Hb1 & Hev).
  rewrite Hopts in Hopt. cbn in Hopt.
  assert (Hasync : (jobType =? "async-execute")%string = false).
  { destruct (jobType =? "async-execute")%string eqn:Heq; [|reflexivity].
    apply eqb_string_true in Heq. congruence. }
  assert (Hdone : Legacy.ctxDone b = false).
  { rewrite Hsync in Hnew'. destruct (_ =? "aws-batch")%string; [|discriminate].
    injection Hnew' as <-. reflexivity. }
  unfold Legacy.Execution. rewrite Hjob.
  rewrite (Execution_submit_created _ _ _ _ _ _ _ _ Hc).
  unfold Legacy.dispatch. rewrite Hopts, Hsync, Hasync.
  eexists. split.
  - replace (Legacy.any_ProcessID E X (Legacy.JBatch b1)) with (Legacy.param_processID req)
      by (rewrite Hb1, <- Hpn; reflexivity).
    reflexivity.
  - cbn [Legacy.heap Legacy.goroutines Legacy.with_heap Legacy.with_cache].
    split; [reflexivity|]. split; [reflexivity|].
    split; [rewrite Hb1; reflexivity|]. split; [rewrite Hb1; exact Hdone|].
    rewrite Hev, last_app. reflexivity.
Qed.

End ExecutionSubmitted.


Lemma Execution_answers_witness :
  exists r rh' w',
    Legacy.Execution env_ok outside0 0 request0 handler0 world0
    = (Legacy.Returned r, rh', w') /\
    Legacy.code r = 201 /\ Legacy.goroutines rh' = [0%nat].
Proof.
  eassert (H : Legacy.Execution env_ok outside0 0 request0 handler0 world0
               = (Legacy.Returned _, _, _)) by (vm_compute; reflexivity).
  destruct (Execution_answers env_ok outside0 _ _ _ _ _ _ _ H) as (_ & _ & H201 & _).
  destruct (H201 eq_refl) as [_ Hg].
  eexists _, _, _. split; [exact H|]. split; [reflexivity | exact Hg].
Defined.

Lemma Execution_async_accepted_witness :
  exists rh' w1,
    Legacy.Execution env_ok outside0 0 request0 handler0 world0
    = (Legacy.Returned (Legacy.JSON 201
         (Legacy.BObject [("processID", JStr "long-task"); ("type", JStr "process");
                          ("jobID", JStr "0b7e3c52-5a1e-4c58-9d0f-2f1f0c1a9e11");
                          ("status", JStr "accepted")])), rh', w1) /\
    Legacy.goroutines rh' = [0%nat].
Proof.
  eassert (Hjob : Legacy.Execution_job env_ok outside0 request0 handler0 world0
                  = (inr (_, _, Legacy.JBatch _), _)) by (vm_compute; reflexivity).
  match type of Hjob with
  | _ = (inr (_, _, Legacy.JBatch ?b), ?w0) =>
      eassert (Hc : Legacy.Create env_ok (b, w0) = (Legacy.Returned None, (_, _)))
        by (vm_compute; reflexivity)
  end.
  destruct (Execution_async_accepted env_ok outside0 0 _ _ _ _ _ _ _ _ _ Hjob Hc eq_refl)
    as (rh' & Hex & _ & Hg & _).
  eexists rh', _. split; [exact Hex | exact Hg].
Defined.

Lemma Execution_option_unknown_witness :
  exists rh' w1,
    Legacy.Execution env_ok outside0 0 (request_for "typo-task") handler_all world0
    = (Legacy.Returned (Legacy.JSON 500
         (Legacy.BObject [("processID", JStr "typo-task"); ("type", JStr "process");
                          ("jobID", JStr "0b7e3c52-5a1e-4c58-9d0f-2f1f0c1a9e11");
                          ("status", JNum 0);
                          ("detail",
                           JStr "incorrect controller option defined in process configuration")])),
       rh', w1) /\
    Legacy.goroutines rh' = [] /\
    last (events w1) = Some (EvJobCreate "def" "long-task" "queue"
                               (Some ["run.sh"; "{msg,jobID}"])).
Proof.
  eassert (Hjob : Legacy.Execution_job env_ok outside0 (request_for "typo-task") handler_all
                    world0
                  = (inr (_, _, Legacy.JBatch _), _)) by (vm_compute; reflexivity).
  match type of Hjob with
  | _ = (inr (_, _, Legacy.JBatch ?b), ?w0) =>
      eassert (Hc : Legacy.Create env_ok (b, w0) = (Legacy.Returned None, (_, _)))
        by (vm_compute; reflexivity)
  end.
  match type of Hjob with
  | _ = (inr (?p, _, _), _) =>
      assert (Hopt : head (Legacy.Info_JobControlOptions p) <> Some "async-execute")
        by (cbn; discriminate)
  end.
  destruct (Execution_option_unknown env_ok outside0 0 _ _ _ _ _ _ _ _ _ Hjob Hc Hopt)
    as (rh' & Hex & _ & Hg & _ & _ & Hlast).
  eexists rh', _. split; [exact Hex|]. split; [exact Hg | exact Hlast].
Defined.


(** ** The execution handler: a synchronous run *)

Section ExecutionSync.

Context (E : Env) (X : Legacy.Outside).

Implicit Types (rh : Legacy.RESTHandler) (w : World) (j : Legacy.AnyJob).

Lemma Execution_submit_created_any fuel p jobID j rh w0 j1 w1 :
  Legacy.any_Create E X (j, w0) = (Legacy.Returned None, (j1, w1)) ->
  Legacy.Execution_submit E X fuel p jobID j rh w0
  = Legacy.dispatch E X fuel p jobID (length (Legacy.heap rh)) j1
      (Legacy.with_heap (Legacy.heap rh ++ [j1])
         (Legacy.with_cache
            (Legacy.cache_Add E X (Legacy.heap rh ++ [j])
               (length (Legacy.heap rh)) (Legacy.rh_JobsCache rh)) rh)) w1.
Proof.
  intros Hc. unfold Legacy.Execution_submit. rewrite Hc.
  cbn [Legacy.heap Legacy.with_heap Legacy.with_cache].
  rewrite insert_last. reflexivity.
Qed.

(** X20. A synchronous execution of a process that declares outputs reads
    the results of the job from the store after the run, under the key made
    of the results directory and the job id. When the store has no object
    under that key the answer is 500 with the error not found, whatever the
    status in which the run left the job, successful included; the job
    stays in memory as the run left it and no monitor is started. *)
Theorem Execution_sync_results_missing fuel req rh w p jobID j w0 j1 w1 j2 w2 o :
  Legacy.Execution_job E X req rh w = (inr (p, jobID, j), w0) ->
  head (Legacy.Info_JobControlOptions p) = Some "sync-execute" ->
  Legacy.any_Create E X (j, w0) = (Legacy.Returned None, (j1, w1)) ->
  Legacy.any_Run E X fuel (j1, w1) = (true, (j2, w2)) ->
  Legacy.Outputs p = Some o ->
  KeyExists E (tick w2)
    (os_Getenv E "S3_RESULTS_DIR" +:+ "/" +:+ Legacy.any_JobID E X j2 +:+ ".json")
  = Ok false ->
  exists rh',
    Legacy.Execution E X fuel req rh w
    = (Legacy.Returned (Legacy.JSON 500 (Legacy.BError "not found")), rh',
       advance (emit (EvKeyExists (os_Getenv E "S3_RESULTS_DIR" +:+ "/" +:+
                                   Legacy.any_JobID E X j2 +:+ ".json")) w2)) /\
    Legacy.heap rh' = Legacy.heap rh ++ [j2] /\
    Legacy.goroutines rh' = Legacy.goroutines rh.
Proof.
  intros Hjob Hopt Hc Hrun Hout Hkey.
  destruct (Legacy.Info_JobControlOptions p) as [|option0 rest] eqn:Hopts; [discriminate|].
  injection Hopt as ->.
  unfold Legacy.Execution. rewrite Hjob.
  rewrite (Execution_submit_created_any _ _ _ _ _ _ _ _ Hc).
  unfold Legacy.dispatch. rewrite Hopts. cbn [String.eqb Ascii.eqb Bool.eqb].
  rewrite Hrun. cbn [negb]. rewrite Hout.
  unfold Legacy.FetchResults, bind, ask, ret. cbn [fst snd]. rewrite Hkey.
  eexists. split; [reflexivity|].
  cbn [Legacy.heap Legacy.goroutines Legacy.with_heap Legacy.with_cache].
  split; [apply insert_last | reflexivity].
Qed.

End ExecutionSync.

Lemma Execution_sync_results_missing_witness :
  exists rh',
    Legacy.Execution env_no_results outside0 0 (request_for "quick-task") handler_all world0
    = (Legacy.Returned (Legacy.JSON 500 (Legacy.BError "not found")), rh',
       {| tick := 2;
          events := [EvKeyExists "S3_RESULTS_DIR/0b7e3c52-5a1e-4c58-9d0f-2f1f0c1a9e11.json"] |}).
Proof.
  eassert (Hjob : Legacy.Execution_job env_no_results outside0 (request_for "quick-task")
                    handler_all world0
                  = (inr (_, _, _), _)) by (vm_compute; reflexivity).
  match type of Hjob with
  | _ = (inr (?p, _, ?j), ?w0) =>
      assert (Hopt : head (Legacy.Info_JobControlOptions p) = Some "sync-execute")
        by reflexivity;
      eassert (Hc : Legacy.any_Create env_no_results outside0 (j, w0)
                    = (Legacy.Returned None, (_, _))) by (vm_compute; reflexivity);
      eassert (Hout : Legacy.Outputs p = Some _) by reflexivity
  end.
  match type of Hc with
  | _ = (_, (?j1, ?w1)) =>
      eassert (Hrun : Legacy.any_Run env_no_results outside0 0 (j1, w1) = (true, (_, _)))
        by (vm_compute; reflexivity)
  end.
  destruct (Execution_sync_results_missing env_no_results outside0 0
              _ _ _ _ _ _ _ _ _ _ _ _ Hjob Hopt Hc Hrun Hout eq_refl)
    as (rh' & Hex & _).
  exists rh'. exact Hex.
Defined.


(** ** The handlers that look a job up by its id *)

Section LookupFacts.

Context (E : Env) (X : Legacy.Outside).

Implicit Types (rh : Legacy.RESTHandler) (w : World) (j : Legacy.AnyJob)
  (b : Legacy.AWSBatchJob) (js : list Legacy.AnyJob).

Lemma status_range_code jobID js :
  Legacy.code (Legacy.status_range E X jobID js) = 404 <->
  Forall (fun j => Legacy.any_JobID E X j <> jobID) js.
Proof.
  induction js as [|j js IH]; cbn [Legacy.status_range].
  - split; [constructor | reflexivity].
  - destruct (Legacy.any_JobID E X j =? jobID)%string eqn:Hid.
    + cbn. split; [discriminate|]. intros H. inversion H as [|? ? Hne _]; subst.
      apply eqb_string_true in Hid. contradiction.
    + rewrite IH. apply eqb_string_false in Hid.
      split; [intros H; constructor; assumption | intros H; inversion H; assumption].
Qed.

(** The loop of [JobDismissHandler] over pointers finds nothing exactly
    when no job that the cache reaches has the id. *)
Lemma dismiss_range_gone jobID ptrs rh w :
  Forall (fun j => Legacy.any_JobID E X j <> jobID)
    (omap (fun p => Legacy.heap rh !! p) ptrs) ->
  Legacy.dismiss_range E X jobID ptrs rh w
  = (Legacy.JSON 410 (Legacy.BString ("job " +:+ jobID +:+ " not in the active jobs list")),
     rh, w).
Proof.
  induction ptrs as [|p ptrs IH]; cbn [omap list_omap Legacy.dismiss_range];
    [reflexivity|].
  destruct (Legacy.heap rh !! p) as [job|]; [|exact IH].
  intros H. inversion H as [|? ? Hne Hrest]; subst.
  apply eqb_string_false in Hne. rewrite Hne. exact (IH Hrest).
Qed.

Lemma dismiss_range_found jobID ptrs rh w :
  Exists (fun j => Legacy.any_JobID E X j = jobID)
    (omap (fun p => Legacy.heap rh !! p) ptrs) ->
  Legacy.code (Legacy.dismiss_range E X jobID ptrs rh w).1.1 = 200 \/
  Legacy.code (Legacy.dismiss_range E X jobID ptrs rh w).1.1 = 500.
Proof.
  induction ptrs as [|p ptrs IH]; cbn [omap list_omap Legacy.dismiss_range].
  - intros H. inversion H.
  - destruct (Legacy.heap rh !! p) as [job|]; [|exact IH].
    intros H. destruct (Legacy.any_JobID E X job =? jobID)%string eqn:Hid.
    + destruct (Legacy.any_Kill E X (job, w)) as [[e|] [job' w']]; cbn; auto.
    + apply eqb_string_false in Hid.
      inversion H as [? ? Heq | ? ? Hrest]; subst; [contradiction | exact (IH Hrest)].
Qed.

(** X21. The dismiss handler and the status handler agree on which jobs
    exist: [JobDismissHandler] answers 410 exactly when [JobStatusHandler]
    answers 404 for the same id, and otherwise it answers 200 or 500. With
    410 it has changed nothing: the handler and the world are as before, so
    no job was killed and the provider was not called. *)
Theorem JobDismissHandler_gone jobID rh w :
  let res := Legacy.JobDismissHandler E X jobID rh w in
  (Legacy.code res.1.1 = 410 <-> Legacy.code (Legacy.JobStatusHandler E X jobID rh) = 404) /\
  (Legacy.code res.1.1 = 410 -> res.1.2 = rh /\ res.2 = w) /\
  (Legacy.code res.1.1 <> 410 -> Legacy.code res.1.1 = 200 \/ Legacy.code res.1.1 = 500).
Proof.
  cbn zeta. unfold Legacy.JobDismissHandler, Legacy.JobStatusHandler, Legacy.cached_jobs.
  rewrite status_range_code.
  set (js := omap _ _).
  destruct (decide (Forall (fun j => Legacy.any_JobID E X j <> jobID) js)) as [Hall|Hex].
  - rewrite (dismiss_range_gone _ _ _ _ Hall). cbn. split; [tauto|]. split; [auto|].
    intros H; contradiction.
  - assert (Hfound : Exists (fun j => Legacy.any_JobID E X j = jobID) js).
    { apply not_Forall_Exists in Hex; [|intros j; apply _].
      eapply Exists_impl; [exact Hex|]. cbn. intros j Hnn.
      destruct (decide (Legacy.any_JobID E X j = jobID)); [assumption | contradiction]. }
    pose proof (dismiss_range_found jobID _ rh w Hfound) as Hcode.
    split; [|split].
    + split; [|intros; contradiction]. intros H410. destruct Hcode; congruence.
    + intros H410. destruct Hcode; congruence.
    + intros _. exact Hcode.
Qed.

(** A successful [Kill]: what it leaves of the job. *)
Lemma Legacy_Kill_ok_inv b w b' w' :
  Legacy.Kill E (b, w) = (None, (b', w')) ->
  b' = Legacy.set_ctxDone true
         (Legacy.set_UpdateTime (time_Now E (2 + tick w)) (Legacy.set_Status DISMISSED b)) /\
  events w' = events w ++
    [EvNewController (os_Getenv E "AWS_DEFAULT_REGION"); EvJobKill (Legacy.AWSBatchID b)].
Proof.
  unfold Legacy.Kill, newController, bind, getJ, ask. cbn.
  destruct (NewAWSBatchController E _ _ _ _) as [e|]; cbn; [discriminate|].
  destruct (JobKill E _ _) as [e|]; cbn; [discriminate|].
  intros [= <- <-]. split; [reflexivity|]. cbn. rewrite <- !app_assoc. reflexivity.
Qed.

Lemma dismiss_range_skip jobID pre rest rh w :
  Forall (fun q => forall job, Legacy.heap rh !! q = Some job ->
                               Legacy.any_JobID E X job <> jobID) pre ->
  Legacy.dismiss_range E X jobID (pre ++ rest) rh w
  = Legacy.dismiss_range E X jobID rest rh w.
Proof.
  induction 1 as [|q pre Hq _ IH]; cbn [app Legacy.dismiss_range]; [reflexivity|].
  destruct (Legacy.heap rh !! q) as [job|]; [|exact IH].
  specialize (Hq job eq_refl). apply eqb_string_false in Hq. rewrite Hq. exact IH.
Qed.

(** X22. Dismissing through the handler a job of the cloud batch provider
    that the cache holds. When [Kill] returns nil for the first job with the
    id, [JobDismissHandler] answers 200; the job is replaced in place by the
    dismissed one and nothing else of the handler changes; the provider was
    asked for a controller and to kill the provider id of the job. From then
    on [JobResultsHandler] answers 200 with the status dismissed and the
    logs of the job as the detail, whatever the status of the job was
    before: a job that was successful no longer has its outputs served. *)
Theorem JobDismissHandler_then_results jobID rh w pre ptr post b b' w' :
  Legacy.Jobs (Legacy.rh_JobsCache rh) = pre ++ ptr :: post ->
  Forall (fun q => forall job, Legacy.heap rh !! q = Some job ->
                               Legacy.any_JobID E X job <> jobID) pre ->
  Legacy.heap rh !! ptr = Some (Legacy.JBatch b) ->
  Legacy.UUID b = jobID ->
  Legacy.Kill E (b, w) = (None, (b', w')) ->
  Legacy.JobDismissHandler E X jobID rh w
  = (Legacy.JSON 200 (Legacy.BString ("job " +:+ jobID +:+ " dismissed")),
     Legacy.with_heap (<[ptr := Legacy.JBatch b']> (Legacy.heap rh)) rh, w') /\
  events w' = events w ++
    [EvNewController (os_Getenv E "AWS_DEFAULT_REGION"); EvJobKill (Legacy.AWSBatchID b)] /\
  Legacy.JobResultsHandler E X jobID
    (Legacy.with_heap (<[ptr := Legacy.JBatch b']> (Legacy.heap rh)) rh)
  = Legacy.JSON 200
      (Legacy.BObject [("type", JStr "process"); ("jobID", JStr jobID);
                       ("status", JStr DISMISSED);
                       ("detail", Legacy.any_JobLogs E X (Legacy.JBatch b'));
                       ("updated", JNum (time_Now E (2 + tick w)))]).
Proof.
  intros Hjobs Hpre Hptr Hid Hkill.
  destruct (Legacy_Kill_ok_inv _ _ _ _ Hkill) as [Hb' Hev].
  split; [|split; [exact Hev|]].
  - unfold Legacy.JobDismissHandler. rewrite Hjobs, (dismiss_range_skip _ _ _ _ _ Hpre).
    cbn [Legacy.dismiss_range]. rewrite Hptr.
    assert (Heq : (Legacy.any_JobID E X (Legacy.JBatch b) =? jobID)%string = true)
      by (apply eqb_string_true; exact Hid).
    rewrite Heq.
    unfold Legacy.any_Kill, Legacy.method_call. cbn [fst snd].
    cbn [Legacy.job_Kill Legacy.AWSBatchJob_Job]. rewrite Hkill. reflexivity.
  - unfold Legacy.JobResultsHandler, Legacy.cached_jobs.
    cbn [Legacy.rh_JobsCache Legacy.heap Legacy.with_heap].
    rewrite Hjobs, omap_app. cbn [omap list_omap].
    rewrite list_lookup_insert_eq by (eapply lookup_lt_Some; exact Hptr).
    cbn [omap list_omap].
    rewrite results_range_first.
    + unfold Legacy.results_of. rewrite Hb'. reflexivity.
    + clear -Hpre Hptr Hid. induction Hpre as [|q pre Hq _ IH]; cbn [omap list_omap].
      * constructor.
      * destruct (decide (q = ptr)) as [->|Hne].
        { exfalso. apply (Hq _ Hptr). exact Hid. }
        rewrite list_lookup_insert_ne by congruence.
        destruct (Legacy.heap rh !! q) as [job|] eqn:Hq'; [|exact IH].
        constructor; [exact (Hq job eq_refl) | exact IH].
    + rewrite Hb'. exact Hid.
Qed.

(** X23. The status handler and the results handler answer for the same
    job, the first of the cache with the id. When [JobStatusHandler] answers
    404 so does [JobResultsHandler], with the same body. When it answers
    200 with a status, [JobResultsHandler] reports the same status and last
    update, and answers 200 exactly when that status is successful, failed
    or dismissed, 404 otherwise. [JobStatusHandler] answers nothing but 200
    and 404. *)
Theorem JobStatus_JobResults_agree jobID rh :
  let st := Legacy.JobStatusHandler E X jobID rh in
  let rs := Legacy.JobResultsHandler E X jobID rh in
  (Legacy.code st = 404 /\ rs = st) \/
  (exists j,
     j ∈ Legacy.cached_jobs rh /\ Legacy.any_JobID E X j = jobID /\
     st = Legacy.JSON 200
            (Legacy.BObject [("processID", JStr (Legacy.any_ProcessID E X j));
                             ("type", JStr "process"); ("jobID", JStr jobID);
                             ("updated", JNum (Legacy.any_LastUpdate E X j));
                             ("status", JStr (Legacy.any_CurrentStatus E X j))]) /\
     rs = Legacy.results_of E X jobID j /\
     Legacy.code rs = (if terminal (Legacy.any_CurrentStatus E X j) then 200 else 404) /\
     exists entries,
       Legacy.payload rs = Legacy.BObject entries /\
       ("status", JStr (Legacy.any_CurrentStatus E X j)) ∈ entries /\
       ("updated", JNum (Legacy.any_LastUpdate E X j)) ∈ entries).
Proof.
  cbn zeta. unfold Legacy.JobStatusHandler, Legacy.JobResultsHandler.
  induction (Legacy.cached_jobs rh) as [|j js IH];
    cbn [Legacy.status_range Legacy.results_range].
  - left. split; reflexivity.
  - destruct (Legacy.any_JobID E X j =? jobID)%string eqn:Hid.
    + right. exists j. apply eqb_string_true in Hid.
      split; [constructor|]. split; [exact Hid|]. split; [reflexivity|].
      split; [reflexivity|].
      unfold Legacy.results_of, terminal.
      destruct (Legacy.any_CurrentStatus E X j =? SUCCESSFUL)%string;
        [|destruct (Legacy.any_CurrentStatus E X j =? FAILED)%string;
          [|destruct (Legacy.any_CurrentStatus E X j =? DISMISSED)%string]];
        cbn; (split; [reflexivity|]); eexists; (split; [reflexivity|]);
        split; repeat (first [apply list_elem_of_here | apply list_elem_of_further]).
    + destruct IH as [IH | (j' & Hin & IH)]; [left; exact IH|].
      right. exists j'. split; [apply list_elem_of_further; exact Hin | exact IH].
Qed.

End LookupFacts.


Lemma JobDismissHandler_then_results_witness :
  (Legacy.JobDismissHandler env_ok outside0 "id-2" handler3 world0).1.1
  = Legacy.JSON 200 (Legacy.BString "job id-2 dismissed") /\
  Legacy.code (Legacy.JobResultsHandler env_ok outside0 "id-2" handler3) = 404 /\
  exists detail,
    Legacy.JobResultsHandler env_ok outside0 "id-2"
      (Legacy.JobDismissHandler env_ok outside0 "id-2" handler3 world0).1.2
    = Legacy.JSON 200
        (Legacy.BObject [("type", JStr "process"); ("jobID", JStr "id-2");
                         ("status", JStr "dismissed"); ("detail", detail);
                         ("updated", JNum 1002)]).
Proof.
  assert (Hjobs : Legacy.Jobs (Legacy.rh_JobsCache handler3) = [0; 1]%nat ++ 2%nat :: [])
    by reflexivity.
  assert (Hpre : Forall (fun q => forall job, Legacy.heap handler3 !! q = Some job ->
                                   Legacy.any_JobID env_ok outside0 job <> "id-2")
                   [0; 1]%nat)
    by (repeat constructor; intros job [= <-]; cbn; discriminate).
  eassert (Hkill : Legacy.Kill env_ok (Legacy.set_UUID "id-2" (legacy_job RUNNING), world0)
                   = (None, (_, _))) by (vm_compute; reflexivity).
  destruct (JobDismissHandler_then_results env_ok outside0 "id-2" handler3 world0
              _ _ _ _ _ _ Hjobs Hpre eq_refl eq_refl Hkill) as (Hd & _ & Hr).
  split; [rewrite Hd; reflexivity|]. split; [reflexivity|].
  eexists. rewrite Hd. exact Hr.
Defined.


(** ** The listing of the registry *)

Section ListingFacts.

Context {J : Type} `{!Legacy.Job J}.
Context (sort_Slice : (Legacy.JobStatus -> Legacy.JobStatus -> bool) ->
                      list Legacy.JobStatus -> list Legacy.JobStatus).

Implicit Types (ac : Api.ActiveJobs J) (order : list string).

Lemma key_in_order order ac k :
  order ≡ₚ (map_to_list (Api.Jobs ac)).*1 ->
  k ∈ order <-> is_Some (Api.Jobs ac !! k).
Proof.
  intros Hperm. rewrite Hperm, list_elem_of_fmap. split.
  - intros ([k' j] & -> & Hin). apply elem_of_map_to_list in Hin. cbn. eauto.
  - intros [j Hj]. exists (k, j). split; [reflexivity|].
    apply elem_of_map_to_list. exact Hj.
Qed.

Lemma statuses_length order ac :
  (forall k, k ∈ order -> is_Some (Api.Jobs ac !! k)) ->
  length (Legacy.statuses order ac) = length order.
Proof.
  unfold Legacy.statuses. induction order as [|k order IH]; intros Hall; [reflexivity|].
  cbn [omap list_omap]. destruct (Hall k) as [j Hj]; [apply list_elem_of_here|].
  rewrite Hj. cbn. f_equal. apply IH. intros k' Hk'. apply Hall.
  apply list_elem_of_further. exact Hk'.
Qed.

Lemma statuses_elem order ac s :
  order ≡ₚ (map_to_list (Api.Jobs ac)).*1 ->
  s ∈ Legacy.statuses order ac <->
  exists k j, Api.Jobs ac !! k = Some j /\ s = Legacy.status_of j.
Proof.
  intros Hperm. unfold Legacy.statuses. rewrite list_elem_of_omap. split.
  - intros (k & _ & Hk). destruct (Api.Jobs ac !! k) as [j|] eqn:Hj; [|discriminate].
    injection Hk as <-. eauto.
  - intros (k & j & Hj & ->). exists k. split.
    + apply (key_in_order _ ac); eauto.
    + rewrite Hj. reflexivity.
Qed.

(** X24. [ListJobs], given that [sort.Slice] leaves a permutation of the
    slice in which no entry is more recent than one before it, and that the
    loop visits every key of the map once. The list has one entry for each
    registered job and no other; an entry carries the id, process id,
    status and last update of its job, and an empty type: the default of
    the struct tag is not applied. The first entry is at least as recent as
    every registered job. *)
Theorem ListJobs_most_recent_first order ac :
  order ≡ₚ (map_to_list (Api.Jobs ac)).*1 ->
  Legacy.ListJobs sort_Slice order ac ≡ₚ Legacy.statuses order ac ->
  StronglySorted (fun a b => Legacy.more_recent b a = false)
    (Legacy.ListJobs sort_Slice order ac) ->
  length (Legacy.ListJobs sort_Slice order ac) = size (Api.Jobs ac) /\
  (forall k j, Api.Jobs ac !! k = Some j ->
     Legacy.status_of j ∈ Legacy.ListJobs sort_Slice order ac) /\
  (forall s, s ∈ Legacy.ListJobs sort_Slice order ac ->
     Legacy.js_Type s = "" /\
     exists k j, Api.Jobs ac !! k = Some j /\
       Legacy.js_JobID s = Legacy.job_JobID j /\
       Legacy.js_ProcessID s = Legacy.job_ProcessID j /\
       Legacy.js_Status s = Legacy.job_CurrentStatus j /\
       Legacy.js_LastUpdate s = Legacy.job_LastUpdate j) /\
  (forall s k j, head (Legacy.ListJobs sort_Slice order ac) = Some s ->
     Api.Jobs ac !! k = Some j ->
     Legacy.job_LastUpdate j <= Legacy.js_LastUpdate s).
Proof.
  intros Horder Hperm Hsorted.
  assert (Hin : forall k j, Api.Jobs ac !! k = Some j ->
                  Legacy.status_of j ∈ Legacy.ListJobs sort_Slice order ac).
  { intros k j Hj. rewrite Hperm. apply statuses_elem; eauto. }
  split; [|split; [exact Hin|split]].
  - rewrite Hperm, statuses_length.
    + rewrite Horder, length_fmap. apply length_map_to_list.
    + intros k Hk. apply (key_in_order order ac); assumption.
  - intros s Hs. rewrite Hperm in Hs. apply statuses_elem in Hs; [|exact Horder].
    destruct Hs as (k & j & Hj & ->). split; [reflexivity|].
    exists k, j. auto.
  - intros s k j Hhead Hj. specialize (Hin k j Hj).
    destruct (Legacy.ListJobs sort_Slice order ac) as [|s0 rest]; [discriminate|].
    injection Hhead as ->.
    apply elem_of_cons in Hin as [<- | Hin]; [cbn; lia|].
    apply StronglySorted_inv in Hsorted as [_ Hall].
    rewrite Forall_forall in Hall. specialize (Hall _ Hin).
    unfold Legacy.more_recent, Legacy.After in Hall. cbn in Hall. lia.
Qed.

End ListingFacts.

Lemma ListJobs_most_recent_first_witness :
  let res := @Legacy.ListJobs _ (Legacy.AWSBatchJob_Job env_ok outside0) insertion_sort
               (map_to_list (Api.Jobs listing0)).*1 listing0 in
  length res = 2%nat /\ forall s, head res = Some s -> 700 <= Legacy.js_LastUpdate s.
Proof.
  cbn zeta.
  destruct (@ListJobs_most_recent_first _ (Legacy.AWSBatchJob_Job env_ok outside0)
              insertion_sort (map_to_list (Api.Jobs listing0)).*1 listing0)
    as (Hlen & _ & _ & Hhead).
  - reflexivity.
  - vm_compute. apply perm_swap.
  - vm_compute. repeat constructor.
  - split; [exact Hlen|]. intros s Hs.
    apply (Hhead s "b" (Legacy.set_UpdateTime 700 (Legacy.set_UUID "b" (legacy_job SUCCESSFUL)))
             Hs).
    reflexivity.
Defined.

(** ** The start of the server *)

Section BootFacts.

Context {Job ProcessList : Type} (B : @Config.BootEnv Job ProcessList).

(** X25. [NewRESTHander] with the overwrite flag set never reads the
    snapshot and never exits through [log.Fatalf]; when it returns a
    handler, the cache of the handler is empty, with the size it was given
    as its maximum and a trim threshold of 0.80, the processes are those the
    loader returned, and the line logged is the one of the clean start. *)
Theorem NewRESTHander_overwrite pluginsDir cacheSize :
  let r := Config.NewRESTHander B pluginsDir cacheSize true in
  (Config.CallLoadCacheFromFile ∉ Config.boot_calls r) /\
  (forall msg, Config.boot_result r <> Config.Fatal msg) /\
  (forall h, Config.boot_result r = Config.Started h ->
     Config.rh_JobsCache h
     = {| Config.MaxSizeBytes := cacheSize; Config.CurrentSizeBytes := 0;
          Config.TrimThreshold := 80; Config.Jobs := ∅ |} /\
     Config.LoadProcesses B pluginsDir = Ok (Config.rh_ProcessList h) /\
     Config.boot_log r = ["Starting with clean Jobs cache."] /\
     Config.boot_calls r
     = [Config.CallParseGlob "public/views/*.html"; Config.CallNewSession;
        Config.CallLoadProcesses pluginsDir]).
Proof.
  cbn zeta. unfold Config.NewRESTHander, Config.load_processes. cbn [negb].
  destruct (Config.ParseGlob B _) as [e|]; cbn.
  { split; [|split; [discriminate|discriminate]].
    intros H. apply list_elem_of_singleton in H. discriminate. }
  destruct (Config.NewSessionWithOptions B) as [e|]; cbn.
  { split; [|split; [discriminate|discriminate]].
    intros H. repeat (apply elem_of_cons in H as [H|H]; [discriminate|]). inversion H. }
  destruct (Config.LoadProcesses B pluginsDir) as [pl|e]; cbn.
  - split; [|split; [discriminate|]].
    + intros H. repeat (apply elem_of_cons in H as [H|H]; [discriminate|]). inversion H.
    + intros h [= <-]. cbn. auto.
  - split; [|split; [discriminate|discriminate]].
    intros H. repeat (apply elem_of_cons in H as [H|H]; [discriminate|]). inversion H.
Qed.

(** X26. [NewRESTHander] without the overwrite flag calls the snapshot
    loader on the fresh cache. It exits through [log.Fatalf] exactly when
    the templates and the session were had and the loader returned an error
    other than not found, and then the processes are never loaded. When it
    returns a handler, the cache of the handler is the one the loader left,
    and the loader returned nil or the error not found. *)
Theorem NewRESTHander_snapshot pluginsDir cacheSize :
  let r := Config.NewRESTHander B pluginsDir cacheSize false in
  let fresh := {| Config.MaxSizeBytes := cacheSize; Config.CurrentSizeBytes := 0;
                  Config.TrimThreshold := 80; Config.Jobs := ∅ |} in
  ((exists msg, Config.boot_result r = Config.Fatal msg) <->
   Config.ParseGlob B "public/views/*.html" = None /\
   Config.NewSessionWithOptions B = None /\
   exists e, (Config.LoadCacheFromFile B fresh).2 = Some e /\ e <> "not found") /\
  (forall msg, Config.boot_result r = Config.Fatal msg ->
     last (Config.boot_calls r) = Some Config.CallLoadCacheFromFile /\
     (Config.CallLoadProcesses pluginsDir ∉ Config.boot_calls r)) /\
  (forall h, Config.boot_result r = Config.Started h ->
     Config.rh_JobsCache h = (Config.LoadCacheFromFile B fresh).1 /\
     ((Config.LoadCacheFromFile B fresh).2 = None /\
      Config.boot_log r = ["Starting from snapshot saved at .data/snapshot.gob"] \/
      (Config.LoadCacheFromFile B fresh).2 = Some "not found" /\
      Config.boot_log r = ["Starting with clean Jobs cache."]) /\
     Config.boot_calls r
     = [Config.CallParseGlob "public/views/*.html"; Config.CallNewSession;
        Config.CallLoadCacheFromFile; Config.CallLoadProcesses pluginsDir]).
Proof.
  cbn zeta. unfold Config.NewRESTHander, Config.load_processes. cbn [negb].
  destruct (Config.ParseGlob B _) as [e|]; cbn.
  { split; [|split; discriminate].
    split; [intros [msg [=]] | intros ([=] & _)]. }
  destruct (Config.NewSessionWithOptions B) as [e|]; cbn.
  { split; [|split; discriminate].
    split; [intros [msg [=]] | intros (_ & [=] & _)]. }
  destruct (Config.LoadCacheFromFile B _) as [jc [e|]]; cbn.
  - destruct (e =? "not found")%string eqn:Hnf.
    + apply eqb_string_true in Hnf. subst e.
      destruct (Config.LoadProcesses B pluginsDir) as [pl|e]; cbn.
      * split; [|split; [discriminate|]].
        { split; [intros [msg [=]] | intros (_ & _ & e & [= <-] & Hne); contradiction]. }
        intros h [= <-]. cbn. auto.
      * split; [|split; discriminate].
        split; [intros [msg [=]] | intros (_ & _ & e' & [= <-] & Hne); contradiction].
    + apply eqb_string_false in Hnf. cbn.
      split; [|split; [|discriminate]].
      * split; [eauto 6 | eauto].
      * intros msg _. split; [reflexivity|].
        intros H. repeat (apply elem_of_cons in H as [H|H]; [discriminate|]). inversion H.
  - destruct (Config.LoadProcesses B pluginsDir) as [pl|e]; cbn.
    + split; [|split; [discriminate|]].
      { split; [intros [msg [=]] | intros (_ & _ & e & [=] & _)]. }
      intros h [= <-]. cbn. auto.
    + split; [|split; discriminate].
      split; [intros [msg [=]] | intros (_ & _ & e' & [=] & _)].
Qed.

End BootFacts.
